(** * Image converter service: conversion pipeline of [app.py]

    A shallow embedding of the request handlers [convert],
    [preview_image] and [analyze_image] and of their helpers
    [build_save_params], [apply_transformations] and [add_watermark],
    followed by the properties of the pipeline stated in the
    specification and by further properties of the handlers.

    Layout:
    - [Py]     the Python built-ins the handlers rely on: exceptions,
               [str] methods, [int()] and [float()] on text, binary64
               arithmetic;
    - [PIL]    the part of Pillow the handlers call, at the level of
               sizes, modes and (for transpositions) pixel positions;
    - the handlers themselves, in the order of the source;
    - the properties.

    Conventions of the model:
    - a text is kept as its UTF-8 bytes; [str.upper], [str.lower],
      [int()] and [float()] follow CPython 3.11 with the character
      database of Unicode 14.0;
    - a [float] is the rational it denotes, every operation rounds the
      exact result to binary64 (nearest, ties to even), with overflow
      to infinity and gradual underflow; the two zeros are one;
    - an upload is given with the outcome of [Image.open] on it;
    - Pillow raises where the handlers can run into it: [resize] on a
      side below 1 or outside the range of a C [int], [ImageDraw.text]
      on a colour component outside that range, [save] on a mode the
      encoder does not write, [alpha_composite] on pictures that do not
      match; the memory of the machine is not modelled;
    - the handlers are given the request Werkzeug parsed; the limit on
      the size of the body is added around them ([post_convert],
      [post_preview], [post_analyze_image]);
    - exceptions are kept by class; [str(e)] in an error document is
      kept as the exception it was made of. *)

From Stdlib Require Import ZArith QArith Qabs List String Ascii Bool Lia Lqa.
From Stdlib Require Import Floats.
Import ListNotations.

Local Open Scope string_scope.
Local Open Scope Z_scope.

(* ================================================================== *)
(** * Python built-ins *)
(* ================================================================== *)

Module Py.

(** Exception classes raised along the pipeline. *)
Inductive exn : Type :=
| ValueError
| OverflowError
| ZeroDivisionError
| KeyError
| OSError
| UnidentifiedImageError.

(** A computation that returns a value or raises. *)
Inductive result (A : Type) : Type :=
| Ok (a : A)
| Raise (e : exn).
Arguments Ok {A} a.
Arguments Raise {A} e.

Definition bind {A B : Type} (c : result A) (k : A -> result B) : result B :=
  match c with
  | Ok a => k a
  | Raise e => Raise e
  end.

(** [for x in xs: ys.append(f x)]: the first exception leaves the loop. *)
Fixpoint for_each {A B : Type} (f : A -> result B) (xs : list A) : result (list B) :=
  match xs with
  | [] => Ok []
  | x :: xs' =>
      bind (f x) (fun y => bind (for_each f xs') (fun ys => Ok (y :: ys)))
  end.

(** ** Text

    A [str] is kept as its UTF-8 encoding, one [ascii] per byte: form
    values reach the handlers decoded from UTF-8, and comparing two
    texts, cutting at a dot or looking a text up in a table gives the
    same on the bytes as on the characters.  The methods that go by
    character ([upper], [lower], [int()], [float()]) decode first.  A
    text that is not well-formed UTF-8 stands for no [str]; the decoder
    reads an ill-formed sequence as U+FFFD. *)

Definition chars (s : string) : list ascii := list_ascii_of_string s.
Definition text (l : list ascii) : string := string_of_list_ascii l.

Definition code (c : ascii) : Z := Z.of_nat (nat_of_ascii c).
Definition byte (n : Z) : ascii := ascii_of_nat (Z.to_nat n).

(** [s.isascii()] *)
Definition isascii (s : string) : bool :=
  forallb (fun c => code c <? 128) (chars s).

(** The ASCII classes of C's [ctype] as CPython uses them
    ([Py_ISSPACE]: TAB..CR and SPACE). *)
Definition is_upper (c : ascii) : bool := (65 <=? code c) && (code c <=? 90).
Definition is_lower (c : ascii) : bool := (97 <=? code c) && (code c <=? 122).
Definition is_digit (c : ascii) : bool := (48 <=? code c) && (code c <=? 57).
Definition is_space (c : ascii) : bool :=
  ((9 <=? code c) && (code c <=? 13)) || (code c =? 32).

Definition to_upper (c : ascii) : ascii :=
  if is_lower c then ascii_of_nat (nat_of_ascii c - 32) else c.
Definition to_lower (c : ascii) : ascii :=
  if is_upper c then ascii_of_nat (nat_of_ascii c + 32) else c.

(** *** Code points *)

(** A first byte: the code point it is, or the number of bytes that
    must follow, the bits it brings and the least code point a sequence
    of that length may encode. *)
Definition lead (b : Z) : (nat * Z * Z) + Z :=
  if b <? 128 then inr b
  else if (194 <=? b) && (b <=? 223) then inl (1%nat, b - 192, 128)
  else if (224 <=? b) && (b <=? 239) then inl (2%nat, b - 224, 2048)
  else if (240 <=? b) && (b <=? 244) then inl (3%nat, b - 240, 65536)
  else inr 65533.

(** The code point of a complete sequence: not one a shorter sequence
    encodes, no surrogate, none beyond U+10FFFF. *)
Definition scalar (least cp : Z) : Z :=
  if (least <=? cp) && (cp <=? 1114111)
     && negb ((55296 <=? cp) && (cp <=? 57343))
  then cp else 65533.

Fixpoint decode_from (pending : nat) (least acc : Z) (l : list ascii) : list Z :=
  match l with
  | [] => match pending with O => [] | S _ => [65533] end
  | c :: l' =>
      let b := code c in
      match pending with
      | S p =>
          if (128 <=? b) && (b <=? 191) then
            match p with
            | O => scalar least (64 * acc + (b - 128)) :: decode_from 0 0 0 l'
            | S _ => decode_from p least (64 * acc + (b - 128)) l'
            end
          else
            65533 :: match lead b with
                     | inr cp => cp :: decode_from 0 0 0 l'
                     | inl (p', a, m) => decode_from p' m a l'
                     end
      | O =>
          match lead b with
          | inr cp => cp :: decode_from 0 0 0 l'
          | inl (p', a, m) => decode_from p' m a l'
          end
      end
  end.

Definition decode (l : list ascii) : list Z := decode_from 0 0 0 l.

Definition encode_cp (c : Z) : list ascii :=
  if c <? 128 then [byte c]
  else if c <? 2048 then [byte (192 + c / 64); byte (128 + c mod 64)]
  else if c <? 65536 then
    [byte (224 + c / 4096); byte (128 + (c / 64) mod 64); byte (128 + c mod 64)]
  else
    [byte (240 + c / 262144); byte (128 + (c / 4096) mod 64);
     byte (128 + (c / 64) mod 64); byte (128 + c mod 64)].

Definition encode (l : list Z) : list ascii := flat_map encode_cp l.

(** The text of a list of code points. *)
Definition of_code_points (l : list Z) : string :=
  string_of_list_ascii (encode l).

(** *** The character database (Unicode 14.0, as in CPython 3.11)

    Case mappings of one code point to one are kept by runs
    [(first, last, step, shift)]: every [step]-th code point from
    [first] to [last] is mapped [shift] further.  Mappings to several
    code points are listed one by one. *)

Fixpoint shift_in (runs : list (Z * Z * Z * Z)) (c : Z) : option Z :=
  match runs with
  | [] => None
  | (first, last, step, shift) :: runs' =>
      if (first <=? c) && (c <=? last) && ((c - first) mod step =? 0)
      then Some (c + shift)
      else shift_in runs' c
  end.

Fixpoint expansion (table : list (Z * list Z)) (c : Z) : option (list Z) :=
  match table with
  | [] => None
  | (k, l) :: table' => if c =? k then Some l else expansion table' c
  end.

Fixpoint in_ranges (ranges : list (Z * Z)) (c : Z) : bool :=
  match ranges with
  | [] => false
  | (first, last) :: ranges' =>
      ((first <=? c) && (c <=? last)) || in_ranges ranges' c
  end.

Definition upper_runs : list (Z * Z * Z * Z) :=
  [(97, 122, 1, -32); (181, 181, 1, 743); (224, 246, 1, -32);
   (248, 254, 1, -32); (255, 255, 1, 121); (257, 303, 2, -1);
   (305, 305, 1, -232); (307, 311, 2, -1); (314, 328, 2, -1);
   (331, 375, 2, -1); (378, 382, 2, -1); (383, 383, 1, -300);
   (384, 384, 1, 195); (387, 389, 2, -1); (392, 392, 1, -1);
   (396, 396, 1, -1); (402, 402, 1, -1); (405, 405, 1, 97); (409, 409, 1, -1);
   (410, 410, 1, 163); (414, 414, 1, 130); (417, 421, 2, -1);
   (424, 424, 1, -1); (429, 429, 1, -1); (432, 432, 1, -1); (436, 438, 2, -1);
   (441, 441, 1, -1); (445, 445, 1, -1); (447, 447, 1, 56); (453, 453, 1, -1);
   (454, 454, 1, -2); (456, 456, 1, -1); (457, 457, 1, -2); (459, 459, 1, -1);
   (460, 460, 1, -2); (462, 476, 2, -1); (477, 477, 1, -79);
   (479, 495, 2, -1); (498, 498, 1, -1); (499, 499, 1, -2); (501, 501, 1, -1);
   (505, 543, 2, -1); (547, 563, 2, -1); (572, 572, 1, -1);
   (575, 576, 1, 10815); (578, 578, 1, -1); (583, 591, 2, -1);
   (592, 592, 1, 10783); (593, 593, 1, 10780); (594, 594, 1, 10782);
   (595, 595, 1, -210); (596, 596, 1, -206); (598, 599, 1, -205);
   (601, 601, 1, -202); (603, 603, 1, -203); (604, 604, 1, 42319);
   (608, 608, 1, -205); (609, 609, 1, 42315); (611, 611, 1, -207);
   (613, 613, 1, 42280); (614, 614, 1, 42308); (616, 616, 1, -209);
   (617, 617, 1, -211); (618, 618, 1, 42308); (619, 619, 1, 10743);
   (620, 620, 1, 42305); (623, 623, 1, -211); (625, 625, 1, 10749);
   (626, 626, 1, -213); (629, 629, 1, -214); (637, 637, 1, 10727);
   (640, 640, 1, -218); (642, 642, 1, 42307); (643, 643, 1, -218);
   (647, 647, 1, 42282); (648, 648, 1, -218); (649, 649, 1, -69);
   (650, 651, 1, -217); (652, 652, 1, -71); (658, 658, 1, -219);
   (669, 669, 1, 42261); (670, 670, 1, 42258); (837, 837, 1, 84);
   (881, 883, 2, -1); (887, 887, 1, -1); (891, 893, 1, 130);
   (940, 940, 1, -38); (941, 943, 1, -37); (945, 961, 1, -32);
   (962, 962, 1, -31); (963, 971, 1, -32); (972, 972, 1, -64);
   (973, 974, 1, -63); (976, 976, 1, -62); (977, 977, 1, -57);
   (981, 981, 1, -47); (982, 982, 1, -54); (983, 983, 1, -8);
   (985, 1007, 2, -1); (1008, 1008, 1, -86); (1009, 1009, 1, -80);
   (1010, 1010, 1, 7); (1011, 1011, 1, -116); (1013, 1013, 1, -96);
   (1016, 1016, 1, -1); (1019, 1019, 1, -1); (1072, 1103, 1, -32);
   (1104, 1119, 1, -80); (1121, 1153, 2, -1); (1163, 1215, 2, -1);
   (1218, 1230, 2, -1); (1231, 1231, 1, -15); (1233, 1327, 2, -1);
   (1377, 1414, 1, -48); (4304, 4346, 1, 3008); (4349, 4351, 1, 3008);
   (5112, 5117, 1, -8); (7296, 7296, 1, -6254); (7297, 7297, 1, -6253);
   (7298, 7298, 1, -6244); (7299, 7300, 1, -6242); (7301, 7301, 1, -6243);
   (7302, 7302, 1, -6236); (7303, 7303, 1, -6181); (7304, 7304, 1, 35266);
   (7545, 7545, 1, 35332); (7549, 7549, 1, 3814); (7566, 7566, 1, 35384);
   (7681, 7829, 2, -1); (7835, 7835, 1, -59); (7841, 7935, 2, -1);
   (7936, 7943, 1, 8); (7952, 7957, 1, 8); (7968, 7975, 1, 8);
   (7984, 7991, 1, 8); (8000, 8005, 1, 8); (8017, 8023, 2, 8);
   (8032, 8039, 1, 8); (8048, 8049, 1, 74); (8050, 8053, 1, 86);
   (8054, 8055, 1, 100); (8056, 8057, 1, 128); (8058, 8059, 1, 112);
   (8060, 8061, 1, 126); (8112, 8113, 1, 8); (8126, 8126, 1, -7205);
   (8144, 8145, 1, 8); (8160, 8161, 1, 8); (8165, 8165, 1, 7);
   (8526, 8526, 1, -28); (8560, 8575, 1, -16); (8580, 8580, 1, -1);
   (9424, 9449, 1, -26); (11312, 11359, 1, -48); (11361, 11361, 1, -1);
   (11365, 11365, 1, -10795); (11366, 11366, 1, -10792);
   (11368, 11372, 2, -1); (11379, 11379, 1, -1); (11382, 11382, 1, -1);
   (11393, 11491, 2, -1); (11500, 11502, 2, -1); (11507, 11507, 1, -1);
   (11520, 11557, 1, -7264); (11559, 11559, 1, -7264);
   (11565, 11565, 1, -7264); (42561, 42605, 2, -1); (42625, 42651, 2, -1);
   (42787, 42799, 2, -1); (42803, 42863, 2, -1); (42874, 42876, 2, -1);
   (42879, 42887, 2, -1); (42892, 42892, 1, -1); (42897, 42899, 2, -1);
   (42900, 42900, 1, 48); (42903, 42921, 2, -1); (42933, 42947, 2, -1);
   (42952, 42954, 2, -1); (42961, 42961, 1, -1); (42967, 42969, 2, -1);
   (42998, 42998, 1, -1); (43859, 43859, 1, -928); (43888, 43967, 1, -38864);
   (65345, 65370, 1, -32); (66600, 66639, 1, -40); (66776, 66811, 1, -40);
   (66967, 67003, 2, -39); (66968, 66976, 2, -39); (66980, 66992, 2, -39);
   (66996, 67000, 2, -39); (67004, 67004, 1, -39); (68800, 68850, 1, -64);
   (71872, 71903, 1, -32); (93792, 93823, 1, -32); (125218, 125251, 1, -34)].

Definition upper_expansions : list (Z * list Z) :=
  [(223, [83; 83]); (329, [700; 78]); (496, [74; 780]);
   (912, [921; 776; 769]); (944, [933; 776; 769]); (1415, [1333; 1362]);
   (7830, [72; 817]); (7831, [84; 776]); (7832, [87; 778]); (7833, [89; 778]);
   (7834, [65; 702]); (8016, [933; 787]); (8018, [933; 787; 768]);
   (8020, [933; 787; 769]); (8022, [933; 787; 834]); (8064, [7944; 921]);
   (8065, [7945; 921]); (8066, [7946; 921]); (8067, [7947; 921]);
   (8068, [7948; 921]); (8069, [7949; 921]); (8070, [7950; 921]);
   (8071, [7951; 921]); (8072, [7944; 921]); (8073, [7945; 921]);
   (8074, [7946; 921]); (8075, [7947; 921]); (8076, [7948; 921]);
   (8077, [7949; 921]); (8078, [7950; 921]); (8079, [7951; 921]);
   (8080, [7976; 921]); (8081, [7977; 921]); (8082, [7978; 921]);
   (8083, [7979; 921]); (8084, [7980; 921]); (8085, [7981; 921]);
   (8086, [7982; 921]); (8087, [7983; 921]); (8088, [7976; 921]);
   (8089, [7977; 921]); (8090, [7978; 921]); (8091, [7979; 921]);
   (8092, [7980; 921]); (8093, [7981; 921]); (8094, [7982; 921]);
   (8095, [7983; 921]); (8096, [8040; 921]); (8097, [8041; 921]);
   (8098, [8042; 921]); (8099, [8043; 921]); (8100, [8044; 921]);
   (8101, [8045; 921]); (8102, [8046; 921]); (8103, [8047; 921]);
   (8104, [8040; 921]); (8105, [8041; 921]); (8106, [8042; 921]);
   (8107, [8043; 921]); (8108, [8044; 921]); (8109, [8045; 921]);
   (8110, [8046; 921]); (8111, [8047; 921]); (8114, [8122; 921]);
   (8115, [913; 921]); (8116, [902; 921]); (8118, [913; 834]);
   (8119, [913; 834; 921]); (8124, [913; 921]); (8130, [8138; 921]);
   (8131, [919; 921]); (8132, [905; 921]); (8134, [919; 834]);
   (8135, [919; 834; 921]); (8140, [919; 921]); (8146, [921; 776; 768]);
   (8147, [921; 776; 769]); (8150, [921; 834]); (8151, [921; 776; 834]);
   (8162, [933; 776; 768]); (8163, [933; 776; 769]); (8164, [929; 787]);
   (8166, [933; 834]); (8167, [933; 776; 834]); (8178, [8186; 921]);
   (8179, [937; 921]); (8180, [911; 921]); (8182, [937; 834]);
   (8183, [937; 834; 921]); (8188, [937; 921]); (64256, [70; 70]);
   (64257, [70; 73]); (64258, [70; 76]); (64259, [70; 70; 73]);
   (64260, [70; 70; 76]); (64261, [83; 84]); (64262, [83; 84]);
   (64275, [1348; 1350]); (64276, [1348; 1333]); (64277, [1348; 1339]);
   (64278, [1358; 1350]); (64279, [1348; 1341])].

Definition lower_runs : list (Z * Z * Z * Z) :=
  [(65, 90, 1, 32); (192, 214, 1, 32); (216, 222, 1, 32); (256, 302, 2, 1);
   (306, 310, 2, 1); (313, 327, 2, 1); (330, 374, 2, 1); (376, 376, 1, -121);
   (377, 381, 2, 1); (385, 385, 1, 210); (386, 388, 2, 1); (390, 390, 1, 206);
   (391, 391, 1, 1); (393, 394, 1, 205); (395, 395, 1, 1); (398, 398, 1, 79);
   (399, 399, 1, 202); (400, 400, 1, 203); (401, 401, 1, 1);
   (403, 403, 1, 205); (404, 404, 1, 207); (406, 406, 1, 211);
   (407, 407, 1, 209); (408, 408, 1, 1); (412, 412, 1, 211);
   (413, 413, 1, 213); (415, 415, 1, 214); (416, 420, 2, 1);
   (422, 422, 1, 218); (423, 423, 1, 1); (425, 425, 1, 218); (428, 428, 1, 1);
   (430, 430, 1, 218); (431, 431, 1, 1); (433, 434, 1, 217); (435, 437, 2, 1);
   (439, 439, 1, 219); (440, 440, 1, 1); (444, 444, 1, 1); (452, 452, 1, 2);
   (453, 453, 1, 1); (455, 455, 1, 2); (456, 456, 1, 1); (458, 458, 1, 2);
   (459, 475, 2, 1); (478, 494, 2, 1); (497, 497, 1, 2); (498, 500, 2, 1);
   (502, 502, 1, -97); (503, 503, 1, -56); (504, 542, 2, 1);
   (544, 544, 1, -130); (546, 562, 2, 1); (570, 570, 1, 10795);
   (571, 571, 1, 1); (573, 573, 1, -163); (574, 574, 1, 10792);
   (577, 577, 1, 1); (579, 579, 1, -195); (580, 580, 1, 69);
   (581, 581, 1, 71); (582, 590, 2, 1); (880, 882, 2, 1); (886, 886, 1, 1);
   (895, 895, 1, 116); (902, 902, 1, 38); (904, 906, 1, 37);
   (908, 908, 1, 64); (910, 911, 1, 63); (913, 929, 1, 32); (931, 939, 1, 32);
   (975, 975, 1, 8); (984, 1006, 2, 1); (1012, 1012, 1, -60);
   (1015, 1015, 1, 1); (1017, 1017, 1, -7); (1018, 1018, 1, 1);
   (1021, 1023, 1, -130); (1024, 1039, 1, 80); (1040, 1071, 1, 32);
   (1120, 1152, 2, 1); (1162, 1214, 2, 1); (1216, 1216, 1, 15);
   (1217, 1229, 2, 1); (1232, 1326, 2, 1); (1329, 1366, 1, 48);
   (4256, 4293, 1, 7264); (4295, 4295, 1, 7264); (4301, 4301, 1, 7264);
   (5024, 5103, 1, 38864); (5104, 5109, 1, 8); (7312, 7354, 1, -3008);
   (7357, 7359, 1, -3008); (7680, 7828, 2, 1); (7838, 7838, 1, -7615);
   (7840, 7934, 2, 1); (7944, 7951, 1, -8); (7960, 7965, 1, -8);
   (7976, 7983, 1, -8); (7992, 7999, 1, -8); (8008, 8013, 1, -8);
   (8025, 8031, 2, -8); (8040, 8047, 1, -8); (8072, 8079, 1, -8);
   (8088, 8095, 1, -8); (8104, 8111, 1, -8); (8120, 8121, 1, -8);
   (8122, 8123, 1, -74); (8124, 8124, 1, -9); (8136, 8139, 1, -86);
   (8140, 8140, 1, -9); (8152, 8153, 1, -8); (8154, 8155, 1, -100);
   (8168, 8169, 1, -8); (8170, 8171, 1, -112); (8172, 8172, 1, -7);
   (8184, 8185, 1, -128); (8186, 8187, 1, -126); (8188, 8188, 1, -9);
   (8486, 8486, 1, -7517); (8490, 8490, 1, -8383); (8491, 8491, 1, -8262);
   (8498, 8498, 1, 28); (8544, 8559, 1, 16); (8579, 8579, 1, 1);
   (9398, 9423, 1, 26); (11264, 11311, 1, 48); (11360, 11360, 1, 1);
   (11362, 11362, 1, -10743); (11363, 11363, 1, -3814);
   (11364, 11364, 1, -10727); (11367, 11371, 2, 1); (11373, 11373, 1, -10780);
   (11374, 11374, 1, -10749); (11375, 11375, 1, -10783);
   (11376, 11376, 1, -10782); (11378, 11378, 1, 1); (11381, 11381, 1, 1);
   (11390, 11391, 1, -10815); (11392, 11490, 2, 1); (11499, 11501, 2, 1);
   (11506, 11506, 1, 1); (42560, 42604, 2, 1); (42624, 42650, 2, 1);
   (42786, 42798, 2, 1); (42802, 42862, 2, 1); (42873, 42875, 2, 1);
   (42877, 42877, 1, -35332); (42878, 42886, 2, 1); (42891, 42891, 1, 1);
   (42893, 42893, 1, -42280); (42896, 42898, 2, 1); (42902, 42920, 2, 1);
   (42922, 42922, 1, -42308); (42923, 42923, 1, -42319);
   (42924, 42924, 1, -42315); (42925, 42925, 1, -42305);
   (42926, 42926, 1, -42308); (42928, 42928, 1, -42258);
   (42929, 42929, 1, -42282); (42930, 42930, 1, -42261);
   (42931, 42931, 1, 928); (42932, 42946, 2, 1); (42948, 42948, 1, -48);
   (42949, 42949, 1, -42307); (42950, 42950, 1, -35384); (42951, 42953, 2, 1);
   (42960, 42960, 1, 1); (42966, 42968, 2, 1); (42997, 42997, 1, 1);
   (65313, 65338, 1, 32); (66560, 66599, 1, 40); (66736, 66771, 1, 40);
   (66928, 66964, 2, 39); (66929, 66937, 2, 39); (66941, 66953, 2, 39);
   (66957, 66961, 2, 39); (66965, 66965, 1, 39); (68736, 68786, 1, 64);
   (71840, 71871, 1, 32); (93760, 93791, 1, 32); (125184, 125217, 1, 34)].

Definition lower_expansions : list (Z * list Z) :=
  [(304, [105; 775])].

(** Code points that the rule of the final sigma skips
    (Case_Ignorable), and the cased ones among the others. *)
Definition case_ignorable : list (Z * Z) :=
  [(39, 39); (46, 46); (58, 58); (94, 94); (96, 96); (168, 168); (173, 173);
   (175, 175); (180, 180); (183, 184); (688, 879); (884, 885); (890, 890);
   (900, 901); (903, 903); (1155, 1161); (1369, 1369); (1375, 1375);
   (1425, 1469); (1471, 1471); (1473, 1474); (1476, 1477); (1479, 1479);
   (1524, 1524); (1536, 1541); (1552, 1562); (1564, 1564); (1600, 1600);
   (1611, 1631); (1648, 1648); (1750, 1757); (1759, 1768); (1770, 1773);
   (1807, 1807); (1809, 1809); (1840, 1866); (1958, 1968); (2027, 2037);
   (2042, 2042); (2045, 2045); (2070, 2093); (2137, 2139); (2184, 2184);
   (2192, 2193); (2200, 2207); (2249, 2306); (2362, 2362); (2364, 2364);
   (2369, 2376); (2381, 2381); (2385, 2391); (2402, 2403); (2417, 2417);
   (2433, 2433); (2492, 2492); (2497, 2500); (2509, 2509); (2530, 2531);
   (2558, 2558); (2561, 2562); (2620, 2620); (2625, 2626); (2631, 2632);
   (2635, 2637); (2641, 2641); (2672, 2673); (2677, 2677); (2689, 2690);
   (2748, 2748); (2753, 2757); (2759, 2760); (2765, 2765); (2786, 2787);
   (2810, 2815); (2817, 2817); (2876, 2876); (2879, 2879); (2881, 2884);
   (2893, 2893); (2901, 2902); (2914, 2915); (2946, 2946); (3008, 3008);
   (3021, 3021); (3072, 3072); (3076, 3076); (3132, 3132); (3134, 3136);
   (3142, 3144); (3146, 3149); (3157, 3158); (3170, 3171); (3201, 3201);
   (3260, 3260); (3263, 3263); (3270, 3270); (3276, 3277); (3298, 3299);
   (3328, 3329); (3387, 3388); (3393, 3396); (3405, 3405); (3426, 3427);
   (3457, 3457); (3530, 3530); (3538, 3540); (3542, 3542); (3633, 3633);
   (3636, 3642); (3654, 3662); (3761, 3761); (3764, 3772); (3782, 3782);
   (3784, 3789); (3864, 3865); (3893, 3893); (3895, 3895); (3897, 3897);
   (3953, 3966); (3968, 3972); (3974, 3975); (3981, 3991); (3993, 4028);
   (4038, 4038); (4141, 4144); (4146, 4151); (4153, 4154); (4157, 4158);
   (4184, 4185); (4190, 4192); (4209, 4212); (4226, 4226); (4229, 4230);
   (4237, 4237); (4253, 4253); (4348, 4348); (4957, 4959); (5906, 5908);
   (5938, 5939); (5970, 5971); (6002, 6003); (6068, 6069); (6071, 6077);
   (6086, 6086); (6089, 6099); (6103, 6103); (6109, 6109); (6155, 6159);
   (6211, 6211); (6277, 6278); (6313, 6313); (6432, 6434); (6439, 6440);
   (6450, 6450); (6457, 6459); (6679, 6680); (6683, 6683); (6742, 6742);
   (6744, 6750); (6752, 6752); (6754, 6754); (6757, 6764); (6771, 6780);
   (6783, 6783); (6823, 6823); (6832, 6862); (6912, 6915); (6964, 6964);
   (6966, 6970); (6972, 6972); (6978, 6978); (7019, 7027); (7040, 7041);
   (7074, 7077); (7080, 7081); (7083, 7085); (7142, 7142); (7144, 7145);
   (7149, 7149); (7151, 7153); (7212, 7219); (7222, 7223); (7288, 7293);
   (7376, 7378); (7380, 7392); (7394, 7400); (7405, 7405); (7412, 7412);
   (7416, 7417); (7468, 7530); (7544, 7544); (7579, 7679); (8125, 8125);
   (8127, 8129); (8141, 8143); (8157, 8159); (8173, 8175); (8189, 8190);
   (8203, 8207); (8216, 8217); (8228, 8228); (8231, 8231); (8234, 8238);
   (8288, 8292); (8294, 8303); (8305, 8305); (8319, 8319); (8336, 8348);
   (8400, 8432); (11388, 11389); (11503, 11505); (11631, 11631);
   (11647, 11647); (11744, 11775); (11823, 11823); (12293, 12293);
   (12330, 12333); (12337, 12341); (12347, 12347); (12441, 12446);
   (12540, 12542); (40981, 40981); (42232, 42237); (42508, 42508);
   (42607, 42610); (42612, 42621); (42623, 42623); (42652, 42655);
   (42736, 42737); (42752, 42785); (42864, 42864); (42888, 42890);
   (42994, 42996); (43000, 43001); (43010, 43010); (43014, 43014);
   (43019, 43019); (43045, 43046); (43052, 43052); (43204, 43205);
   (43232, 43249); (43263, 43263); (43302, 43309); (43335, 43345);
   (43392, 43394); (43443, 43443); (43446, 43449); (43452, 43453);
   (43471, 43471); (43493, 43494); (43561, 43566); (43569, 43570);
   (43573, 43574); (43587, 43587); (43596, 43596); (43632, 43632);
   (43644, 43644); (43696, 43696); (43698, 43700); (43703, 43704);
   (43710, 43711); (43713, 43713); (43741, 43741); (43756, 43757);
   (43763, 43764); (43766, 43766); (43867, 43871); (43881, 43883);
   (44005, 44005); (44008, 44008); (44013, 44013); (64286, 64286);
   (64434, 64450); (65024, 65039); (65043, 65043); (65056, 65071);
   (65106, 65106); (65109, 65109); (65279, 65279); (65287, 65287);
   (65294, 65294); (65306, 65306); (65342, 65342); (65344, 65344);
   (65392, 65392); (65438, 65439); (65507, 65507); (65529, 65531);
   (66045, 66045); (66272, 66272); (66422, 66426); (67456, 67461);
   (67463, 67504); (67506, 67514); (68097, 68099); (68101, 68102);
   (68108, 68111); (68152, 68154); (68159, 68159); (68325, 68326);
   (68900, 68903); (69291, 69292); (69446, 69456); (69506, 69509);
   (69633, 69633); (69688, 69702); (69744, 69744); (69747, 69748);
   (69759, 69761); (69811, 69814); (69817, 69818); (69821, 69821);
   (69826, 69826); (69837, 69837); (69888, 69890); (69927, 69931);
   (69933, 69940); (70003, 70003); (70016, 70017); (70070, 70078);
   (70089, 70092); (70095, 70095); (70191, 70193); (70196, 70196);
   (70198, 70199); (70206, 70206); (70367, 70367); (70371, 70378);
   (70400, 70401); (70459, 70460); (70464, 70464); (70502, 70508);
   (70512, 70516); (70712, 70719); (70722, 70724); (70726, 70726);
   (70750, 70750); (70835, 70840); (70842, 70842); (70847, 70848);
   (70850, 70851); (71090, 71093); (71100, 71101); (71103, 71104);
   (71132, 71133); (71219, 71226); (71229, 71229); (71231, 71232);
   (71339, 71339); (71341, 71341); (71344, 71349); (71351, 71351);
   (71453, 71455); (71458, 71461); (71463, 71467); (71727, 71735);
   (71737, 71738); (71995, 71996); (71998, 71998); (72003, 72003);
   (72148, 72151); (72154, 72155); (72160, 72160); (72193, 72202);
   (72243, 72248); (72251, 72254); (72263, 72263); (72273, 72278);
   (72281, 72283); (72330, 72342); (72344, 72345); (72752, 72758);
   (72760, 72765); (72767, 72767); (72850, 72871); (72874, 72880);
   (72882, 72883); (72885, 72886); (73009, 73014); (73018, 73018);
   (73020, 73021); (73023, 73029); (73031, 73031); (73104, 73105);
   (73109, 73109); (73111, 73111); (73459, 73460); (78896, 78904);
   (92912, 92916); (92976, 92982); (92992, 92995); (94031, 94031);
   (94095, 94111); (94176, 94177); (94179, 94180); (110576, 110579);
   (110581, 110587); (110589, 110590); (113821, 113822); (113824, 113827);
   (118528, 118573); (118576, 118598); (119143, 119145); (119155, 119170);
   (119173, 119179); (119210, 119213); (119362, 119364); (121344, 121398);
   (121403, 121452); (121461, 121461); (121476, 121476); (121499, 121503);
   (121505, 121519); (122880, 122886); (122888, 122904); (122907, 122913);
   (122915, 122916); (122918, 122922); (123184, 123197); (123566, 123566);
   (123628, 123631); (125136, 125142); (125252, 125259); (127995, 127999);
   (917505, 917505); (917536, 917631); (917760, 917999)].

Definition cased : list (Z * Z) :=
  [(65, 90); (97, 122); (170, 170); (181, 181); (186, 186); (192, 214);
   (216, 246); (248, 442); (444, 447); (452, 659); (661, 687); (880, 883);
   (886, 887); (891, 893); (895, 895); (902, 902); (904, 906); (908, 908);
   (910, 929); (931, 1013); (1015, 1153); (1162, 1327); (1329, 1366);
   (1376, 1416); (4256, 4293); (4295, 4295); (4301, 4301); (4304, 4346);
   (4349, 4351); (5024, 5109); (5112, 5117); (7296, 7304); (7312, 7354);
   (7357, 7359); (7424, 7467); (7531, 7543); (7545, 7578); (7680, 7957);
   (7960, 7965); (7968, 8005); (8008, 8013); (8016, 8023); (8025, 8025);
   (8027, 8027); (8029, 8029); (8031, 8061); (8064, 8116); (8118, 8124);
   (8126, 8126); (8130, 8132); (8134, 8140); (8144, 8147); (8150, 8155);
   (8160, 8172); (8178, 8180); (8182, 8188); (8450, 8450); (8455, 8455);
   (8458, 8467); (8469, 8469); (8473, 8477); (8484, 8484); (8486, 8486);
   (8488, 8488); (8490, 8493); (8495, 8500); (8505, 8505); (8508, 8511);
   (8517, 8521); (8526, 8526); (8544, 8575); (8579, 8580); (9398, 9449);
   (11264, 11387); (11390, 11492); (11499, 11502); (11506, 11507);
   (11520, 11557); (11559, 11559); (11565, 11565); (42560, 42605);
   (42624, 42651); (42786, 42863); (42865, 42887); (42891, 42894);
   (42896, 42954); (42960, 42961); (42963, 42963); (42965, 42969);
   (42997, 42998); (43002, 43002); (43824, 43866); (43872, 43880);
   (43888, 43967); (64256, 64262); (64275, 64279); (65313, 65338);
   (65345, 65370); (66560, 66639); (66736, 66771); (66776, 66811);
   (66928, 66938); (66940, 66954); (66956, 66962); (66964, 66965);
   (66967, 66977); (66979, 66993); (66995, 67001); (67003, 67004);
   (68736, 68786); (68800, 68850); (71840, 71903); (93760, 93823);
   (119808, 119892); (119894, 119964); (119966, 119967); (119970, 119970);
   (119973, 119974); (119977, 119980); (119982, 119993); (119995, 119995);
   (119997, 120003); (120005, 120069); (120071, 120074); (120077, 120084);
   (120086, 120092); (120094, 120121); (120123, 120126); (120128, 120132);
   (120134, 120134); (120138, 120144); (120146, 120485); (120488, 120512);
   (120514, 120538); (120540, 120570); (120572, 120596); (120598, 120628);
   (120630, 120654); (120656, 120686); (120688, 120712); (120714, 120744);
   (120746, 120770); (120772, 120779); (122624, 122633); (122635, 122654);
   (125184, 125251); (127280, 127305); (127312, 127337); (127344, 127369)].

(** White space from U+007F on ([str.isspace]), and the zero of every
    run of ten decimal digits. *)
Definition unicode_spaces : list Z :=
  [133; 160; 5760; 8192; 8193; 8194; 8195; 8196; 8197; 8198; 8199; 8200; 8201;
   8202; 8232; 8233; 8239; 8287; 12288].

Definition decimal_zeros : list Z :=
  [48; 1632; 1776; 1984; 2406; 2534; 2662; 2790; 2918; 3046; 3174; 3302; 3430;
   3558; 3664; 3792; 3872; 4160; 4240; 6112; 6160; 6470; 6608; 6784; 6800;
   6992; 7088; 7232; 7248; 42528; 43216; 43264; 43472; 43504; 43600; 44016;
   65296; 66720; 68912; 69734; 69872; 69942; 70096; 70384; 70736; 70864;
   71248; 71360; 71472; 71904; 72016; 72784; 73040; 73120; 92768; 92864;
   93008; 120782; 120792; 120802; 120812; 120822; 123200; 123632; 125264;
   130032].

(** *** [s.upper()], [s.lower()] *)

Definition upper_cp (c : Z) : list Z :=
  if c <? 128 then [if (97 <=? c) && (c <=? 122) then c - 32 else c]
  else
    match expansion upper_expansions c with
    | Some l => l
    | None => match shift_in upper_runs c with
              | Some d => [d]
              | None => [c]
              end
    end.

Definition lower_cp (c : Z) : list Z :=
  if c <? 128 then [if (65 <=? c) && (c <=? 90) then c + 32 else c]
  else
    match expansion lower_expansions c with
    | Some l => l
    | None => match shift_in lower_runs c with
              | Some d => [d]
              | None => [c]
              end
    end.

Fixpoint skip_ignorable (l : list Z) : list Z :=
  match l with
  | c :: l' => if in_ranges case_ignorable c then skip_ignorable l' else l
  | [] => []
  end.

Definition starts_cased (l : list Z) : bool :=
  match skip_ignorable l with
  | c :: _ => in_ranges cased c
  | [] => false
  end.

(** A capital sigma becomes the final small sigma when a cased letter
    precedes it and none follows; [before] holds what precedes, last
    character first. *)
Fixpoint lower_from (before l : list Z) : list Z :=
  match l with
  | [] => []
  | c :: l' =>
      (if c =? 931 then
         [if starts_cased before && negb (starts_cased l') then 962 else 963]
       else lower_cp c) ++ lower_from (c :: before) l'
  end.

Definition upper (s : string) : string :=
  text (encode (flat_map upper_cp (decode (chars s)))).
Definition lower (s : string) : string :=
  text (encode (lower_from [] (decode (chars s)))).

Fixpoint lstrip (l : list ascii) : list ascii :=
  match l with
  | c :: l' => if is_space c then lstrip l' else l
  | [] => []
  end.

Definition strip (l : list ascii) : list ascii := rev (lstrip (rev (lstrip l))).

(** [s.rsplit(".", 1)[0]]: the text before the last dot, all of [s]
    when it has no dot.  [cut_last_dot] returns [None] when the
    characters hold no dot, else what precedes the last one. *)
Fixpoint cut_last_dot (l : list ascii) : option (list ascii) :=
  match l with
  | [] => None
  | c :: l' =>
      match cut_last_dot l' with
      | Some pre => Some (c :: pre)
      | None => if Ascii.eqb c "."%char then Some [] else None
      end
  end.

Definition rsplit_dot_head (s : string) : string :=
  match cut_last_dot (chars s) with
  | Some pre => text pre
  | None => s
  end.

(** [x or default] on a form value that may be absent ([None]) or empty. *)
Definition or_else (x : option string) (default : string) : string :=
  match x with
  | Some s => if String.eqb s "" then default else s
  | None => default
  end.

(** [s in (a, b, ...)] *)
Definition str_in (s : string) (l : list string) : bool :=
  existsb (String.eqb s) l.

(** ** [int(text)]

    [int()] and [float()] first rewrite the text to ASCII
    ([_PyUnicode_TransformDecimalAndSpaceToASCII]): a character below
    U+007F is kept, white space becomes a space, a decimal digit of any
    script becomes its ASCII digit, and at anything else the text is cut
    with a question mark, which no number contains. *)

Fixpoint decimal_in (zeros : list Z) (c : Z) : option Z :=
  match zeros with
  | [] => None
  | z :: zeros' =>
      if (z <=? c) && (c <=? z + 9) then Some (c - z) else decimal_in zeros' c
  end.

Fixpoint to_ascii (l : list Z) : list ascii :=
  match l with
  | [] => []
  | c :: l' =>
      if c <? 127 then byte c :: to_ascii l'
      else if existsb (Z.eqb c) unicode_spaces then " "%char :: to_ascii l'
      else match decimal_in decimal_zeros c with
           | Some d => byte (48 + d) :: to_ascii l'
           | None => ["?"%char]
           end
  end.

Definition digit_val (c : ascii) : Z := code c - 48.

(** Digits with single underscores between them; [prev] tells whether
    the previous character was a digit. *)
Fixpoint digits_value (acc : Z) (prev : bool) (l : list ascii) : option Z :=
  match l with
  | [] => if prev then Some acc else None
  | c :: l' =>
      if is_digit c then digits_value (10 * acc + digit_val c) true l'
      else if Ascii.eqb c "_"%char && prev then digits_value acc false l'
      else None
  end.

Definition signed (l : list ascii) : bool * list ascii :=
  match l with
  | c :: l' =>
      if Ascii.eqb c "-"%char then (true, l')
      else if Ascii.eqb c "+"%char then (false, l')
      else (false, l)
  | [] => (false, [])
  end.

(** [sys.get_int_max_str_digits()], which the service leaves at its
    default. *)
Definition int_max_str_digits : Z := 4300.

(** [int(s)] for a [str] in base 10: surrounding blanks are dropped, a
    sign is allowed, anything else raises [ValueError], and so do more
    digits than [int_max_str_digits]. *)
Definition int_of_str (s : string) : result Z :=
  let (neg, body) := signed (strip (to_ascii (decode (chars s)))) in
  match digits_value 0 false body with
  | Some n =>
      if int_max_str_digits <? Z.of_nat (List.length (filter is_digit body))
      then Raise ValueError
      else Ok (if neg then - n else n)
  | None => Raise ValueError
  end.

(** ** binary64 numbers ([float])

    A finite [float] is the rational it denotes; the sign of a zero is
    not kept (no operation below tells the two zeros apart). *)
Inductive float : Type :=
| Finite (q : Q)
| Infinity (neg : bool)
| NaN.

(** [ilog2 n d] is the integer part of the binary logarithm of [n/d],
    for positive [n] and [d]. *)
Definition ilog2 (n d : Z) : Z :=
  let k := Z.log2 n - Z.log2 d in
  if d * 2 ^ Z.max k 0 <=? n * 2 ^ Z.max (- k) 0 then k else k - 1.

(** The integer nearest to [n/d], ties going to the even one. *)
Definition rne (n d : Z) : Z :=
  let q := n / d in
  match 2 * (n mod d) ?= d with
  | Lt => q
  | Gt => q + 1
  | Eq => if Z.even q then q else q + 1
  end.

(** [dyadic s m e] is the rational [s * m * 2^e]. *)
Definition dyadic (s m e : Z) : Q :=
  Qred (Qmake (s * m * 2 ^ Z.max e 0) (Z.to_pos (2 ^ Z.max (- e) 0))).

(** IEEE 754 rounding to binary64, round-half-to-even: 53 significant
    bits, least exponent -1074 (subnormals), overflow to infinity from
    [2^1024] on.  The fraction is reduced first, so that the result
    depends on the number only. *)
Definition fl (x : Q) : float :=
  let x := Qred x in
  if Qnum x =? 0 then Finite 0
  else
    let n := Z.abs (Qnum x) in
    let d := Zpos (Qden x) in
    let e := Z.max (ilog2 n d - 52) (-1074) in
    let m := rne (n * 2 ^ Z.max (- e) 0) (d * 2 ^ Z.max e 0) in
    if 2 ^ 1024 <=? m * 2 ^ Z.max e 0 then Infinity (Qnum x <? 0)
    else Finite (dyadic (Z.sgn (Qnum x)) m e).

Definition is_zero (x : float) : bool :=
  match x with
  | Finite q => Qnum q =? 0
  | _ => false
  end.

Definition is_negative (x : float) : bool :=
  match x with
  | Finite q => Qnum q <? 0
  | Infinity s => s
  | NaN => false
  end.

(** [float(n)] for an [int] *)
Definition float_of_int (n : Z) : result float :=
  match fl (inject_Z n) with
  | Infinity _ => Raise OverflowError
  | x => Ok x
  end.

(** [a / b] on two [int]s: the correctly rounded quotient. *)
Definition truediv_int (a b : Z) : result float :=
  if b =? 0 then Raise ZeroDivisionError
  else
    match fl (inject_Z a / inject_Z b) with
    | Infinity _ => Raise OverflowError
    | x => Ok x
    end.

(** [x * y] on two [float]s *)
Definition fmul (x y : float) : float :=
  match x, y with
  | NaN, _ | _, NaN => NaN
  | Finite a, Finite b => fl (a * b)
  | _, _ =>
      if is_zero x || is_zero y then NaN
      else Infinity (xorb (is_negative x) (is_negative y))
  end.

(** [x / y] on two [float]s: a zero divisor raises. *)
Definition fdiv (x y : float) : result float :=
  if is_zero y then Raise ZeroDivisionError
  else
    Ok match x, y with
       | NaN, _ | _, NaN => NaN
       | Finite a, Finite b => fl (a / b)
       | Infinity _, Infinity _ => NaN
       | Infinity s, Finite _ => Infinity (xorb s (is_negative y))
       | Finite _, Infinity _ => Finite 0
       end.

(** [x - y] on two [float]s *)
Definition fsub (x y : float) : float :=
  match x, y with
  | NaN, _ | _, NaN => NaN
  | Finite a, Finite b => fl (a - b)
  | Infinity s, Infinity t => if Bool.eqb s t then NaN else Infinity s
  | Infinity s, Finite _ => Infinity s
  | Finite _, Infinity t => Infinity (negb t)
  end.

(** [abs(x)] *)
Definition fabs (x : float) : float :=
  match x with
  | Finite q => Finite (Qabs q)
  | Infinity _ => Infinity false
  | NaN => NaN
  end.

(** Comparison; [None] when an operand is not a number. *)
Definition fcompare (x y : float) : option comparison :=
  match x, y with
  | NaN, _ | _, NaN => None
  | Finite a, Finite b => Some (a ?= b)%Q
  | Infinity s, Infinity t =>
      Some (if Bool.eqb s t then Eq else if s then Lt else Gt)
  | Infinity s, Finite _ => Some (if s then Lt else Gt)
  | Finite _, Infinity t => Some (if t then Gt else Lt)
  end.

Definition flt (x y : float) : bool :=
  match fcompare x y with Some Lt => true | _ => false end.
Definition fle (x y : float) : bool :=
  match fcompare x y with Some Lt | Some Eq => true | _ => false end.
Definition fgt (x y : float) : bool := flt y x.
Definition fge (x y : float) : bool := fle y x.
(** [x != y] *)
Definition fne (x y : float) : bool :=
  match fcompare x y with Some Eq => false | _ => true end.

(** [int(x)]: truncation towards zero. *)
Definition int_of_float (x : float) : result Z :=
  match x with
  | Finite q => Ok (Z.quot (Qnum q) (Zpos (Qden q)))
  | Infinity _ => Raise OverflowError
  | NaN => Raise ValueError
  end.

(** [math.floor(x)], [math.ceil(x)] *)
Definition floor (x : float) : result Z :=
  match x with
  | Finite q => Ok (Qnum q / Zpos (Qden q))
  | Infinity _ => Raise OverflowError
  | NaN => Raise ValueError
  end.

Definition ceil (x : float) : result Z :=
  match x with
  | Finite q => Ok (- ((- Qnum q) / Zpos (Qden q)))
  | Infinity _ => Raise OverflowError
  | NaN => Raise ValueError
  end.

(** The number a hardware binary64 value denotes (the kernel's
    primitive floats), to compare [fl] with the arithmetic of the
    machine. *)
Definition of_binary64 (f : PrimFloat.float) : float :=
  match FloatOps.Prim2SF f with
  | SpecFloat.S754_zero _ => Finite 0
  | SpecFloat.S754_infinity s => Infinity s
  | SpecFloat.S754_nan => NaN
  | SpecFloat.S754_finite s m e =>
      Finite (dyadic (if s then -1 else 1) (Zpos m) e)
  end.

(** The binary64 value of a natural number below [2^53]. *)
Definition binary64_of_int (n : Z) : PrimFloat.float :=
  PrimFloat.of_uint63 (Uint63.of_Z n).

Definition same_float (x y : float) : bool :=
  match x, y with
  | Finite a, Finite b => Qeq_bool a b
  | Infinity s, Infinity t => Bool.eqb s t
  | NaN, NaN => true
  | _, _ => false
  end.

(** ** [float(text)] *)

(** A run of digits with single underscores between them, read from the
    front: its value, the number of digits, and what follows. *)
Fixpoint digitpart (acc : Z) (n : nat) (l : list ascii) : Z * nat * list ascii :=
  match l with
  | c :: l' =>
      if is_digit c then digitpart (10 * acc + digit_val c) (S n) l'
      else if Ascii.eqb c "_"%char && negb (Nat.eqb n 0) then
        match l' with
        | d :: _ => if is_digit d then digitpart acc n l' else (acc, n, l)
        | [] => (acc, n, l)
        end
      else (acc, n, l)
  | [] => (acc, n, l)
  end.

(** The optional exponent [e[+-]digits] and the end of the text. *)
Definition exponent (l : list ascii) : option Z :=
  match l with
  | [] => Some 0
  | c :: l' =>
      if Ascii.eqb (to_lower c) "e"%char then
        let (neg, l'') := signed l' in
        match digitpart 0 0 l'' with
        | (v, S _, []) => Some (if neg then - v else v)
        | _ => None
        end
      else None
  end.

(** [float(s)] for a [str], rewritten to ASCII as for [int()]: blanks
    dropped, optional sign, then [inf], [infinity], [nan] in any case,
    or a decimal number with an optional fraction and exponent; the
    value is the binary64 nearest to the decimal one. *)
Definition float_of_str (s : string) : result float :=
  let (neg, body) := signed (strip (to_ascii (decode (chars s)))) in
  let word := text (map to_lower body) in
  if String.eqb word "inf" || String.eqb word "infinity" then Ok (Infinity neg)
  else if String.eqb word "nan" then Ok NaN
  else
    let '(ip, ni, r1) := digitpart 0 0 body in
    let '(fp, nf, r2) :=
      match r1 with
      | c :: r => if Ascii.eqb c "."%char then digitpart 0 0 r else (0, 0%nat, r1)
      | [] => (0, 0%nat, r1)
      end in
    match Nat.eqb (ni + nf) 0, exponent r2 with
    | false, Some ex =>
        let mant := ip * 10 ^ Z.of_nat nf + fp in
        let num := (if neg then - mant else mant) * 10 ^ Z.max ex 0 in
        let den := 10 ^ Z.of_nat nf * 10 ^ Z.max (- ex) 0 in
        Ok (fl (Qmake num (Z.to_pos den)))
    | _, _ => Raise ValueError
    end.

End Py.

Notation "x <- c ;; k" := (Py.bind c (fun x => k))
  (at level 61, c at next level, right associativity).

(* ================================================================== *)
(** * Pillow *)
(* ================================================================== *)

Module PIL.

(** The value of one pixel.  Values read from the upload are opaque
    numbers; values computed by Pillow's filters are kept as the
    expression that produced them. *)
Inductive sample : Type :=
| Texel (v : Z)
| Fill (r g b a : Z)
| Ink (txt : string) (dx dy : Z) (fill : Z * Z * Z * Z)
| Over (top bottom : sample)
| Recode (from to : string) (s : sample)
| Resampled (filter : string) (src : Z -> Z -> sample) (sw sh w h x y : Z).

(** A decoded image: [img.width], [img.height], [img.mode], the EXIF
    orientation tag when the file carries one, and the pixel at column
    [x], row [y]. *)
Record Image : Type := {
  width : Z;
  height : Z;
  mode : string;
  orientation : option Z;
  px : Z -> Z -> sample
}.

Definition size (img : Image) : Z * Z := (width img, height img).

(** [Image.Transpose] *)
Inductive Transpose : Type :=
| FLIP_LEFT_RIGHT
| FLIP_TOP_BOTTOM
| ROTATE_90
| ROTATE_180
| ROTATE_270
| TRANSPOSE
| TRANSVERSE.

(** [img.transpose(method)].  The rotations turn counter-clockwise, as
    everywhere in Pillow. *)
Definition transpose (m : Transpose) (img : Image) : Image :=
  let w := width img in
  let h := height img in
  let p := px img in
  match m with
  | FLIP_LEFT_RIGHT =>
      {| width := w; height := h; mode := mode img; orientation := orientation img;
         px := fun x y => p (w - 1 - x) y |}
  | FLIP_TOP_BOTTOM =>
      {| width := w; height := h; mode := mode img; orientation := orientation img;
         px := fun x y => p x (h - 1 - y) |}
  | ROTATE_90 =>
      {| width := h; height := w; mode := mode img; orientation := orientation img;
         px := fun x y => p (w - 1 - y) x |}
  | ROTATE_180 =>
      {| width := w; height := h; mode := mode img; orientation := orientation img;
         px := fun x y => p (w - 1 - x) (h - 1 - y) |}
  | ROTATE_270 =>
      {| width := h; height := w; mode := mode img; orientation := orientation img;
         px := fun x y => p y (h - 1 - x) |}
  | TRANSPOSE =>
      {| width := h; height := w; mode := mode img; orientation := orientation img;
         px := fun x y => p y x |}
  | TRANSVERSE =>
      {| width := h; height := w; mode := mode img; orientation := orientation img;
         px := fun x y => p (w - 1 - y) (h - 1 - x) |}
  end.

(** What depends on the Pillow build in use rather than on [app.py]:
    - [textbbox txt]: [ImageDraw.textbbox((0, 0), txt, font)] for the
      font of [ImageFont.load_default()];
    - [encodes fmt m]: whether the encoder of format [fmt] writes images
      of mode [m] ([img.save] raises [OSError] otherwise);
    - [rotate_affine angle expand img]: [img.rotate] for an angle that
      is not a multiple of 90 degrees (resampling path). *)
Record Build : Type := {
  textbbox : string -> Z * Z * Z * Z;
  encodes : string -> string -> bool;
  rotate_affine : Z -> bool -> Image -> Image
}.

(** [img.rotate(angle, expand=expand)], [angle] in degrees
    counter-clockwise: quarter turns are transpositions. *)
Definition rotate (lib : Build) (angle : Z) (expand : bool) (img : Image) : Image :=
  let a := angle mod 360 in
  if a =? 0 then img
  else if a =? 180 then transpose ROTATE_180 img
  else if ((a =? 90) || (a =? 270)) && (expand || (width img =? height img)) then
    transpose (if a =? 90 then ROTATE_90 else ROTATE_270) img
  else rotate_affine lib angle expand img.

(** [ImageOps.exif_transpose(img)] *)
Definition exif_method (tag : Z) : option Transpose :=
  match tag with
  | 2 => Some FLIP_LEFT_RIGHT
  | 3 => Some ROTATE_180
  | 4 => Some FLIP_TOP_BOTTOM
  | 5 => Some TRANSPOSE
  | 6 => Some ROTATE_270
  | 7 => Some TRANSVERSE
  | 8 => Some ROTATE_90
  | _ => None
  end.

Definition exif_transpose (img : Image) : Image :=
  match orientation img with
  | Some tag =>
      match exif_method tag with
      | Some m =>
          let t := transpose m img in
          {| width := width t; height := height t; mode := mode t;
             orientation := None; px := px t |}
      | None => img
      end
  | None => img
  end.

(** The filter [resize] really applies when asked for [filter]. *)
Definition effective_filter (filter : string) (img : Image) : string :=
  if Py.str_in (mode img) ["1"; "P"] then "NEAREST" else filter.

(** Whether a Python [int] fits a C [int], as the C side of Pillow
    reads sizes and colour components ([OverflowError] otherwise). *)
Definition c_int (n : Z) : bool := (- 2147483648 <=? n) && (n <=? 2147483647).

(** [img.resize((w, h), filter)]: the size the image has gives a copy;
    else a side outside the range of a C [int] raises [OverflowError],
    and a side below 1 raises [ValueError] ("height and width must be
    > 0"). *)
Definition resize (sz : Z * Z) (filter : string) (img : Image) : Py.result Image :=
  let (w, h) := sz in
  if (w =? width img) && (h =? height img) then Py.Ok img
  else if negb (c_int w && c_int h) then Py.Raise Py.OverflowError
  else if (w <? 1) || (h <? 1) then Py.Raise Py.ValueError
  else
    Py.Ok {| width := w; height := h; mode := mode img; orientation := orientation img;
             px := Resampled (effective_filter filter img) (px img)
                     (width img) (height img) w h |}.

(** [img.convert(m)] *)
Definition convert (m : string) (img : Image) : Image :=
  {| width := width img; height := height img; mode := m;
     orientation := orientation img;
     px := fun x y => Recode (mode img) m (px img x y) |}.

(** [Image.new(m, size, color)] *)
Definition new (m : string) (sz : Z * Z) (color : Z * Z * Z * Z) : Image :=
  let '(r, g, b, a) := color in
  {| width := fst sz; height := snd sz; mode := m; orientation := None;
     px := fun _ _ => Fill r g b a |}.

(** [ImageDraw.Draw(img).text((x, y), txt, font=font, fill=fill)]: a
    component of [fill] outside the range of a C [int] raises
    [OverflowError]; inside it, the component is cut to 0..255 by the
    drawing itself. *)
Definition draw_text (xy : Z * Z) (txt : string) (fill : Z * Z * Z * Z)
    (img : Image) : Py.result Image :=
  let '(r, g, b, a) := fill in
  if c_int r && c_int g && c_int b && c_int a then
    Py.Ok {| width := width img; height := height img; mode := mode img;
             orientation := orientation img;
             px := fun u v =>
                     Over (Ink txt (u - fst xy) (v - snd xy) fill) (px img u v) |}
  else Py.Raise Py.OverflowError.

(** [Image.alpha_composite(im1, im2)]: [im2] over [im1]; both must be
    RGBA and of one size. *)
Definition alpha_composite (im1 im2 : Image) : Py.result Image :=
  if String.eqb (mode im1) "RGBA" && String.eqb (mode im2) "RGBA"
     && (width im1 =? width im2) && (height im1 =? height im2)
  then Py.Ok {| width := width im1; height := height im1; mode := "RGBA";
                orientation := orientation im1;
                px := fun x y => Over (px im2 x y) (px im1 x y) |}
  else Py.Raise Py.ValueError.

(** [img.thumbnail((x, y), filter)]: the size that keeps the aspect
    ratio, [None] when the image already fits. *)
Definition round_aspect (number : Py.float) (key : Z -> Py.result Py.float)
    : Py.result Z :=
  lo <- Py.floor number ;;
  hi <- Py.ceil number ;;
  klo <- key lo ;;
  khi <- key hi ;;
  Py.Ok (Z.max (if Py.flt khi klo then hi else lo) 1).

Definition preserve_aspect_ratio (x y : Z) (img : Image)
    : Py.result (option (Z * Z)) :=
  if (x >=? width img) && (y >=? height img) then Py.Ok None
  else
    aspect <- Py.truediv_int (width img) (height img) ;;
    box <- Py.truediv_int x y ;;
    if Py.fge box aspect then
      fy <- Py.float_of_int y ;;
      x' <- round_aspect (Py.fmul fy aspect)
              (fun n => r <- Py.truediv_int n y ;;
                        Py.Ok (Py.fabs (Py.fsub aspect r))) ;;
      Py.Ok (Some (x', y))
    else
      fx <- Py.float_of_int x ;;
      q <- Py.fdiv fx aspect ;;
      y' <- round_aspect q
              (fun n => if n =? 0 then Py.Ok (Py.Finite 0)
                        else r <- Py.truediv_int x n ;;
                             Py.Ok (Py.fabs (Py.fsub aspect r))) ;;
      Py.Ok (Some (x, y')).

Definition thumbnail (sz : Z * Z) (filter : string) (img : Image) : Py.result Image :=
  fit <- preserve_aspect_ratio (fst sz) (snd sz) img ;;
  match fit with
  | None => Py.Ok img
  | Some final => resize final filter img
  end.

(** The bytes [img.save(buf, fmt, **params)] writes, kept as what was
    encoded and how. *)
Inductive value : Type :=
| VInt (n : Z)
| VBool (b : bool).

Record Encoded : Type := {
  enc_format : string;
  enc_params : list (string * value);
  enc_image : Image
}.

Definition save (lib : Build) (fmt : string) (params : list (string * value))
    (img : Image) : Py.result Encoded :=
  if encodes lib fmt (mode img)
  then Py.Ok {| enc_format := fmt; enc_params := params; enc_image := img |}
  else Py.Raise Py.OSError.

End PIL.

(* ================================================================== *)
(** * The service ([app.py]) *)
(* ================================================================== *)

(** ** Requests and responses *)

(** An uploaded file: [file.filename] and what [Image.open(file.stream)]
    gives, an image or the exception it raises on unreadable data. *)
Record Upload : Type := {
  filename : option string;
  stream : Py.result PIL.Image
}.

(** [request.files.getlist("file")] (empty when the request has no
    ["file"] part) and [request.form], whose [get] returns the first
    value of a key. *)
Record Request : Type := {
  files : list Upload;
  form : list (string * string)
}.

Fixpoint lookup {A : Type} (k : string) (l : list (string * A)) : option A :=
  match l with
  | [] => None
  | (k', v) :: l' => if String.eqb k k' then Some v else lookup k l'
  end.

(** [request.form.get(k)] and [request.form.get(k, default)] *)
Definition form_get (req : Request) (k : string) : option string :=
  lookup k (form req).

Definition form_get_or (req : Request) (k default : string) : string :=
  match form_get req k with
  | Some v => v
  | None => default
  end.

(** [request.form.get(k) == 'true'] *)
Definition form_flag (req : Request) (k : string) : bool :=
  match form_get req k with
  | Some v => String.eqb v "true"
  | None => false
  end.

Inductive ErrorText : Type :=
| Message (s : string)
| StrOf (e : Py.exn).

Inductive Body : Type :=
| FileBody (buf : PIL.Encoded)
| ZipBody (compression : string) (entries : list (string * PIL.Encoded)).

(** What a handler answers: [jsonify({"error": ...}), status];
    [send_file(...)]; the preview document; or an exception that leaves
    the handler (Flask then answers with its own 500 page). *)
Inductive Response : Type :=
| JsonError (status : Z) (error : ErrorText)
| SendFile (body : Body) (as_attachment : bool) (download_name : string)
    (mimetype : option string)
| JsonPreview (preview : PIL.Encoded) (width height : Z)
| Uncaught (e : Py.exn).

(** ** Format registry *)

Definition ALLOWED : list (string * (string * string * string)) :=
  [ ("PNG",  ("PNG",  "png",  "image/png"));
    ("JPEG", ("JPEG", "jpg",  "image/jpeg"));
    ("WEBP", ("WEBP", "webp", "image/webp"));
    ("GIF",  ("GIF",  "gif",  "image/gif"));
    ("BMP",  ("BMP",  "bmp",  "image/bmp"));
    ("TIFF", ("TIFF", "tiff", "image/tiff")) ].

(** ** [build_save_params]

    [quality] is the text of the form field ([convert], line 174), so
    [quality or 85] replaces the empty text only. *)

(** The literal [11.12] *)
Definition lit_11_12 : Py.float := Py.fl (1112 # 100).

Definition build_save_params (fmt quality : string)
    : Py.result (list (string * PIL.value)) :=
  n <- (if String.eqb quality "" then Py.Ok 85 else Py.int_of_str quality) ;;
  let q := Z.max 1 (Z.min n 100) in
  if Py.str_in fmt ["JPEG"; "WEBP"] then Py.Ok [("quality", PIL.VInt q)]
  else if String.eqb fmt "PNG" then
    fq <- Py.float_of_int q ;;
    r <- Py.fdiv fq lit_11_12 ;;
    k <- Py.int_of_float r ;;
    let comp := Z.max 0 (Z.min 9 (9 - k)) in
    Py.Ok [("optimize", PIL.VBool true); ("compress_level", PIL.VInt comp)]
  else Py.Ok [].

(** ** [apply_transformations] *)

Record Transformations : Type := {
  rotate : string;
  flip_horizontal : bool;
  flip_vertical : bool
}.

Section Service.

Variable lib : PIL.Build.

Definition apply_transformations (img : PIL.Image) (transformations : Transformations)
    : Py.result PIL.Image :=
  img <- (if negb (String.eqb (rotate transformations) "") then
            angle <- Py.int_of_str (rotate transformations) ;;
            if (angle =? 90) || (angle =? 180) || (angle =? 270)
            then Py.Ok (PIL.rotate lib (- angle) true img)
            else Py.Ok img
          else Py.Ok img) ;;
  let img := if flip_horizontal transformations
             then PIL.transpose PIL.FLIP_LEFT_RIGHT img else img in
  let img := if flip_vertical transformations
             then PIL.transpose PIL.FLIP_TOP_BOTTOM img else img in
  Py.Ok img.

(** ** [add_watermark] *)

(** Where the text goes (lines 86-101). *)
Definition watermark_xy (img : PIL.Image) (watermark_text position : string)
    : Z * Z :=
  let '(x0, y0, x1, y1) := PIL.textbbox lib watermark_text in
  let text_width := x1 - x0 in
  let text_height := y1 - y0 in
  let margin := 20 in
  if String.eqb position "bottom-right" then
    (PIL.width img - text_width - margin, PIL.height img - text_height - margin)
  else if String.eqb position "bottom-left" then
    (margin, PIL.height img - text_height - margin)
  else if String.eqb position "top-right" then
    (PIL.width img - text_width - margin, margin)
  else if String.eqb position "top-left" then
    (margin, margin)
  else
    ((PIL.width img - text_width) / 2, (PIL.height img - text_height) / 2).

(** The rectangle the text covers once drawn at [xy]:
    [draw.textbbox(xy, watermark_text, font=font)], the box measured at
    the origin (line 81) moved by [xy]. *)
Definition ink_box (xy : Z * Z) (watermark_text : string) : Z * Z * Z * Z :=
  let '(x0, y0, x1, y1) := PIL.textbbox lib watermark_text in
  (fst xy + x0, snd xy + y0, fst xy + x1, snd xy + y1).

Definition add_watermark (img : PIL.Image) (watermark_text position : string)
    (opacity : Z) : Py.result PIL.Image :=
  if String.eqb watermark_text "" then Py.Ok img
  else
    let overlay := PIL.new "RGBA" (PIL.size img) (255, 255, 255, 0) in
    let xy := watermark_xy img watermark_text position in
    overlay <- PIL.draw_text xy watermark_text (255, 255, 255, opacity) overlay ;;
    let img := if negb (String.eqb (PIL.mode img) "RGBA")
               then PIL.convert "RGBA" img else img in
    PIL.alpha_composite img overlay.

(** ** [convert] *)

(** Lines 213-223: the size that fits the box [w] x [h] and keeps the
    ratio of [img]. *)
Definition fit_size (img : PIL.Image) (w h : Z) : Py.result (Z * Z) :=
  img_ratio <- Py.truediv_int (PIL.width img) (PIL.height img) ;;
  target_ratio <- Py.truediv_int w h ;;
  if Py.fgt img_ratio target_ratio then
    fw <- Py.float_of_int w ;;
    r <- Py.fdiv fw img_ratio ;;
    new_h <- Py.int_of_float r ;;
    Py.Ok (w, new_h)
  else
    fh <- Py.float_of_int h ;;
    new_w <- Py.int_of_float (Py.fmul fh img_ratio) ;;
    Py.Ok (new_w, h).

(** Lines 204-205: [max(1, int(side * percent / 100))] *)
Definition scaled (side : Z) (percent : Py.float) : Py.result Z :=
  fs <- Py.float_of_int side ;;
  r <- Py.fdiv (Py.fmul fs percent) (Py.Finite 100) ;;
  k <- Py.int_of_float r ;;
  Py.Ok (Z.max 1 k).

(** [int(request.form.get(k) or 0)] *)
Definition form_int_or_0 (req : Request) (k : string) : Py.result Z :=
  match form_get req k with
  | Some v => if String.eqb v "" then Py.Ok 0 else Py.int_of_str v
  | None => Py.Ok 0
  end.

(** Lines 201-227: the resize step of one file. *)
Definition resize_step (req : Request) (mode : string) (preserve_aspect : bool)
    (img : PIL.Image) : Py.result PIL.Image :=
  if String.eqb mode "percent" then
    percent <- Py.float_of_str (Py.or_else (form_get req "percent") "100") ;;
    if Py.fne percent (Py.Finite 100) then
      w <- scaled (PIL.width img) percent ;;
      h <- scaled (PIL.height img) percent ;;
      PIL.resize (w, h) "LANCZOS" img
    else Py.Ok img
  else if String.eqb mode "exact" then
    w <- form_int_or_0 req "width" ;;
    h <- form_int_or_0 req "height" ;;
    if (0 <? w) && (0 <? h) then
      if preserve_aspect then
        new <- fit_size img w h ;;
        PIL.resize new "LANCZOS" img
      else PIL.resize (w, h) "LANCZOS" img
    else Py.Ok img
  else Py.Ok img.

(** Lines 235-236: the image handed to the encoder. *)
Definition encoder_input (fmt : string) (img : PIL.Image) : PIL.Image :=
  if Py.str_in fmt ["JPEG"; "BMP"; "TIFF"] && Py.str_in (PIL.mode img) ["RGBA"; "P"]
  then PIL.convert "RGB" img else img.

(** Line 243: the name of the output file. *)
Definition output_name (file : Upload) (ext : string) : string :=
  let name := match filename file with
              | Some n => if String.eqb n "" then "image." ++ ext else n
              | None => "image." ++ ext
              end in
  Py.rsplit_dot_head name ++ "." ++ ext.

(** Lines 194-244: the body of the loop over the uploaded files. *)
Definition convert_file (req : Request) (target mode quality : string)
    (transformations : Transformations)
    (watermark_text watermark_position : string) (watermark_opacity : Z)
    (preserve_aspect : bool) (file : Upload)
    : Py.result (string * PIL.Encoded) :=
  img <- stream file ;;
  let img := PIL.exif_transpose img in
  img <- apply_transformations img transformations ;;
  img <- resize_step req mode preserve_aspect img ;;
  img <- (if negb (String.eqb watermark_text "")
          then add_watermark img watermark_text watermark_position watermark_opacity
          else Py.Ok img) ;;
  match lookup target ALLOWED with
  | None => Py.Raise Py.KeyError
  | Some (fmt, ext, mime) =>
      let img := encoder_input fmt img in
      save_params <- build_save_params fmt quality ;;
      buf <- PIL.save lib fmt save_params img ;;
      Py.Ok (output_name file ext, buf)
  end.

(** The locals of [convert] read off the form (lines 169-189). *)
Definition target_of (req : Request) : string :=
  Py.upper (Py.or_else (form_get req "format") "PNG").
Definition mode_of (req : Request) : string :=
  Py.lower (Py.or_else (form_get req "mode") "none").
Definition quality_of (req : Request) : string :=
  form_get_or req "quality" "85".
Definition transformations_of (req : Request) : Transformations :=
  {| rotate := form_get_or req "rotate" "0";
     flip_horizontal := form_flag req "flip_horizontal";
     flip_vertical := form_flag req "flip_vertical" |}.
Definition watermark_text_of (req : Request) : string :=
  form_get_or req "watermark_text" "".
Definition watermark_position_of (req : Request) : string :=
  form_get_or req "watermark_position" "bottom-right".
Definition watermark_opacity_of (req : Request) : Py.result Z :=
  Py.int_of_str (form_get_or req "watermark_opacity" "128").
Definition preserve_aspect_of (req : Request) : bool :=
  form_flag req "preserve_aspect".

(** The loop body under the locals of the request. *)
Definition loop_body (req : Request) (watermark_opacity : Z) (file : Upload)
    : Py.result (string * PIL.Encoded) :=
  convert_file req (target_of req) (mode_of req) (quality_of req)
    (transformations_of req) (watermark_text_of req)
    (watermark_position_of req) watermark_opacity (preserve_aspect_of req) file.

Definition convert (req : Request) : Response :=
  match files req with
  | [] => JsonError 400 (Message "No file uploaded")
  | _ :: _ =>
    match lookup (target_of req) ALLOWED with
    | None => JsonError 400 (Message "Unsupported format")
    | Some (_, _, mime) =>
      match watermark_opacity_of req with
      | Py.Raise e => Uncaught e
      | Py.Ok watermark_opacity =>
        match Py.for_each (loop_body req watermark_opacity) (files req) with
        | Py.Raise e => JsonError 500 (StrOf e)
        | Py.Ok [(name, buf)] => SendFile (FileBody buf) true name (Some mime)
        | Py.Ok output_files =>
            SendFile (ZipBody "ZIP_DEFLATED" output_files) true "images.zip" None
        end
      end
    end
  end.

(** ** [preview_image] *)

(** Lines 284-292: the image the thumbnail is made of. *)
Definition preview_source (req : Request) (watermark_opacity : Z) (file : Upload)
    : Py.result PIL.Image :=
  img <- stream file ;;
  let img := PIL.exif_transpose img in
  img <- apply_transformations img (transformations_of req) ;;
  if negb (String.eqb (watermark_text_of req) "")
  then add_watermark img (watermark_text_of req) (watermark_position_of req)
         watermark_opacity
  else Py.Ok img.

Definition preview_image (req : Request) : Response :=
  match files req with
  | [] => JsonError 400 (Message "No file uploaded")
  | file :: _ =>
    match watermark_opacity_of req with
    | Py.Raise e => Uncaught e
    | Py.Ok watermark_opacity =>
      match (img <- preview_source req watermark_opacity file ;;
             img <- PIL.thumbnail (400, 400) "LANCZOS" img ;;
             buf <- PIL.save lib "PNG" [] img ;;
             Py.Ok (buf, PIL.width img, PIL.height img)) with
      | Py.Raise e => JsonError 500 (StrOf e)
      | Py.Ok (buf, w, h) => JsonPreview buf w h
      end
    end
  end.

End Service.

(** ** [analyze_image] and the OpenAI client *)

(** The OpenAI client as the handler uses it: [complete jpeg] is
    [response.choices[0].message.content] for the request built from the
    JPEG bytes, or [str(e)] of the exception the call raises; [is_json]
    tells whether [json.loads] accepts a text. *)
Record Vision : Type := {
  complete : PIL.Encoded -> string + string;
  is_json : string -> bool
}.

(** Lines 14-24: the client exists when the environment has a key that
    is not empty and [OpenAI(api_key=...)] does not raise;
    [openai_available] is true exactly then. *)
Definition openai_setup (openai_api_key : option string)
    (construct : string -> Py.result Vision) : option Vision :=
  match openai_api_key with
  | Some key =>
      if String.eqb key "" then None
      else match construct key with
           | Py.Ok client => Some client
           | Py.Raise _ => None
           end
  | None => None
  end.

(** [analysis]: the decoded JSON document, or the text itself when it is
    not JSON. *)
Inductive Analysis : Type :=
| Structured (content : string)
| Verbatim (content : string).

Inductive AnalyzeResponse : Type :=
| AnalyzeError (status : Z) (error : ErrorText)
| AnalyzeOk (analysis : Analysis).

Definition analyze_image (lib : PIL.Build) (openai_client : option Vision)
    (req : Request) : AnalyzeResponse :=
  match openai_client with
  | None =>
      AnalyzeError 503
        (Message "AI analysis not available. Please configure OpenAI API key.")
  | Some client =>
      match files req with
      | [] => AnalyzeError 400 (Message "No file uploaded")
      | file :: _ =>
          match (img <- stream file ;; PIL.save lib "JPEG" [] img) with
          | Py.Raise e => AnalyzeError 500 (StrOf e)
          | Py.Ok buffered =>
              match complete client buffered with
              | inr msg => AnalyzeError 500 (Message msg)
              | inl content =>
                  AnalyzeOk (if is_json client content
                             then Structured content else Verbatim content)
              end
          end
      end
  end.

(** ** The limit on the size of the body (line 11)

    [request.files] makes Werkzeug parse the body; when the declared
    length of the body exceeds [MAX_CONTENT_LENGTH] it raises
    [RequestEntityTooLarge] instead, which no handler catches and Flask
    answers with status 413.  Each handler touches [request.files]
    before anything else of the request, [analyze_image] after its test
    of the client. *)

Definition MAX_CONTENT_LENGTH : Z := 16 * 1024 * 1024.

(** What reaches a route: the declared length of the body, and the
    request Werkzeug parses from it when it accepts the body. *)
Record Incoming : Type := {
  content_length : Z;
  parsed : Request
}.

Definition too_large (inc : Incoming) : bool :=
  MAX_CONTENT_LENGTH <? content_length inc.

(** The answer of a route: status 413, or what the handler answers. *)
Inductive Served (A : Type) : Type :=
| RequestEntityTooLarge
| Handled (answer : A).
Arguments RequestEntityTooLarge {A}.
Arguments Handled {A} answer.

Definition post_convert (lib : PIL.Build) (inc : Incoming) : Served Response :=
  if too_large inc then RequestEntityTooLarge
  else Handled (convert lib (parsed inc)).

Definition post_preview (lib : PIL.Build) (inc : Incoming) : Served Response :=
  if too_large inc then RequestEntityTooLarge
  else Handled (preview_image lib (parsed inc)).

Definition post_analyze_image (lib : PIL.Build) (openai_client : option Vision)
    (inc : Incoming) : Served AnalyzeResponse :=
  match openai_client with
  | None => Handled (analyze_image lib None (parsed inc))
  | Some _ =>
      if too_large inc then RequestEntityTooLarge
      else Handled (analyze_image lib openai_client (parsed inc))
  end.

(** ** A sample build and sample inputs *)

(** A build for the examples.  Its default font measures a text of [n]
    bytes as the box (0, 2, 6 n + 2, 10): the ink starts two rows below
    the position the text is drawn at.  JPEG, BMP, PNG and TIFF write
    the listed modes and refuse the others; GIF refuses CMYK, PA, YCbCr
    and LAB; WEBP converts what it is given. *)
Definition reference_build : PIL.Build := {|
  PIL.textbbox := fun txt => (0, 2, 6 * Z.of_nat (String.length txt) + 2, 10);
  PIL.encodes := fun fmt m =>
    if String.eqb fmt "JPEG" then
      Py.str_in m ["1"; "L"; "RGB"; "RGBX"; "CMYK"; "YCbCr"]
    else if String.eqb fmt "BMP" then
      Py.str_in m ["1"; "L"; "P"; "RGB"; "RGBA"]
    else if String.eqb fmt "PNG" then
      Py.str_in m ["1"; "L"; "LA"; "I"; "I;16"; "P"; "RGB"; "RGBA"]
    else if String.eqb fmt "TIFF" then
      Py.str_in m ["1"; "L"; "LA"; "P"; "PA"; "I"; "I;16"; "F"; "RGB"; "RGBX";
                   "RGBA"; "CMYK"; "YCbCr"; "LAB"]
    else if String.eqb fmt "GIF" then
      negb (Py.str_in m ["CMYK"; "PA"; "YCbCr"; "LAB"])
    else true;
  PIL.rotate_affine := fun angle expand img =>
    {| PIL.width := PIL.width img; PIL.height := PIL.height img;
       PIL.mode := PIL.mode img; PIL.orientation := PIL.orientation img;
       PIL.px := PIL.Resampled "NEAREST" (PIL.px img) (PIL.width img)
                   (PIL.height img) (PIL.width img) (PIL.height img) |}
|}.

(** A [w] x [h] picture of mode [m] whose pixels are numbered row by row. *)
Definition picture (w h : Z) (m : string) : PIL.Image := {|
  PIL.width := w;
  PIL.height := h;
  PIL.mode := m;
  PIL.orientation := None;
  PIL.px := fun x y => PIL.Texel (y * w + x)
|}.

Definition upload (name : string) (img : PIL.Image) : Upload :=
  {| filename := Some name; stream := Py.Ok img |}.

(** Sample requests *)

Definition wide_photo : PIL.Image := picture 1600 900 "RGB".

Definition request (uploads : list Upload) (fields : list (string * string)) : Request :=
  {| files := uploads; form := fields |}.

Definition unreadable (name : string) : Upload :=
  {| filename := Some name; stream := Py.Raise Py.UnidentifiedImageError |}.

(** The request with the form field [k] set to [v]. *)
Definition with_field (k v : string) (req : Request) : Request :=
  {| files := files req; form := (k, v) :: form req |}.

(** A form field that is absent or empty. *)
Definition blank (req : Request) (k : string) : Prop :=
  form_get req k = None \/ form_get req k = Some "".

(** A request for a rotation alone. *)
Definition turn (angle : string) : Transformations :=
  {| rotate := angle; flip_horizontal := false; flip_vertical := false |}.

(** One photo sent with the given form fields. *)
Definition single (fields : list (string * string)) : Request :=
  request [upload "photo.jpg" wide_photo] fields.

(** Exact mode with a width that is not a number. *)
Definition exact_abc : Request :=
  single [("mode", "exact"); ("width", "abc"); ("height", "600")].

(** Exact mode without a height. *)
Definition exact_no_height : Request :=
  single [("mode", "exact"); ("width", "800")].

(** The 1600 x 900 photo asked into an 800 x 600 box, ratio kept. *)
Definition fit_request : Request :=
  single [("mode", "exact"); ("width", "800"); ("height", "600");
          ("preserve_aspect", "true")].

(** A 1000 x 1 picture asked into a 100 x 100 box, ratio kept. *)
Definition sliver : PIL.Image := picture 1000 1 "RGB".
Definition sliver_request : Request :=
  request [upload "sliver.png" sliver]
    [("mode", "exact"); ("width", "100"); ("height", "100");
     ("preserve_aspect", "true")].

(** A greyscale picture with an alpha channel, and the same in RGBA,
    each sent for JPEG. *)
Definition grey_alpha : PIL.Image := picture 10 10 "LA".
Definition colour_alpha : PIL.Image := picture 10 10 "RGBA".
Definition to_jpeg (img : PIL.Image) : Request :=
  request [upload "g.png" img] [("format", "JPEG")].

(** A batch whose second file is unreadable, and a batch of two
    readable files, one of them unnamed, sent for TIFF. *)
Definition broken_batch : Request :=
  request [upload "a.png" wide_photo; unreadable "b.png"] [].
Definition tiff_batch : Request :=
  request [upload "a.b.png" (picture 10 10 "P");
           {| filename := None; stream := Py.Ok (picture 3 4 "RGB") |}]
    [("format", "tiff")].

(** A small picture sent for preview. *)
Definition small_photo : PIL.Image := picture 300 200 "RGB".
Definition small_preview : Request := request [upload "s.png" small_photo] [].

(** A client that answers every picture with the same JSON text. *)
Definition canned_vision : Vision :=
  {| complete := fun _ => inl "{}"; is_json := fun s => String.eqb s "{}" |}.

(** Both flips and no rotation; one flip. *)
Definition both_flips : Transformations :=
  {| rotate := "0"; flip_horizontal := true; flip_vertical := true |}.
Definition mirror : Transformations :=
  {| rotate := "0"; flip_horizontal := true; flip_vertical := false |}.
Definition upside_down : Transformations :=
  {| rotate := "0"; flip_horizontal := false; flip_vertical := true |}.

(** Whether a response carries converted files. *)
Definition sends_file (r : Response) : bool :=
  match r with
  | SendFile _ _ _ _ => true
  | _ => false
  end.

(* ================================================================== *)
(** * Properties *)
(* ================================================================== *)

(** ** The binary64 model against the machine

    On these operands (the ones of the scenarios, and some whose
    quotient or product is not exact) the rounded rational of [fl] is
    the result of the hardware division and multiplication. *)
Example fl_agrees_with_binary64 :
  forallb
    (fun ab : Z * Z =>
       let (a, b) := ab in
       let fa := Py.binary64_of_int a in
       let fb := Py.binary64_of_int b in
       Py.same_float (Py.fl (inject_Z a / inject_Z b))
                  (Py.of_binary64 (PrimFloat.div fa fb))
       && Py.same_float (Py.fmul (Py.fl (inject_Z a / inject_Z b)) (Py.fl (inject_Z b)))
                     (Py.of_binary64 (PrimFloat.mul (PrimFloat.div fa fb) fb))
       && match Py.fdiv (Py.fl (inject_Z b)) (Py.fl (inject_Z a / inject_Z b)) with
          | Py.Ok q => Py.same_float q
                         (Py.of_binary64 (PrimFloat.div fb (PrimFloat.div fa fb)))
          | Py.Raise _ => false
          end)
    [ (1600, 900); (800, 600); (1000, 1); (1, 1000); (5, 3); (1, 3); (2, 3);
      (1, 10); (1, 49); (1112, 100); (85, 7); (4503599627370495, 4503599627370494);
      (9007199254740991, 3); (3, 9007199254740991); (123456789, 987654321) ]
  = true.
Proof. vm_compute. reflexivity. Qed.

(** ** The text model against CPython

    What CPython 3.11 answers on these texts, and the model with it.
    The separators FS..US are no blanks for [int()] and [float()];
    digits and blanks of other scripts are read (full-width and
    Arabic-Indic digits, a no-break and an ideographic space); [upper]
    takes a dotless i to I and the ligature ff to FF, so that both
    spell TIFF; [lower] takes the Kelvin sign to k and a capital sigma
    at the end of a word to the final sigma. *)
Example text_agrees_with_cpython :
  Py.int_of_str (Py.of_code_points [28; 52; 50]) = Py.Raise Py.ValueError /\
  Py.int_of_str (Py.of_code_points [65305; 65296]) = Py.Ok 90 /\
  Py.int_of_str (Py.of_code_points [160; 52; 50; 12288]) = Py.Ok 42 /\
  Py.float_of_str (Py.of_code_points [28; 53; 48]) = Py.Raise Py.ValueError /\
  Py.float_of_str (Py.of_code_points [1637; 1632]) = Py.Ok (Py.Finite 50) /\
  Py.upper (Py.of_code_points [116; 305; 102; 102]) = "TIFF" /\
  Py.upper (Py.of_code_points [116; 105; 64256]) = "TIFF" /\
  Py.lower (Py.of_code_points [8490]) = "k" /\
  Py.lower (Py.of_code_points [913; 931]) = Py.of_code_points [945; 962] /\
  Py.lower (Py.of_code_points [913; 931; 913]) = Py.of_code_points [945; 963; 945].
Proof. repeat split; vm_compute; reflexivity. Qed.

(** ** Loops in the exception monad *)

Lemma bind_ok {A B : Type} (c : Py.result A) (k : A -> Py.result B) (b : B) :
  Py.bind c k = Py.Ok b -> exists a, c = Py.Ok a /\ k a = Py.Ok b.
Proof.
  destruct c as [a | e]; simpl; intros H.
  - exists a; split; [reflexivity | exact H].
  - discriminate H.
Qed.

Lemma bind_raise {A B : Type} (c : Py.result A) (k : A -> Py.result B) (e : Py.exn) :
  Py.bind c k = Py.Raise e ->
  c = Py.Raise e \/ exists a, c = Py.Ok a /\ k a = Py.Raise e.
Proof.
  destruct c as [a | e']; simpl; intros H.
  - right; exists a; split; [reflexivity | exact H].
  - left. injection H as ->. reflexivity.
Qed.

Lemma for_each_ok {A B : Type} (f : A -> Py.result B) :
  forall xs ys, Py.for_each f xs = Py.Ok ys ->
    Forall2 (fun x y => f x = Py.Ok y) xs ys.
Proof.
  induction xs as [| x xs IH]; simpl; intros ys H.
  - injection H as <-. constructor.
  - apply bind_ok in H as (y & Hy & H).
    apply bind_ok in H as (ys' & Hys & H).
    injection H as <-. constructor; [exact Hy | apply IH; exact Hys].
Qed.

Lemma for_each_raise {A B : Type} (f : A -> Py.result B) :
  forall xs e, Py.for_each f xs = Py.Raise e ->
    exists pre bad post,
      xs = (pre ++ bad :: post)%list /\
      Forall (fun x => exists y, f x = Py.Ok y) pre /\
      f bad = Py.Raise e.
Proof.
  induction xs as [| x xs IH]; simpl; intros e H.
  - discriminate H.
  - apply bind_raise in H as [H | (y & Hy & H)].
    + exists [], x, xs. repeat split; [constructor | exact H].
    + apply bind_raise in H as [H | (ys & _ & H)]; [| discriminate H].
      destruct (IH e H) as (pre & bad & post & -> & Hpre & Hbad).
      exists (x :: pre), bad, post. repeat split; [| exact Hbad].
      constructor; [exists y; exact Hy | exact Hpre].
Qed.

Lemma for_each_member_raises {A B : Type} (f : A -> Py.result B) :
  forall xs x e, In x xs -> f x = Py.Raise e ->
    exists e', Py.for_each f xs = Py.Raise e'.
Proof.
  induction xs as [| y xs IH]; simpl; intros x e Hin Hx.
  - contradiction.
  - destruct (f y) as [b | e1] eqn:Hy; simpl.
    + destruct Hin as [-> | Hin]; [rewrite Hx in Hy; discriminate Hy |].
      destruct (IH x e Hin Hx) as (e' & ->). exists e'. reflexivity.
    + exists e1. reflexivity.
Qed.

(** ** C4: one failing file fails the batch *)

Section Batch.

Variable lib : PIL.Build.

(** C4.  When a request has reached the loop over its files (known
    format, readable opacity) and the processing of one of its files
    raises, the answer is the single 500 error document, built from the
    exception of the first file that fails; the files before it were
    converted, and nothing of them is sent. *)
Theorem batch_all_or_nothing :
  forall (req : Request) (opacity : Z) (file : Upload) (e : Py.exn),
    lookup (target_of req) ALLOWED <> None ->
    watermark_opacity_of req = Py.Ok opacity ->
    In file (files req) ->
    loop_body lib req opacity file = Py.Raise e ->
    exists e' pre bad post,
      convert lib req = JsonError 500 (StrOf e') /\
      sends_file (convert lib req) = false /\
      files req = (pre ++ bad :: post)%list /\
      Forall (fun f => exists out, loop_body lib req opacity f = Py.Ok out) pre /\
      loop_body lib req opacity bad = Py.Raise e'.
Proof.
  intros req opacity file e Hfmt Hop Hin Hfile.
  destruct (for_each_member_raises _ _ _ _ Hin Hfile) as (e' & Hloop).
  destruct (for_each_raise _ _ _ Hloop) as (pre & bad & post & Hsplit & Hpre & Hbad).
  exists e', pre, bad, post.
  assert (Hc : convert lib req = JsonError 500 (StrOf e')).
  { unfold convert. destruct (files req) as [| f0 fs] eqn:Hfs; [contradiction |].
    destruct (lookup (target_of req) ALLOWED) as [[[fmt ext] mime] |]; [| congruence].
    rewrite Hop, Hloop. reflexivity. }
  rewrite Hc. repeat split; assumption.
Qed.

End Batch.

(** C4 at a batch of two: the first file converts, the second is
    unreadable. *)
Lemma batch_all_or_nothing_witness :
  exists e' pre bad post,
    convert reference_build broken_batch = JsonError 500 (StrOf e') /\
    sends_file (convert reference_build broken_batch) = false /\
    files broken_batch = (pre ++ bad :: post)%list /\
    Forall (fun f => exists out,
              loop_body reference_build broken_batch 128 f = Py.Ok out) pre /\
    loop_body reference_build broken_batch 128 bad = Py.Raise e'.
Proof.
  apply (batch_all_or_nothing reference_build broken_batch
           128 (unreadable "b.png") Py.UnidentifiedImageError).
  - vm_compute. discriminate.
  - reflexivity.
  - simpl. right. left. reflexivity.
  - reflexivity.
Defined.

(** ** Text lemmas *)

Lemma chars_app (s t : string) :
  Py.chars (s ++ t) = (Py.chars s ++ Py.chars t)%list.
Proof.
  unfold Py.chars. induction s as [| c s IH]; simpl; [reflexivity |].
  rewrite IH. reflexivity.
Qed.

Lemma text_chars (s : string) : Py.text (Py.chars s) = s.
Proof. apply string_of_list_ascii_of_string. Qed.

Lemma cut_last_dot_none (l : list ascii) :
  ~ In "."%char l -> Py.cut_last_dot l = None.
Proof.
  induction l as [| c l IH]; simpl; intros Hno; [reflexivity |].
  rewrite IH by tauto.
  destruct (Ascii.eqb_spec c "."%char) as [-> | _]; [| reflexivity].
  exfalso. apply Hno. left. reflexivity.
Qed.

Lemma cut_last_dot_app (pre post : list ascii) :
  ~ In "."%char post ->
  Py.cut_last_dot (pre ++ "."%char :: post)%list = Some pre.
Proof.
  intros Hno. induction pre as [| c pre IH]; simpl.
  - rewrite cut_last_dot_none by exact Hno. reflexivity.
  - rewrite IH. reflexivity.
Qed.

(** [(stem + "." + suffix).rsplit(".", 1)[0]] is [stem] when [suffix]
    has no dot. *)
Lemma rsplit_dot_head_app (stem suffix : string) :
  ~ In "."%char (Py.chars suffix) ->
  Py.rsplit_dot_head (stem ++ "." ++ suffix) = stem.
Proof.
  intros Hno. unfold Py.rsplit_dot_head.
  rewrite chars_app. change (Py.chars ("." ++ suffix)) with ("."%char :: Py.chars suffix).
  rewrite cut_last_dot_app by exact Hno. apply text_chars.
Qed.

Lemma rsplit_dot_head_plain (name : string) :
  ~ In "."%char (Py.chars name) -> Py.rsplit_dot_head name = name.
Proof.
  intros Hno. unfold Py.rsplit_dot_head.
  rewrite cut_last_dot_none by exact Hno. reflexivity.
Qed.

(** ** The format registry *)

Lemma allowed_entries (token fmt ext mime : string) :
  lookup token ALLOWED = Some (fmt, ext, mime) ->
  token = fmt /\
  In (fmt, ext, mime)
    [ ("PNG", "png", "image/png"); ("JPEG", "jpg", "image/jpeg");
      ("WEBP", "webp", "image/webp"); ("GIF", "gif", "image/gif");
      ("BMP", "bmp", "image/bmp"); ("TIFF", "tiff", "image/tiff") ].
Proof.
  unfold ALLOWED, lookup.
  repeat match goal with
         | |- context [String.eqb token ?k] =>
             destruct (String.eqb_spec token k) as [-> | _];
             [ intros H; injection H as <- <- <-; split; [reflexivity | simpl; tauto] | ]
         end.
  discriminate.
Qed.

Lemma allowed_ext_plain (token fmt ext mime : string) :
  lookup token ALLOWED = Some (fmt, ext, mime) ->
  Py.rsplit_dot_head ("image." ++ ext) = "image".
Proof.
  intros H. apply allowed_entries in H as [_ H]. simpl in H.
  repeat (destruct H as [H | H]; [injection H as <- <- <-; reflexivity |]).
  contradiction.
Qed.

(** ** C5: names of the outputs and shape of the answer *)

Section Outputs.

Variable lib : PIL.Build.

Lemma convert_file_ok (req : Request) (target mode quality : string)
    (t : Transformations) (txt pos : string) (opacity : Z) (pa : bool)
    (file : Upload) (name : string) (buf : PIL.Encoded) :
  convert_file lib req target mode quality t txt pos opacity pa file
    = Py.Ok (name, buf) ->
  exists fmt ext mime,
    lookup target ALLOWED = Some (fmt, ext, mime) /\
    name = output_name file ext /\
    PIL.enc_format buf = fmt.
Proof.
  unfold convert_file. intros H.
  apply bind_ok in H as (img0 & _ & H).
  apply bind_ok in H as (img1 & _ & H).
  apply bind_ok in H as (img2 & _ & H).
  apply bind_ok in H as (img3 & _ & H).
  destruct (lookup target ALLOWED) as [[[fmt ext] mime] |]; [| discriminate H].
  apply bind_ok in H as (params & _ & H).
  apply bind_ok in H as (enc & Hsave & H).
  injection H as <- <-.
  exists fmt, ext, mime. repeat split.
  unfold PIL.save in Hsave.
  destruct (PIL.encodes lib fmt _); [| discriminate Hsave].
  injection Hsave as <-. reflexivity.
Qed.

Lemma loop_outputs (req : Request) (opacity : Z) (fmt ext mime : string) :
  lookup (target_of req) ALLOWED = Some (fmt, ext, mime) ->
  forall fs outputs,
    Py.for_each (loop_body lib req opacity) fs = Py.Ok outputs ->
    map fst outputs = map (fun f => output_name f ext) fs /\
    Forall (fun o => PIL.enc_format (snd o) = fmt) outputs.
Proof.
  intros Hfmt fs outputs H. apply for_each_ok in H.
  induction H as [| f [name buf] fs outputs Hf _ [IHn IHf]]; simpl.
  - split; constructor.
  - apply convert_file_ok in Hf as (fmt' & ext' & mime' & Hl & -> & Henc).
    rewrite Hfmt in Hl. injection Hl as <- <- <-.
    split; [f_equal; exact IHn | constructor; [exact Henc | exact IHf]].
Qed.

(** C5.  Whenever [convert] answers with files, the outputs are one per
    uploaded file, in order, each named by the stem of the uploaded name
    followed by the extension of the target format and encoded in that
    format; a single output is sent as it is, as an attachment under its
    own name with the MIME type of the format, and two or more are sent
    as one deflate-compressed archive named [images.zip].  The stem is
    what precedes the last dot of the uploaded name (the whole name when
    it has no dot), and [image] when the upload carries no name. *)
Theorem batch_response_shape :
  forall (req : Request) (body : Body) (attachment : bool) (name : string)
         (mimetype : option string),
    convert lib req = SendFile body attachment name mimetype ->
    exists fmt ext mime outputs,
      lookup (target_of req) ALLOWED = Some (fmt, ext, mime) /\
      map fst outputs = map (fun f => output_name f ext) (files req) /\
      Forall (fun o => PIL.enc_format (snd o) = fmt) outputs /\
      attachment = true /\
      match outputs with
      | [(n, buf)] => body = FileBody buf /\ name = n /\ mimetype = Some mime
      | _ => (2 <= List.length outputs)%nat /\
             body = ZipBody "ZIP_DEFLATED" outputs /\ name = "images.zip"
      end /\
      (forall stem suffix, ~ In "."%char (Py.chars suffix) ->
         output_name (upload (stem ++ "." ++ suffix) wide_photo) ext
           = stem ++ "." ++ ext) /\
      (forall plain, plain <> "" -> ~ In "."%char (Py.chars plain) ->
         output_name (upload plain wide_photo) ext = plain ++ "." ++ ext) /\
      (forall file, filename file = None \/ filename file = Some "" ->
         output_name file ext = "image." ++ ext).
Proof.
  intros req body attachment name mimetype H. unfold convert in H.
  destruct (files req) as [| f0 fs] eqn:Hfs; [discriminate H |].
  destruct (lookup (target_of req) ALLOWED) as [[[fmt ext] mime] |] eqn:Hfmt;
    [| discriminate H].
  destruct (watermark_opacity_of req) as [opacity | e]; [| discriminate H].
  destruct (Py.for_each (loop_body lib req opacity) (f0 :: fs))
    as [outputs | e] eqn:Hloop; [| discriminate H].
  destruct (loop_outputs req opacity fmt ext mime Hfmt _ _ Hloop) as [Hnames Hfmts].
  exists fmt, ext, mime, outputs.
  split; [reflexivity |]. split; [exact Hnames |]. split; [exact Hfmts |].
  assert (Hlen : List.length outputs = S (List.length fs)).
  { apply (f_equal (@List.length _)) in Hnames. rewrite !length_map in Hnames. exact Hnames. }
  split; [| split]; [| | repeat split].
  - destruct outputs as [| [n b] [| o2 os]]; injection H as _ <- _ _; reflexivity.
  - destruct outputs as [| [n b] [| o2 os]].
    + discriminate Hlen.
    + injection H as <- _ <- <-. repeat split.
    + injection H as <- _ <- _. repeat split. simpl. lia.
  - intros stem suffix Hno. unfold output_name, upload; cbn [filename].
    destruct (String.eqb_spec (stem ++ "." ++ suffix) "") as [Hempty | _].
    + destruct stem; discriminate Hempty.
    + rewrite rsplit_dot_head_app by exact Hno. reflexivity.
  - intros plain Hne Hno. unfold output_name, upload; cbn [filename].
    destruct (String.eqb_spec plain "") as [Hempty | _]; [contradiction |].
    rewrite rsplit_dot_head_plain by exact Hno. reflexivity.
  - intros file Hname. unfold output_name.
    destruct Hname as [-> | ->]; cbn [String.eqb];
      rewrite (allowed_ext_plain _ _ _ _ Hfmt); reflexivity.
Qed.

End Outputs.

(** C5 at a batch of two files sent for TIFF, one of them unnamed. *)
Lemma batch_response_shape_witness :
  exists outputs,
    convert reference_build tiff_batch
      = SendFile (ZipBody "ZIP_DEFLATED" outputs) true "images.zip" None /\
    map fst outputs = ["a.b.tiff"; "image.tiff"] /\
    Forall (fun o => PIL.enc_format (snd o) = "TIFF") outputs.
Proof.
  assert (H : exists outputs, convert reference_build tiff_batch
                = SendFile (ZipBody "ZIP_DEFLATED" outputs) true "images.zip" None)
    by (eexists; reflexivity).
  destruct H as [outputs H]. exists outputs. split; [exact H |].
  destruct (batch_response_shape reference_build tiff_batch _ _ _ _ H)
    as (fmt & ext & mime & outs & Hfmt & Hnames & Hfmts & _ & Hshape & _).
  vm_compute in Hfmt. injection Hfmt as <- <- <-.
  assert (Houts : outs = outputs).
  { destruct outs as [| [n b] [| o2 os]].
    - destruct Hshape as (_ & Hz & _). injection Hz as <-. reflexivity.
    - destruct Hshape as (Hz & _). discriminate Hz.
    - destruct Hshape as (_ & Hz & _). injection Hz as <-. reflexivity. }
  rewrite <- Houts. split; [exact Hnames | exact Hfmts].
Defined.

(** ** C8: rotation *)

Lemma int_of_str_nonempty (s : string) (n : Z) :
  Py.int_of_str s = Py.Ok n -> String.eqb s "" = false.
Proof.
  destruct s; [discriminate | reflexivity].
Qed.

Section Rotation.

Variable lib : PIL.Build.

(** C8.  With a rotation field that reads as the integer [angle]:
    for 90, 180 and 270 the picture is turned clockwise by that angle on
    a canvas that takes the turned picture whole (for 90 the pixel of
    column [x], row [y] of the result is the one of column [y], row
    [H - 1 - x] of the source, and the sides are swapped); for every
    other angle the picture is returned as it is.  Four quarter turns in
    a row give back the width, the height and every pixel. *)
Theorem rotation_clockwise :
  forall (img : PIL.Image) (s : string) (angle : Z),
    Py.int_of_str s = Py.Ok angle ->
    exists out,
      apply_transformations lib img (turn s) = Py.Ok out /\
      PIL.mode out = PIL.mode img /\
      (angle = 90 ->
         PIL.width out = PIL.height img /\ PIL.height out = PIL.width img /\
         forall x y, PIL.px out x y = PIL.px img y (PIL.height img - 1 - x)) /\
      (angle = 180 ->
         PIL.width out = PIL.width img /\ PIL.height out = PIL.height img /\
         forall x y, PIL.px out x y
                       = PIL.px img (PIL.width img - 1 - x) (PIL.height img - 1 - y)) /\
      (angle = 270 ->
         PIL.width out = PIL.height img /\ PIL.height out = PIL.width img /\
         forall x y, PIL.px out x y = PIL.px img (PIL.width img - 1 - y) x) /\
      (angle <> 90 -> angle <> 180 -> angle <> 270 -> out = img) /\
      exists i1 i2 i3 i4,
        apply_transformations lib img (turn "90") = Py.Ok i1 /\
        apply_transformations lib i1 (turn "90") = Py.Ok i2 /\
        apply_transformations lib i2 (turn "90") = Py.Ok i3 /\
        apply_transformations lib i3 (turn "90") = Py.Ok i4 /\
        PIL.width i4 = PIL.width img /\ PIL.height i4 = PIL.height img /\
        forall x y, PIL.px i4 x y = PIL.px img x y.
Proof.
  intros img s angle Hs.
  unfold apply_transformations, turn; cbn [rotate flip_horizontal flip_vertical].
  rewrite (int_of_str_nonempty _ _ Hs), Hs. cbn [negb Py.bind].
  assert (Hfour :
    exists i1 i2 i3 i4 : PIL.Image,
      Py.Ok (PIL.rotate lib (- 90) true img) = Py.Ok i1 /\
      Py.Ok (PIL.rotate lib (- 90) true i1) = Py.Ok i2 /\
      Py.Ok (PIL.rotate lib (- 90) true i2) = Py.Ok i3 /\
      Py.Ok (PIL.rotate lib (- 90) true i3) = Py.Ok i4 /\
      PIL.width i4 = PIL.width img /\ PIL.height i4 = PIL.height img /\
      forall x y, PIL.px i4 x y = PIL.px img x y).
  { do 4 eexists. do 4 (split; [reflexivity |]).
    cbn. repeat split. intros x y. f_equal; lia. }
  destruct (Z.eqb_spec angle 90) as [-> | H90];
    [| destruct (Z.eqb_spec angle 180) as [-> | H180];
       [| destruct (Z.eqb_spec angle 270) as [-> | H270]]];
    cbn [orb]; eexists; (split; [reflexivity |]);
    (split; [reflexivity |]);
    repeat split; try lia; try reflexivity; try exact Hfour;
    intros; try lia; reflexivity.
Qed.

End Rotation.

(** C8 at a quarter turn of the 1600 x 900 photo. *)
Lemma rotation_clockwise_witness :
  exists out,
    apply_transformations reference_build wide_photo (turn "90") = Py.Ok out /\
    PIL.width out = 900 /\ PIL.height out = 1600 /\
    PIL.px out 899 0 = PIL.px wide_photo 0 0.
Proof.
  destruct (rotation_clockwise reference_build wide_photo "90" 90 eq_refl)
    as (out & Hout & _ & H90 & _).
  destruct (H90 eq_refl) as (Hw & Hh & Hpx).
  exists out. repeat split; [exact Hout | exact Hw | exact Hh |].
  rewrite Hpx. reflexivity.
Defined.

(** ** C10: the preview thumbnail *)

Section Preview.

Variable lib : PIL.Build.

Lemma thumbnail_fits (img : PIL.Image) :
  PIL.width img <= 400 -> PIL.height img <= 400 ->
  PIL.thumbnail (400, 400) "LANCZOS" img = Py.Ok img.
Proof.
  intros Hw Hh. unfold PIL.thumbnail, PIL.preserve_aspect_ratio; cbn [fst snd].
  replace (400 >=? PIL.width img) with true by (symmetry; apply Z.geb_le; exact Hw).
  replace (400 >=? PIL.height img) with true by (symmetry; apply Z.geb_le; exact Hh).
  reflexivity.
Qed.

(** C10.  When the picture that reaches the thumbnail step (after
    orientation, transformations and watermark) is at most 400 pixels on
    both sides, that step returns it unchanged, and the preview document
    is the PNG encoding of that very picture with its width and height
    as dimensions (or the 500 error document, should the encoder
    refuse).  For every preview document, the dimensions are the width
    and height of the picture that was encoded, and the encoding is
    PNG. *)
Theorem preview_never_enlarges :
  forall (req : Request) (opacity : Z) (file : Upload) (rest : list Upload)
         (img : PIL.Image),
    files req = file :: rest ->
    watermark_opacity_of req = Py.Ok opacity ->
    preview_source lib req opacity file = Py.Ok img ->
    PIL.width img <= 400 ->
    PIL.height img <= 400 ->
    PIL.thumbnail (400, 400) "LANCZOS" img = Py.Ok img /\
    preview_image lib req
      = match PIL.save lib "PNG" [] img with
        | Py.Ok buf => JsonPreview buf (PIL.width img) (PIL.height img)
        | Py.Raise e => JsonError 500 (StrOf e)
        end /\
    (PIL.encodes lib "PNG" (PIL.mode img) = true ->
       exists buf, preview_image lib req
                     = JsonPreview buf (PIL.width img) (PIL.height img) /\
                   PIL.enc_image buf = img) /\
    (forall (any : Request) (buf : PIL.Encoded) (w h : Z),
       preview_image lib any = JsonPreview buf w h ->
       w = PIL.width (PIL.enc_image buf) /\
       h = PIL.height (PIL.enc_image buf) /\
       PIL.enc_format buf = "PNG").
Proof.
  intros req opacity file rest img Hfiles Hop Hsrc Hw Hh.
  pose proof (thumbnail_fits img Hw Hh) as Hthumb.
  assert (Hresp : preview_image lib req
      = match PIL.save lib "PNG" [] img with
        | Py.Ok buf => JsonPreview buf (PIL.width img) (PIL.height img)
        | Py.Raise e => JsonError 500 (StrOf e)
        end).
  { unfold preview_image. rewrite Hfiles, Hop, Hsrc. cbn [Py.bind].
    rewrite Hthumb. cbn [Py.bind].
    destruct (PIL.save lib "PNG" [] img); reflexivity. }
  split; [exact Hthumb |]. split; [exact Hresp |]. split.
  - intros Henc. rewrite Hresp. unfold PIL.save. rewrite Henc.
    eexists. split; reflexivity.
  - intros any buf w h H. unfold preview_image in H.
    destruct (files any) as [| f fs]; [discriminate H |].
    destruct (watermark_opacity_of any) as [o | e]; [| discriminate H].
    destruct (preview_source lib any o f) as [i0 | e]; [| discriminate H].
    cbn [Py.bind] in H.
    destruct (PIL.thumbnail (400, 400) "LANCZOS" i0) as [i1 | e]; [| discriminate H].
    cbn [Py.bind] in H. unfold PIL.save in H.
    destruct (PIL.encodes lib "PNG" (PIL.mode i1)); [| discriminate H].
    cbn [Py.bind] in H. injection H as <- <- <-. repeat split.
Qed.

End Preview.

(** C10 at a 300 x 200 upload, no transformation, no watermark. *)
Lemma preview_never_enlarges_witness :
  exists buf,
    preview_image reference_build small_preview = JsonPreview buf 300 200 /\
    PIL.enc_image buf = small_photo.
Proof.
  assert (Hop : watermark_opacity_of small_preview = Py.Ok 128)
    by (vm_compute; reflexivity).
  assert (Hsrc : preview_source reference_build small_preview 128
                   (upload "s.png" small_photo) = Py.Ok small_photo)
    by (vm_compute; reflexivity).
  assert (Hw : PIL.width small_photo <= 400) by (vm_compute; discriminate).
  assert (Hh : PIL.height small_photo <= 400) by (vm_compute; discriminate).
  destruct (preview_never_enlarges reference_build small_preview 128
              (upload "s.png" small_photo) [] small_photo eq_refl Hop Hsrc Hw Hh)
    as (_ & _ & H & _).
  apply H. vm_compute. reflexivity.
Defined.

(** ** C7: what reaches the encoder *)

(** The encode stage flattens to RGB exactly the pictures of mode RGBA
    or P that go to JPEG, BMP or TIFF. *)
Lemma encoder_input_cases (fmt : string) (img : PIL.Image) :
  (Py.str_in fmt ["JPEG"; "BMP"; "TIFF"] = true ->
   Py.str_in (PIL.mode img) ["RGBA"; "P"] = true ->
   encoder_input fmt img = PIL.convert "RGB" img) /\
  (Py.str_in fmt ["JPEG"; "BMP"; "TIFF"] = false -> encoder_input fmt img = img) /\
  (Py.str_in (PIL.mode img) ["RGBA"; "P"] = false -> encoder_input fmt img = img).
Proof.
  unfold encoder_input. repeat split.
  - intros -> ->. reflexivity.
  - intros ->. reflexivity.
  - intros ->. rewrite andb_false_r. reflexivity.
Qed.

(** C7, the case the code misses.  A greyscale picture with an alpha
    channel (mode LA) sent for JPEG is not flattened: it reaches the
    JPEG encoder in mode LA, the encoder refuses it and the request ends
    in the 500 error document; the same picture in mode RGBA is
    flattened and converted. *)
Theorem grey_alpha_not_flattened :
  encoder_input "JPEG" grey_alpha = grey_alpha /\
  PIL.mode (encoder_input "JPEG" grey_alpha) = "LA" /\
  PIL.mode (encoder_input "JPEG" colour_alpha) = "RGB" /\
  convert reference_build (to_jpeg grey_alpha) = JsonError 500 (StrOf Py.OSError) /\
  sends_file (convert reference_build (to_jpeg colour_alpha)) = true.
Proof.
  repeat split; vm_compute; reflexivity.
Qed.

(** ** C9: exact fit without a lower bound *)

(** C9.  A 1000 x 1 picture asked to fit a 100 x 100 box with its ratio
    kept gets the size 100 x 0: the derived height is truncated to 0 and
    not raised to 1, [resize] refuses it and the request ends in the 500
    error document, whatever the build.  The percent mode never does
    that: each side it computes is at least 1; at 10 percent the same
    picture gets 100 x 1. *)
Theorem exact_fit_zero_side :
  fit_size sliver 100 100 = Py.Ok (100, 0) /\
  resize_step sliver_request "exact" true sliver = Py.Raise Py.ValueError /\
  (forall lib, convert lib sliver_request = JsonError 500 (StrOf Py.ValueError)) /\
  scaled (PIL.width sliver) (Py.Finite 10) = Py.Ok 100 /\
  scaled (PIL.height sliver) (Py.Finite 10) = Py.Ok 1 /\
  (forall side percent,
     match scaled side percent with
     | Py.Ok k => 1 <= k
     | Py.Raise _ => True
     end).
Proof.
  split; [vm_compute; reflexivity |].
  split; [vm_compute; reflexivity |].
  split; [intros lib; vm_compute; reflexivity |].
  split; [vm_compute; reflexivity |].
  split; [vm_compute; reflexivity |].
  intros side percent. unfold scaled.
  destruct (Py.float_of_int side) as [fs | e]; cbn [Py.bind]; [| exact I].
  destruct (Py.fdiv _ _) as [r | e]; cbn [Py.bind]; [| exact I].
  destruct (Py.int_of_float r) as [k | e]; cbn [Py.bind]; [lia | exact I].
Qed.

(** ** C2: encoder parameters *)

(** A boolean property checked on [lo], [lo + 1], ..., [lo + n - 1]
    holds on that interval. *)
Lemma range_check (P : Z -> bool) (lo : Z) (n : nat) :
  forallb P (map (fun i => lo + Z.of_nat i) (seq 0 n)) = true ->
  forall q, lo <= q < lo + Z.of_nat n -> P q = true.
Proof.
  intros Hall q Hq. rewrite forallb_forall in Hall. apply Hall.
  apply in_map_iff. exists (Z.to_nat (q - lo)). split; [lia |].
  apply in_seq. lia.
Qed.

(** [int(q / 11.12)] in binary64 is the integer part of [100 q / 1112]
    for every clamped quality. *)
Lemma quality_quotient (q : Z) :
  1 <= q <= 100 ->
  (fq <- Py.float_of_int q ;;
   r <- Py.fdiv fq lit_11_12 ;;
   Py.int_of_float r) = Py.Ok ((100 * q) / 1112).
Proof.
  intros Hq.
  pose (P := fun q => match (fq <- Py.float_of_int q ;;
                             r <- Py.fdiv fq lit_11_12 ;;
                             Py.int_of_float r) with
                      | Py.Ok k => k =? (100 * q) / 1112
                      | Py.Raise _ => false
                      end).
  assert (H : P q = true).
  { apply (range_check P 1 100); [vm_compute; reflexivity | lia]. }
  unfold P in H.
  destruct (fq <- Py.float_of_int q ;; r <- Py.fdiv fq lit_11_12 ;; Py.int_of_float r)
    as [k | e]; [| discriminate H].
  apply Z.eqb_eq in H. rewrite H. reflexivity.
Qed.

(** C2.  For a quality field that reads as the integer [n], the
    resolver works on [q], which is [n] clamped to 1..100.  JPEG and
    WEBP get that [q] as [quality]; PNG gets [optimize = True] and
    [compress_level = clamp(9 - floor(q / 11.12), 0, 9)], where the
    binary64 quotient the code computes has the integer part of the
    exact [100 q / 1112]; that level lies in 0..9 and does not increase
    when the quality grows; every other format gets no parameter.  The
    resolver is a function: one input has one result. *)
Theorem save_params_by_format :
  forall (quality : string) (n : Z),
    Py.int_of_str quality = Py.Ok n ->
    let clamp := fun m => Z.max 1 (Z.min m 100) in
    let level := fun m => Z.max 0 (Z.min 9 (9 - (100 * clamp m) / 1112)) in
    1 <= clamp n <= 100 /\
    build_save_params "JPEG" quality = Py.Ok [("quality", PIL.VInt (clamp n))] /\
    build_save_params "WEBP" quality = Py.Ok [("quality", PIL.VInt (clamp n))] /\
    build_save_params "PNG" quality
      = Py.Ok [("optimize", PIL.VBool true); ("compress_level", PIL.VInt (level n))] /\
    0 <= level n <= 9 /\
    (forall n', n <= n' -> level n' <= level n) /\
    (forall fmt, fmt <> "JPEG" -> fmt <> "WEBP" -> fmt <> "PNG" ->
       build_save_params fmt quality = Py.Ok []) /\
    (forall fmt r r', build_save_params fmt quality = r ->
       build_save_params fmt quality = r' -> r = r').
Proof.
  intros quality n Hq clamp level.
  assert (Hc : 1 <= clamp n <= 100) by (unfold clamp; lia).
  split; [exact Hc |].
  unfold build_save_params. rewrite (int_of_str_nonempty _ _ Hq), Hq.
  cbn [Py.bind]. fold (clamp n).
  split; [reflexivity |]. split; [reflexivity |]. split; [| split; [| split; [| split]]].
  - change (Py.str_in "PNG" ["JPEG"; "WEBP"]) with false.
    change (String.eqb "PNG" "PNG") with true. cbv iota.
    pose proof (quality_quotient (clamp n) Hc) as Hk.
    destruct (Py.float_of_int (clamp n)) as [fq | e]; cbn [Py.bind] in *;
      [| discriminate Hk].
    destruct (Py.fdiv fq lit_11_12) as [r | e]; cbn [Py.bind] in *;
      [| discriminate Hk].
    rewrite Hk. reflexivity.
  - unfold level. lia.
  - intros n' Hle. unfold level.
    assert (Hmono : (100 * clamp n) / 1112 <= (100 * clamp n') / 1112).
    { apply Z.div_le_mono; [lia | unfold clamp; lia]. }
    lia.
  - intros fmt Hj Hw Hp. unfold Py.str_in. cbn [existsb].
    destruct (String.eqb_spec fmt "JPEG") as [-> | _]; [contradiction |].
    destruct (String.eqb_spec fmt "WEBP") as [-> | _]; [contradiction |].
    destruct (String.eqb_spec fmt "PNG") as [-> | _]; [contradiction |].
    reflexivity.
  - intros fmt r r' <- <-. reflexivity.
Qed.

(** C2 at the quality field ["90"]. *)
Lemma save_params_by_format_witness :
  build_save_params "JPEG" "90" = Py.Ok [("quality", PIL.VInt 90)] /\
  build_save_params "PNG" "90"
    = Py.Ok [("optimize", PIL.VBool true); ("compress_level", PIL.VInt 1)] /\
  build_save_params "GIF" "90" = Py.Ok [].
Proof.
  destruct (save_params_by_format "90" 90 eq_refl)
    as (_ & Hj & _ & Hp & _ & _ & Ho & _).
  split; [exact Hj |]. split; [exact Hp |].
  apply Ho; discriminate.
Defined.

(** ** binary64 rounding

    The facts on [fl] used below: the rounded value of a positive
    number of moderate size is within the relative distance [2^-53],
    and integers below [2^53] are not rounded at all. *)

Lemma pow2_pos (e : Z) : 0 < 2 ^ Z.max e 0.
Proof. apply Z.pow_pos_nonneg; lia. Qed.

Lemma log2_bounds (n : Z) : 0 < n -> 2 ^ Z.log2 n <= n < 2 * 2 ^ Z.log2 n.
Proof.
  intros Hn. pose proof (Z.log2_spec n Hn) as H.
  rewrite Z.pow_succ_r in H by apply Z.log2_nonneg. exact H.
Qed.

Lemma pow2_split (a b : Z) : 0 <= a -> 0 <= b -> 2 ^ (a + b) = 2 ^ a * 2 ^ b.
Proof. intros. apply Z.pow_add_r; assumption. Qed.

Lemma ilog2_spec (n d : Z) :
  0 < n -> 0 < d ->
  let L := Py.ilog2 n d in
  d * 2 ^ Z.max L 0 <= n * 2 ^ Z.max (- L) 0 < 2 * (d * 2 ^ Z.max L 0).
Proof.
  intros Hn Hd L. unfold L, Py.ilog2.
  pose proof (log2_bounds n Hn) as Ha. pose proof (log2_bounds d Hd) as Hb.
  pose proof (Z.log2_nonneg n) as Ha0. pose proof (Z.log2_nonneg d) as Hb0.
  set (a := Z.log2 n) in *. set (b := Z.log2 d) in *.
  set (k := a - b).
  assert (HA : 0 < 2 ^ a) by (apply Z.pow_pos_nonneg; lia).
  assert (HB : 0 < 2 ^ b) by (apply Z.pow_pos_nonneg; lia).
  destruct (Z.leb_spec (d * 2 ^ Z.max k 0) (n * 2 ^ Z.max (- k) 0)) as [Ht | Ht].
  - split; [exact Ht |].
    destruct (Z_le_gt_dec 0 k) as [Hk | Hk].
    + rewrite (Z.max_l k 0) by lia. rewrite (Z.max_r (- k) 0) by lia.
      assert (E : 2 ^ a = 2 ^ b * 2 ^ k) by (rewrite <- pow2_split by lia; f_equal; lia).
      assert (HK : 0 < 2 ^ k) by (apply Z.pow_pos_nonneg; lia).
      change (2 ^ 0) with 1.
      assert (2 ^ b * 2 ^ k <= d * 2 ^ k) by (apply Z.mul_le_mono_nonneg_r; lia).
      lia.
    + rewrite (Z.max_r k 0) by lia. rewrite (Z.max_l (- k) 0) by lia.
      assert (E : 2 ^ b = 2 ^ a * 2 ^ (- k)) by (rewrite <- pow2_split by lia; f_equal; lia).
      assert (HK : 0 < 2 ^ (- k)) by (apply Z.pow_pos_nonneg; lia).
      change (2 ^ 0) with 1.
      assert (n * 2 ^ (- k) < (2 * 2 ^ a) * 2 ^ (- k)) by (apply Z.mul_lt_mono_pos_r; lia).
      lia.
  - destruct (Z_le_gt_dec 1 k) as [Hk | Hk].
    + rewrite (Z.max_l k 0) in Ht by lia. rewrite (Z.max_r (- k) 0) in Ht by lia.
      rewrite (Z.max_l (k - 1) 0) by lia. rewrite (Z.max_r (- (k - 1)) 0) by lia.
      change (2 ^ 0) with 1 in *.
      assert (E : 2 ^ k = 2 * 2 ^ (k - 1)).
      { replace k with (Z.succ (k - 1)) at 1 by lia. apply Z.pow_succ_r. lia. }
      assert (E2 : 2 ^ a = 2 ^ b * 2 ^ k) by (rewrite <- pow2_split by lia; f_equal; lia).
      assert (HK : 0 < 2 ^ (k - 1)) by (apply Z.pow_pos_nonneg; lia).
      assert (d * 2 ^ (k - 1) < (2 * 2 ^ b) * 2 ^ (k - 1))
        by (apply Z.mul_lt_mono_pos_r; lia).
      lia.
    + rewrite (Z.max_r k 0) in Ht by lia. rewrite (Z.max_l (- k) 0) in Ht by lia.
      rewrite (Z.max_r (k - 1) 0) by lia. rewrite (Z.max_l (- (k - 1)) 0) by lia.
      change (2 ^ 0) with 1 in *.
      assert (E : 2 ^ (- (k - 1)) = 2 * 2 ^ (- k)).
      { replace (- (k - 1)) with (Z.succ (- k)) by lia. apply Z.pow_succ_r. lia. }
      assert (E2 : 2 ^ b = 2 ^ a * 2 ^ (- k)) by (rewrite <- pow2_split by lia; f_equal; lia).
      assert (HK : 0 < 2 ^ (- k)) by (apply Z.pow_pos_nonneg; lia).
      assert (2 ^ a * 2 ^ (- k) <= n * 2 ^ (- k)) by (apply Z.mul_le_mono_nonneg_r; lia).
      lia.
Qed.

Lemma rne_spec (n d : Z) :
  0 <= n -> 0 < d -> - d <= 2 * (Py.rne n d * d - n) <= d.
Proof.
  intros Hn Hd. unfold Py.rne.
  pose proof (Z.div_mod n d ltac:(lia)) as E.
  pose proof (Z.mod_pos_bound n d Hd) as Hr.
  destruct (Z.compare_spec (2 * (n mod d)) d) as [Hc | Hc | Hc];
    [destruct (Z.even (n / d)) |..]; nia.
Qed.

Lemma pow2_mono (a b : Z) : 0 <= a <= b -> 2 ^ a <= 2 ^ b.
Proof. intros H. apply Z.pow_le_mono_r; lia. Qed.

(** The rounding of a positive fraction [n/d] that lies between
    [2^-1000] and [2^1000]: no subnormal, no overflow, and a relative
    error of at most [2^-53]. *)
Lemma round_core (n d : Z) :
  0 < n -> 0 < d -> d <= n * 2 ^ 1000 -> n <= d * 2 ^ 1000 ->
  let e := Py.ilog2 n d - 52 in
  let A := 2 ^ Z.max e 0 in
  let B := 2 ^ Z.max (- e) 0 in
  let m := Py.rne (n * B) (d * A) in
  Z.max e (-1074) = e /\
  0 < m /\
  m * A < 2 ^ 1024 /\
  (2 ^ 53 - 1) * (n * B) <= 2 ^ 53 * (m * A * d) /\
  2 ^ 53 * (m * A * d) <= (2 ^ 53 + 1) * (n * B).
Proof.
  intros Hn Hd Hlo Hhi e A B m.
  pose proof (ilog2_spec n d Hn Hd) as HL. cbv zeta in HL.
  set (L := Py.ilog2 n d) in *.
  assert (HA : 0 < A) by apply pow2_pos.
  assert (HB : 0 < B) by apply pow2_pos.
  assert (HAL : 0 < 2 ^ Z.max L 0) by apply pow2_pos.
  assert (HBL : 0 < 2 ^ Z.max (- L) 0) by apply pow2_pos.
  (* the logarithm is moderate *)
  assert (HLhi : L <= 1000).
  { destruct (Z_le_gt_dec L 1000) as [H | H]; [exact H | exfalso].
    rewrite (Z.max_l L 0), (Z.max_r (- L) 0) in HL by lia. change (2 ^ 0) with 1 in HL.
    assert (2 * 2 ^ 1000 <= 2 ^ L).
    { change (2 * 2 ^ 1000) with (2 ^ 1001). apply pow2_mono. lia. }
    nia. }
  assert (HLlo : -1001 <= L).
  { destruct (Z_le_gt_dec (-1001) L) as [H | H]; [exact H | exfalso].
    rewrite (Z.max_r L 0), (Z.max_l (- L) 0) in HL by lia. change (2 ^ 0) with 1 in HL.
    assert (2 * 2 ^ 1001 <= 2 ^ (- L)).
    { change (2 * 2 ^ 1001) with (2 ^ 1002). apply pow2_mono. lia. }
    nia. }
  (* scaling by [2^-e] brings the fraction into [2^52, 2^53) *)
  assert (Hexp : 2 ^ 52 * A * 2 ^ Z.max (- L) 0 = 2 ^ Z.max L 0 * B).
  { unfold A, B. rewrite <- !pow2_split by lia. f_equal. unfold e. lia. }
  assert (Hscaled : 2 ^ 52 * (d * A) <= n * B < 2 ^ 53 * (d * A)).
  { destruct HL as [H1 H2].
    assert (E1 : 2 ^ 52 * (d * A) * 2 ^ Z.max (- L) 0 = d * 2 ^ Z.max L 0 * B).
    { transitivity (d * (2 ^ 52 * A * 2 ^ Z.max (- L) 0)); [ring | rewrite Hexp; ring]. }
    assert (E2 : n * B * 2 ^ Z.max (- L) 0 = n * 2 ^ Z.max (- L) 0 * B) by ring.
    split.
    - apply (Z.mul_le_mono_pos_r _ _ (2 ^ Z.max (- L) 0)); [exact HBL |].
      rewrite E1, E2. apply Z.mul_le_mono_nonneg_r; lia.
    - apply (Z.mul_lt_mono_pos_r (2 ^ Z.max (- L) 0)); [exact HBL |].
      change (2 ^ 53) with (2 * 2 ^ 52).
      rewrite <- (Z.mul_assoc 2 (2 ^ 52)), <- (Z.mul_assoc 2 _ (2 ^ Z.max (- L) 0)).
      rewrite E1, E2.
      replace (2 * (d * 2 ^ Z.max L 0 * B)) with (2 * (d * 2 ^ Z.max L 0) * B) by ring.
      apply Z.mul_lt_mono_pos_r; lia. }
  assert (HD : 0 < d * A) by (apply Z.mul_pos_pos; assumption).
  assert (HN : 0 <= n * B) by (apply Z.mul_nonneg_nonneg; lia).
  pose proof (rne_spec (n * B) (d * A) HN HD) as Hm. fold m in Hm.
  assert (Hm53 : m <= 2 ^ 53) by nia.
  assert (Hm52 : 2 ^ 52 <= m) by nia.
  split; [unfold e; lia |]. split; [lia |]. split; [| split].
  - assert (A <= 2 ^ 948) by (apply pow2_mono; unfold e; lia).
    assert (m * A <= 2 ^ 53 * 2 ^ 948) by (apply Z.mul_le_mono_nonneg; lia).
    change (2 ^ 53 * 2 ^ 948) with (2 ^ 1001) in *.
    assert (2 ^ 1001 < 2 ^ 1024) by (apply Z.pow_lt_mono_r; lia).
    lia.
  - replace (m * A * d) with (m * (d * A)) by ring. lia.
  - replace (m * A * d) with (m * (d * A)) by ring. lia.
Qed.

Lemma fl_proper (x x' : Q) : (x == x')%Q -> Py.fl x = Py.fl x'.
Proof.
  intros H. unfold Py.fl. rewrite (Qred_complete x x' H). reflexivity.
Qed.

(** Rounding a positive rational between [2^-1000] and [2^1000] gives a
    positive number within the relative distance [2^-53]. *)
Lemma fl_pos (x : Q) :
  (0 < x)%Q ->
  (Qmake 1 (2 ^ 1000)%positive <= x)%Q ->
  (x <= inject_Z (2 ^ 1000))%Q ->
  exists y,
    Py.fl x = Py.Finite y /\
    (0 < y)%Q /\
    (inject_Z (2 ^ 53 - 1) * x <= inject_Z (2 ^ 53) * y)%Q /\
    (inject_Z (2 ^ 53) * y <= inject_Z (2 ^ 53 + 1) * x)%Q.
Proof.
  intros Hpos Hlo Hhi.
  unfold Py.fl. cbv zeta.
  destruct (Qred x) as [n dp] eqn:Ex. cbn [Qnum Qden].
  assert (Hx : (x == n # dp)%Q) by (rewrite <- Ex; symmetry; apply Qred_correct).
  rewrite Hx in Hpos, Hlo, Hhi.
  unfold Qlt in Hpos. unfold Qle in Hlo, Hhi. cbn [Qnum Qden inject_Z] in Hpos, Hlo, Hhi.
  rewrite Pos2Z.inj_pow in Hlo.
  assert (Hn : 0 < n) by lia.
  destruct (round_core n (Z.pos dp) Hn (Pos2Z.is_pos dp) ltac:(lia) ltac:(lia))
    as (He & Hm & Hover & Hlow & Hupp).
  replace (n =? 0) with false by (symmetry; apply Z.eqb_neq; lia).
  rewrite (Z.abs_eq n) by lia.
  rewrite He.
  set (e := Py.ilog2 n (Z.pos dp) - 52) in *.
  set (A := 2 ^ Z.max e 0) in *. set (B := 2 ^ Z.max (- e) 0) in *.
  set (m := Py.rne (n * B) (Z.pos dp * A)) in *.
  replace (2 ^ 1024 <=? m * A) with false by (symmetry; apply Z.leb_gt; exact Hover).
  rewrite (Z.sgn_pos n) by lia.
  assert (HA : 0 < A) by apply pow2_pos.
  assert (HB : 0 < B) by apply pow2_pos.
  eexists. split; [reflexivity |].
  unfold Py.dyadic. fold A B. 
  split; [| split].
  - rewrite Qred_correct. unfold Qlt. cbn [Qnum Qden]. nia.
  - rewrite Qred_correct, Hx. unfold Qle, Qmult, inject_Z. cbn [Qnum Qden].
    rewrite !Pos2Z.inj_mul, Z2Pos.id by exact HB. nia.
  - rewrite Qred_correct, Hx. unfold Qle, Qmult, inject_Z. cbn [Qnum Qden].
    rewrite !Pos2Z.inj_mul, Z2Pos.id by exact HB. nia.
Qed.

(** Rounding a positive rational between [2^-200] and [2^200]: the
    result is within the relative distance [2^-53]. *)
Lemma fl_near (x : Q) :
  (0 < x)%Q ->
  (1 # 1606938044258990275541962092341162602522202993782792835301376 <= x)%Q ->
  (x <= 1606938044258990275541962092341162602522202993782792835301376)%Q ->
  exists y,
    Py.fl x = Py.Finite y /\
    (0 < y)%Q /\
    (9007199254740991 * x <= 9007199254740992 * y)%Q /\
    (9007199254740992 * y <= 9007199254740993 * x)%Q.
Proof.
  intros Hpos Hlo Hhi.
  destruct (fl_pos x Hpos) as (y & Hy & Hy0 & H1 & H2).
  - eapply Qle_trans; [| exact Hlo]. vm_compute. discriminate.
  - eapply Qle_trans; [exact Hhi |]. vm_compute. discriminate.
  - exists y. repeat split; assumption.
Qed.

Lemma fl_quotient (u v : Q) :
  (0 < u)%Q -> (0 < v)%Q ->
  (u <= 1606938044258990275541962092341162602522202993782792835301376 * v)%Q ->
  (v <= 1606938044258990275541962092341162602522202993782792835301376 * u)%Q ->
  exists y,
    Py.fl (u / v) = Py.Finite y /\
    (0 < y)%Q /\
    (9007199254740991 * u <= 9007199254740992 * y * v)%Q /\
    (9007199254740992 * y * v <= 9007199254740993 * u)%Q.
Proof.
  intros Hu Hv Hhi Hlo.
  assert (E : (u / v * v == u)%Q) by (field; lra).
  assert (Hx : (0 < u / v)%Q) by (apply Qlt_shift_div_l; lra).
  destruct (fl_near (u / v) Hx) as (y & Hy & Hy0 & H1 & H2).
  - apply Qle_shift_div_l; [exact Hv | lra].
  - apply Qle_shift_div_r; [exact Hv | lra].
  - exists y. split; [exact Hy |]. split; [exact Hy0 |].
    set (x := (u / v)%Q) in *. split; nra.
Qed.

Lemma fl_product (u v : Q) :
  (0 < u)%Q -> (0 < v)%Q ->
  (1 # 1606938044258990275541962092341162602522202993782792835301376 <= u * v)%Q ->
  (u * v <= 1606938044258990275541962092341162602522202993782792835301376)%Q ->
  exists y,
    Py.fl (u * v) = Py.Finite y /\
    (0 < y)%Q /\
    (9007199254740991 * (u * v) <= 9007199254740992 * y)%Q /\
    (9007199254740992 * y <= 9007199254740993 * (u * v))%Q.
Proof.
  intros Hu Hv Hlo Hhi. apply fl_near; [nra | exact Hlo | exact Hhi].
Qed.

Lemma Qred_inject_Z (w : Z) : Qred (inject_Z w) = inject_Z w.
Proof.
  unfold Qred, inject_Z.
  pose proof (Z.ggcd_correct_divisors w 1) as Hd.
  pose proof (Z.ggcd_gcd w 1) as Hg.
  destruct (Z.ggcd w 1) as [g [aa bb]]. cbn [fst snd] in *.
  rewrite Z.gcd_1_r in Hg. destruct Hd as [Ha Hb].
  replace aa with w by lia. replace bb with 1 by lia. reflexivity.
Qed.

(** Integers below [2^53] are binary64 numbers. *)
Lemma float_of_int_exact (w : Z) :
  0 < w < 2 ^ 53 ->
  exists y, Py.float_of_int w = Py.Ok (Py.Finite y) /\ (y == inject_Z w)%Q.
Proof.
  intros Hw. unfold Py.float_of_int, Py.fl. cbv zeta.
  rewrite Qred_inject_Z. cbn [Qnum Qden inject_Z].
  rewrite (Z.abs_eq w) by lia.
  pose proof (ilog2_spec w 1 ltac:(lia) ltac:(lia)) as HL. cbv zeta in HL.
  set (L := Py.ilog2 w 1) in *.
  assert (HL0 : 0 <= L).
  { destruct (Z_le_gt_dec 0 L) as [H | H]; [exact H | exfalso].
    rewrite (Z.max_r L 0), (Z.max_l (- L) 0) in HL by lia. change (2 ^ 0) with 1 in HL.
    assert (2 ^ 1 <= 2 ^ (- L)) by (apply pow2_mono; lia).
    change (2 ^ 1) with 2 in *. nia. }
  assert (HL52 : L <= 52).
  { destruct (Z_le_gt_dec L 52) as [H | H]; [exact H | exfalso].
    rewrite (Z.max_l L 0), (Z.max_r (- L) 0) in HL by lia. change (2 ^ 0) with 1 in HL.
    assert (2 ^ 53 <= 2 ^ L) by (apply pow2_mono; lia). lia. }
  replace (w =? 0) with false by (symmetry; apply Z.eqb_neq; lia).
  rewrite (Z.max_l (L - 52) (-1074)) by lia.
  rewrite (Z.max_r (L - 52) 0) by lia. rewrite (Z.max_l (- (L - 52)) 0) by lia.
  change (2 ^ 0) with 1. rewrite !Z.mul_1_r.
  set (B := 2 ^ (- (L - 52))).
  assert (HB : 0 < B) by (apply Z.pow_pos_nonneg; lia).
  assert (HB52 : B <= 2 ^ 52) by (apply pow2_mono; lia).
  assert (Hm : Py.rne (w * B) 1 = w * B).
  { unfold Py.rne. rewrite Z.mod_1_r, Z.div_1_r. reflexivity. }
  rewrite Hm.
  assert (Hover : w * B < 2 ^ 1024).
  { assert (w * B <= 2 ^ 53 * 2 ^ 52) by (apply Z.mul_le_mono_nonneg; lia).
    assert (2 ^ 53 * 2 ^ 52 < 2 ^ 1024) by (vm_compute; reflexivity). lia. }
  replace (2 ^ 1024 <=? w * B) with false by (symmetry; apply Z.leb_gt; exact Hover).
  rewrite (Z.sgn_pos w) by lia.
  eexists. split; [reflexivity |].
  unfold Py.dyadic. rewrite Qred_correct.
  rewrite (Z.max_r (L - 52) 0) by lia. rewrite (Z.max_l (- (L - 52)) 0) by lia.
  fold B. unfold Qeq, inject_Z. cbn [Qnum Qden].
  rewrite Z2Pos.id by exact HB. change (2 ^ 0) with 1. ring.
Qed.

(** Integer facts read in [Q]. *)
Lemma inject_pos (a : Z) : 0 < a -> (1 <= inject_Z a)%Q.
Proof. intros H. change 1%Q with (inject_Z 1). rewrite <- Zle_Qle. lia. Qed.

Lemma inject_below_52 (a : Z) :
  a < 2 ^ 52 -> (inject_Z a <= 4503599627370495)%Q.
Proof.
  intros H. change 4503599627370495%Q with (inject_Z 4503599627370495).
  rewrite <- Zle_Qle. change (2 ^ 52) with 4503599627370496 in H. lia.
Qed.

Lemma inject_below_199 (a : Z) :
  a < 2 ^ 199 ->
  (inject_Z a <= 803469022129495137770981046170581301261101496891396417650687)%Q.
Proof.
  intros H.
  change 803469022129495137770981046170581301261101496891396417650687%Q
    with (inject_Z 803469022129495137770981046170581301261101496891396417650687).
  rewrite <- Zle_Qle.
  change (2 ^ 199)
    with 803469022129495137770981046170581301261101496891396417650688 in H.
  lia.
Qed.

(** [a / b] on two positive integers below [2^199]. *)
Lemma truediv_near (a b : Z) :
  0 < a < 2 ^ 199 -> 0 < b < 2 ^ 199 ->
  exists y,
    Py.truediv_int a b = Py.Ok (Py.Finite y) /\
    (0 < y)%Q /\
    (9007199254740991 * inject_Z a <= 9007199254740992 * y * inject_Z b)%Q /\
    (9007199254740992 * y * inject_Z b <= 9007199254740993 * inject_Z a)%Q.
Proof.
  intros [Ha Ha'] [Hb Hb'].
  pose proof (inject_pos a Ha) as Qa. pose proof (inject_below_199 a Ha') as Qa'.
  pose proof (inject_pos b Hb) as Qb. pose proof (inject_below_199 b Hb') as Qb'.
  destruct (fl_quotient (inject_Z a) (inject_Z b)) as (y & Hy & Hy0 & H1 & H2);
    try lra.
  exists y. unfold Py.truediv_int.
  replace (b =? 0) with false by (symmetry; apply Z.eqb_neq; lia).
  rewrite Hy. repeat split; assumption.
Qed.

Lemma int_of_positive (y : Q) :
  (0 < y)%Q -> Py.int_of_float (Py.Finite y) = Py.Ok (Qnum y / Z.pos (Qden y)).
Proof.
  intros Hy. unfold Py.int_of_float. f_equal.
  apply Z.quot_div_nonneg; [| apply Pos2Z.is_pos].
  unfold Qlt in Hy. cbn in Hy. lia.
Qed.

(** A positive rational [y] with [p - 1 < y * d < p + 1] has its integer
    part among [p / d - 1] and [p / d]. *)
Lemma floor_near (y : Q) (p d : Z) :
  0 < d -> 0 < p ->
  (inject_Z p - 1 < y * inject_Z d)%Q ->
  (y * inject_Z d < inject_Z p + 1)%Q ->
  p / d - 1 <= Qnum y / Z.pos (Qden y) <= p / d.
Proof.
  intros Hd Hp Hlo Hhi. destruct y as [a b].
  unfold Qlt, Qmult, Qminus, Qplus, Qopp, inject_Z in Hlo, Hhi.
  cbn [Qnum Qden Z.opp] in Hlo, Hhi |- *. rewrite ?Pos2Z.inj_mul in *.
  pose proof (Pos2Z.is_pos b) as Hb. set (B := Z.pos b) in *.
  change (Z.pos 1) with 1 in *.
  pose proof (Z.div_mod p d ltac:(lia)) as E.
  pose proof (Z.mod_pos_bound p d Hd) as Hr.
  set (k := p / d) in *. set (r := p mod d) in *.
  split.
  - apply Z.div_le_lower_bound; [exact Hb |].
    assert (B * (k - 1) * d < a * d) by nia. nia.
  - apply Z.lt_succ_r. apply Z.div_lt_upper_bound; [exact Hb |].
    assert (a * d < B * Z.succ k * d) by nia. nia.
Qed.

Lemma inject_product_below (a b : Z) :
  a * b < 2 ^ 52 -> (inject_Z a * inject_Z b <= 4503599627370495)%Q.
Proof.
  intros H. rewrite <- inject_Z_mult. apply inject_below_52. exact H.
Qed.

Lemma not_zero_positive (y : Q) : (0 < y)%Q -> Py.is_zero (Py.Finite y) = false.
Proof.
  intros H. unfold Py.is_zero. apply Z.eqb_neq. unfold Qlt in H. cbn in H. lia.
Qed.

Section Fit.

Variables (img : PIL.Image) (w h : Z).
Let iw := PIL.width img.
Let ih := PIL.height img.

Hypothesis Hiw : 0 < iw < 2 ^ 199.
Hypothesis Hih : 0 < ih < 2 ^ 199.
Hypothesis Hw : 0 < w < 2 ^ 199.
Hypothesis Hh : 0 < h < 2 ^ 199.

(** The image is relatively wider than the box: fit the width. *)
Lemma fit_size_wide :
  w * ih < iw * h ->
  w * ih < 2 ^ 52 ->
  exists new_h,
    fit_size img w h = Py.Ok (w, new_h) /\
    (w * ih) / iw - 1 <= new_h <= (w * ih) / iw.
Proof.
  intros Hratio Hwide.
  assert (Bih : ih < 2 ^ 52) by nia. assert (Bw : w < 2 ^ 52) by nia.
  destruct (truediv_near iw ih Hiw Hih) as (y1 & E1 & P1 & L1 & U1).
  destruct (truediv_near w h Hw Hh) as (yt & Et & Pt & Lot & Upt).
  destruct (float_of_int_exact w) as (yw & Ew & Qw).
  { split; [lia |]. change (2 ^ 53) with (2 * 2 ^ 52). lia. }
  pose proof (inject_pos iw (proj1 Hiw)) as Qiw.
  pose proof (inject_pos ih (proj1 Hih)) as Qih.
  pose proof (inject_pos w (proj1 Hw)) as Qw1.
  pose proof (inject_pos h (proj1 Hh)) as Qh.
  pose proof (inject_below_199 iw (proj2 Hiw)) as Qiw'.
  pose proof (inject_below_52 ih Bih) as Qih'.
  pose proof (inject_below_52 w Bw) as Qw'.
  pose proof (inject_product_below _ _ Hwide) as QP.
  assert (QR : (inject_Z w * inject_Z ih + 1 <= inject_Z iw * inject_Z h)%Q).
  { rewrite <- !inject_Z_mult. change 1%Q with (inject_Z 1).
    rewrite <- inject_Z_plus, <- Zle_Qle. lia. }
  set (qiw := inject_Z iw) in *. set (qih := inject_Z ih) in *.
  set (qw := inject_Z w) in *. set (qh := inject_Z h) in *.
  assert (N1 : (0 <= qih)%Q) by lra. assert (N2 : (0 <= qh)%Q) by lra.
  (* the comparison of the two rounded ratios *)
  assert (Hcmp : (yt < y1)%Q).
  { apply Qnot_le_lt. intros Hle.
    pose proof (Qmult_le_compat_r _ _ qih Upt N1) as F1.
    pose proof (Qmult_le_compat_r _ _ qh L1 N2) as F2.
    pose proof (Qmult_le_compat_r _ _ (qih * qh) Hle
                  (Qmult_le_0_compat _ _ N1 N2)) as F3.
    lra. }
  (* the quotient w / img_ratio *)
  assert (Hy1lo : (1 # 9007199254740992 <= y1)%Q).
  { pose proof (Qmult_le_compat_r _ _ y1 Qih' (Qlt_le_weak _ _ P1)) as F1. lra. }
  assert (Hy1hi :
    (y1 <= 1606938044258990275541962092341162602522202993782792835301376)%Q).
  { pose proof (Qmult_le_compat_r _ _ y1 Qih (Qlt_le_weak _ _ P1)) as F1. lra. }
  destruct (fl_quotient qw y1) as (y2 & E2 & P2 & L2 & U2); try lra.
  assert (N3 : (0 <= y2)%Q) by lra.
  assert (Hlo : (qw * qih - 1 < y2 * qiw)%Q).
  { pose proof (Qmult_le_compat_r _ _ y2 U1 N3) as F1.
    pose proof (Qmult_le_compat_r _ _ qih L2 N1) as F2.
    lra. }
  assert (Hhi : (y2 * qiw < qw * qih + 1)%Q).
  { pose proof (Qmult_le_compat_r _ _ y2 L1 N3) as F1.
    pose proof (Qmult_le_compat_r _ _ qih U2 N1) as F2.
    lra. }
  exists (Qnum y2 / Z.pos (Qden y2)). split.
  - unfold fit_size. fold iw ih. rewrite E1, Et. cbn [Py.bind].
    unfold Py.fgt, Py.flt, Py.fcompare.
    replace (yt ?= y1)%Q with Lt by (symmetry; apply Qlt_alt; exact Hcmp).
    rewrite Ew. cbn [Py.bind]. unfold Py.fdiv.
    rewrite (not_zero_positive y1 P1). cbn [Py.bind].
    rewrite (fl_proper (yw / y1) (qw / y1)) by (rewrite Qw; reflexivity).
    rewrite E2, (int_of_positive y2 P2). reflexivity.
  - apply floor_near; [lia | nia | |].
    + unfold qw, qih, qiw in Hlo. rewrite <- inject_Z_mult in Hlo. exact Hlo.
    + unfold qw, qih, qiw in Hhi. rewrite <- inject_Z_mult in Hhi. exact Hhi.
Qed.

(** Otherwise: fit the height. *)
Lemma fit_size_tall :
  iw * h <= w * ih ->
  h * iw < 2 ^ 52 ->
  exists new_w,
    fit_size img w h = Py.Ok (new_w, h) /\
    (h * iw) / ih - 1 <= new_w <= (h * iw) / ih.
Proof.
  intros Hratio Htall.
  assert (Biw : iw < 2 ^ 52) by nia. assert (Bh : h < 2 ^ 52) by nia.
  destruct (truediv_near iw ih Hiw Hih) as (y1 & E1 & P1 & L1 & U1).
  destruct (truediv_near w h Hw Hh) as (yt & Et & Pt & Lot & Upt).
  destruct (float_of_int_exact h) as (yh & Eh & Qyh).
  { split; [lia |]. change (2 ^ 53) with (2 * 2 ^ 52). lia. }
  pose proof (inject_pos iw (proj1 Hiw)) as Qiw.
  pose proof (inject_pos ih (proj1 Hih)) as Qih.
  pose proof (inject_pos w (proj1 Hw)) as Qw1.
  pose proof (inject_pos h (proj1 Hh)) as Qh.
  pose proof (inject_below_52 iw Biw) as Qiw'.
  pose proof (inject_below_199 ih (proj2 Hih)) as Qih'.
  pose proof (inject_below_52 h Bh) as Qh'.
  pose proof (inject_product_below _ _ Htall) as QS.
  (* the comparison of the two rounded ratios *)
  assert (Hcmp : (yt ?= y1)%Q <> Lt).
  { destruct (Z.eq_dec (iw * h) (w * ih)) as [Heq | Hne].
    - assert (Hsame : Py.truediv_int iw ih = Py.truediv_int w h).
      { unfold Py.truediv_int.
        replace (ih =? 0) with false by (symmetry; apply Z.eqb_neq; lia).
        replace (h =? 0) with false by (symmetry; apply Z.eqb_neq; lia).
        rewrite (fl_proper (inject_Z iw / inject_Z ih) (inject_Z w / inject_Z h));
          [reflexivity |].
        assert (Hq : (inject_Z iw * inject_Z h == inject_Z w * inject_Z ih)%Q)
          by (rewrite <- !inject_Z_mult, Heq; reflexivity).
        field_simplify_eq; [| lra]. rewrite Hq. ring. }
      rewrite E1, Et in Hsame. injection Hsame as ->.
      rewrite (proj1 (Qeq_alt yt yt) (Qeq_refl yt)). discriminate.
    - intros Hlt. apply Qlt_alt in Hlt.
      assert (QR : (inject_Z iw * inject_Z h + 1 <= inject_Z w * inject_Z ih)%Q).
      { rewrite <- !inject_Z_mult. change 1%Q with (inject_Z 1).
        rewrite <- inject_Z_plus, <- Zle_Qle. lia. }
      set (qiw := inject_Z iw) in *. set (qih := inject_Z ih) in *.
      set (qw := inject_Z w) in *. set (qh := inject_Z h) in *.
      assert (N1 : (0 <= qih)%Q) by lra. assert (N2 : (0 <= qh)%Q) by lra.
      pose proof (Qmult_le_compat_r _ _ qih Lot N1) as F1.
      pose proof (Qmult_le_compat_r _ _ qh U1 N2) as F2.
      pose proof (Qmult_le_compat_r _ _ (qih * qh) (Qlt_le_weak _ _ Hlt)
                    (Qmult_le_0_compat _ _ N1 N2)) as F3.
      lra. }
  set (qiw := inject_Z iw) in *. set (qih := inject_Z ih) in *.
  set (qw := inject_Z w) in *. set (qh := inject_Z h) in *.
  assert (N1 : (0 <= qih)%Q) by lra. assert (N2 : (0 <= qh)%Q) by lra.
  (* the product h * img_ratio *)
  assert (Hy1lo :
    (1 # 1606938044258990275541962092341162602522202993782792835301376 <= y1)%Q).
  { pose proof (Qmult_le_compat_r _ _ y1 Qih' (Qlt_le_weak _ _ P1)) as F1. lra. }
  assert (Hy1hi : (y1 <= 9007199254740992)%Q).
  { pose proof (Qmult_le_compat_r _ _ y1 Qih (Qlt_le_weak _ _ P1)) as F1. lra. }
  pose proof (Qmult_le_compat_r _ _ y1 Qh (Qlt_le_weak _ _ P1)) as G1.
  pose proof (Qmult_le_compat_r _ _ y1 Qh' (Qlt_le_weak _ _ P1)) as G2.
  destruct (fl_product qh y1) as (y2 & E2 & P2 & L2 & U2); try lra.
  assert (Hlo : (qh * qiw - 1 < y2 * qih)%Q).
  { pose proof (Qmult_le_compat_r _ _ qih L2 N1) as F1.
    pose proof (Qmult_le_compat_r _ _ qh L1 N2) as F2.
    lra. }
  assert (Hhi : (y2 * qih < qh * qiw + 1)%Q).
  { pose proof (Qmult_le_compat_r _ _ qih U2 N1) as F1.
    pose proof (Qmult_le_compat_r _ _ qh U1 N2) as F2.
    lra. }
  exists (Qnum y2 / Z.pos (Qden y2)). split.
  - unfold fit_size. fold iw ih. rewrite E1, Et. cbn [Py.bind].
    unfold Py.fgt, Py.flt, Py.fcompare.
    destruct (yt ?= y1)%Q; [| contradiction |]; rewrite Eh; cbn [Py.bind]; unfold Py.fmul;
      rewrite (fl_proper (yh * y1) (qh * y1)) by (rewrite Qyh; reflexivity);
      rewrite E2, (int_of_positive y2 P2); reflexivity.
  - apply floor_near; [lia | nia | |].
    + unfold qh, qih, qiw in Hlo. rewrite <- inject_Z_mult in Hlo. exact Hlo.
    + unfold qh, qih, qiw in Hhi. rewrite <- inject_Z_mult in Hhi. exact Hhi.
Qed.

End Fit.

(** ** C3: exact resize that keeps the ratio *)

Lemma fit_size_scenario (img : PIL.Image) :
  PIL.width img = 1600 -> PIL.height img = 900 ->
  fit_size img 800 600 = Py.Ok (800, 450).
Proof.
  intros Hw Hh. unfold fit_size. rewrite Hw, Hh. vm_compute. reflexivity.
Qed.

Lemma resize_size (sz : Z * Z) (filter : string) (img out : PIL.Image) :
  PIL.resize sz filter img = Py.Ok out -> PIL.size out = sz.
Proof.
  destruct sz as [w h]. unfold PIL.resize, PIL.size.
  destruct ((w =? PIL.width img) && (h =? PIL.height img)) eqn:Esame.
  - apply andb_prop in Esame as [E1 E2]. apply Z.eqb_eq in E1, E2.
    intros H. injection H as <-. rewrite E1, E2. reflexivity.
  - destruct (negb (PIL.c_int w && PIL.c_int h)); [discriminate |].
    destruct ((w <? 1) || (h <? 1)); [discriminate |].
    intros H. injection H as <-. reflexivity.
Qed.

Lemma c_int_range (n : Z) :
  PIL.c_int n = true <-> - 2147483648 <= n <= 2147483647.
Proof.
  unfold PIL.c_int. rewrite andb_true_iff, !Z.leb_le. tauto.
Qed.

Lemma resize_succeeds (w h : Z) (filter : string) (img : PIL.Image) :
  1 <= w <= 2147483647 -> 1 <= h <= 2147483647 ->
  exists out, PIL.resize (w, h) filter img = Py.Ok out.
Proof.
  intros Hw Hh. unfold PIL.resize.
  destruct ((w =? PIL.width img) && (h =? PIL.height img)); [eexists; reflexivity |].
  replace (PIL.c_int w) with true by (symmetry; apply c_int_range; lia).
  replace (PIL.c_int h) with true by (symmetry; apply c_int_range; lia).
  cbn [andb negb].
  replace (w <? 1) with false by (symmetry; apply Z.ltb_ge; lia).
  replace (h <? 1) with false by (symmetry; apply Z.ltb_ge; lia).
  eexists. reflexivity.
Qed.

Lemma resize_overflows (w h : Z) (filter : string) (img : PIL.Image) :
  2147483647 < w \/ 2147483647 < h ->
  (w, h) <> PIL.size img ->
  PIL.resize (w, h) filter img = Py.Raise Py.OverflowError.
Proof.
  intros Hbig Hother. unfold PIL.resize.
  destruct ((w =? PIL.width img) && (h =? PIL.height img)) eqn:Esame.
  - apply andb_prop in Esame as [E1 E2]. apply Z.eqb_eq in E1, E2.
    exfalso. apply Hother. unfold PIL.size. rewrite E1, E2. reflexivity.
  - assert (Hc : PIL.c_int w && PIL.c_int h = false).
    { apply andb_false_iff. destruct Hbig as [Hb | Hb]; [left | right];
        apply not_true_is_false; rewrite c_int_range; lia. }
    rewrite Hc. reflexivity.
Qed.



(** ** C1: numeric fields of the resize step *)

(** C1 does not hold as stated: with [width = "abc"] in exact mode the
    step is not skipped, it raises, and the request is answered with the
    500 error document. *)
Lemma malformed_width_fails :
  resize_step exact_abc "exact" false wide_photo = Py.Raise Py.ValueError /\
  resize_step exact_abc "exact" false wide_photo <> Py.Ok wide_photo /\
  convert reference_build exact_abc = JsonError 500 (StrOf Py.ValueError) /\
  sends_file (convert reference_build exact_abc) = false.
Proof.
  repeat split; try (vm_compute; reflexivity).
  vm_compute. discriminate.
Qed.

Section ResizeFields.

Variable lib : PIL.Build.

Lemma convert_file_resize_raises (req : Request) (target mode quality : string)
    (t : Transformations) (txt pos : string) (opacity : Z) (pa : bool) :
  (forall img, exists e, resize_step req mode pa img = Py.Raise e) ->
  forall file, exists e,
    convert_file lib req target mode quality t txt pos opacity pa file = Py.Raise e.
Proof.
  intros Hraise file. unfold convert_file.
  destruct (stream file) as [img0 | e0]; cbn [Py.bind]; [| eexists; reflexivity].
  destruct (apply_transformations lib _ t) as [img1 | e1]; cbn [Py.bind];
    [| eexists; reflexivity].
  destruct (Hraise img1) as (e & ->). eexists. reflexivity.
Qed.

Lemma convert_first_file_raises (req : Request) :
  (forall opacity, exists file rest e,
     files req = file :: rest /\ loop_body lib req opacity file = Py.Raise e) ->
  sends_file (convert lib req) = false.
Proof.
  intros Hraise. unfold convert.
  destruct (files req) as [| f fs] eqn:Hfs; [reflexivity |].
  destruct (lookup (target_of req) ALLOWED) as [[[fmt ext] mime] |]; [| reflexivity].
  destruct (watermark_opacity_of req) as [opacity | e]; [| reflexivity].
  destruct (Hraise opacity) as (file & rest & e & Hsplit & He).
  injection Hsplit as <- <-.
  cbn [Py.for_each]. rewrite He. reflexivity.
Qed.

Lemma resize_raises_no_file (req : Request) :
  (forall img, exists e,
     resize_step req (mode_of req) (preserve_aspect_of req) img = Py.Raise e) ->
  sends_file (convert lib req) = false.
Proof.
  intros Hraise.
  destruct (files req) as [| f fs] eqn:Hfs; [unfold convert; rewrite Hfs; reflexivity |].
  apply convert_first_file_raises. intros opacity.
  destruct (convert_file_resize_raises req (target_of req) (mode_of req)
              (quality_of req) (transformations_of req) (watermark_text_of req)
              (watermark_position_of req) opacity (preserve_aspect_of req) Hraise f)
    as (e & He).
  exists f, fs, e. split; [exact Hfs | exact He].
Qed.

Lemma form_int_blank (req : Request) (k : string) :
  blank req k -> form_int_or_0 req k = Py.Ok 0.
Proof.
  unfold blank, form_int_or_0. intros [-> | ->]; reflexivity.
Qed.

Lemma form_int_malformed (req : Request) (k v : string) (e : Py.exn) :
  form_get req k = Some v -> v <> "" -> Py.int_of_str v = Py.Raise e ->
  form_int_or_0 req k = Py.Raise e.
Proof.
  unfold form_int_or_0. intros -> Hne He.
  destruct (String.eqb_spec v "") as [-> | _]; [contradiction | exact He].
Qed.

(** C1, as the code has it.  In the resize step, a width or height that
    is absent or empty counts as 0, and the exact resize is skipped (the
    picture goes on unchanged) when either is not positive; a percent
    that is absent or empty counts as 100, and the percent resize is
    skipped.  A width, height or percent that is present and is not a
    number is not replaced by anything: [int()] or [float()] raises, the
    step raises, and no file is sent in answer to the request. *)
Theorem resize_fields_blank_or_malformed :
  forall (req : Request) (preserve : bool) (img : PIL.Image),
    (forall k, blank req k -> form_int_or_0 req k = Py.Ok 0) /\
    (forall w h,
       form_int_or_0 req "width" = Py.Ok w ->
       form_int_or_0 req "height" = Py.Ok h ->
       w <= 0 \/ h <= 0 ->
       resize_step req "exact" preserve img = Py.Ok img) /\
    (blank req "percent" -> resize_step req "percent" preserve img = Py.Ok img) /\
    (forall v e,
       form_get req "width" = Some v -> v <> "" -> Py.int_of_str v = Py.Raise e ->
       resize_step req "exact" preserve img = Py.Raise e) /\
    (forall v e,
       form_get req "height" = Some v -> v <> "" -> Py.int_of_str v = Py.Raise e ->
       exists e', resize_step req "exact" preserve img = Py.Raise e') /\
    (forall v e,
       form_get req "percent" = Some v -> v <> "" -> Py.float_of_str v = Py.Raise e ->
       resize_step req "percent" preserve img = Py.Raise e) /\
    (forall k v e,
       mode_of req = "exact" -> k = "width" \/ k = "height" ->
       form_get req k = Some v -> v <> "" -> Py.int_of_str v = Py.Raise e ->
       sends_file (convert lib req) = false) /\
    (forall v e,
       mode_of req = "percent" ->
       form_get req "percent" = Some v -> v <> "" -> Py.float_of_str v = Py.Raise e ->
       sends_file (convert lib req) = false).
Proof.
  intros req preserve img.
  assert (Hskip : forall pa i w h,
            form_int_or_0 req "width" = Py.Ok w ->
            form_int_or_0 req "height" = Py.Ok h ->
            w <= 0 \/ h <= 0 ->
            resize_step req "exact" pa i = Py.Ok i).
  { intros pa i w h Hw Hh Hle. unfold resize_step.
    change (String.eqb "exact" "percent") with false.
    change (String.eqb "exact" "exact") with true. cbv iota.
    rewrite Hw, Hh. cbn [Py.bind].
    replace ((0 <? w) && (0 <? h)) with false; [reflexivity |].
    symmetry. apply andb_false_iff. rewrite !Z.ltb_ge. exact Hle. }
  assert (Hwidth : forall pa i v e,
            form_get req "width" = Some v -> v <> "" ->
            Py.int_of_str v = Py.Raise e ->
            resize_step req "exact" pa i = Py.Raise e).
  { intros pa i v e Hv Hne He. unfold resize_step.
    change (String.eqb "exact" "percent") with false.
    change (String.eqb "exact" "exact") with true. cbv iota.
    rewrite (form_int_malformed _ _ _ _ Hv Hne He). reflexivity. }
  assert (Hheight : forall pa i v e,
            form_get req "height" = Some v -> v <> "" ->
            Py.int_of_str v = Py.Raise e ->
            exists e', resize_step req "exact" pa i = Py.Raise e').
  { intros pa i v e Hv Hne He. unfold resize_step.
    change (String.eqb "exact" "percent") with false.
    change (String.eqb "exact" "exact") with true. cbv iota.
    rewrite (form_int_malformed _ _ _ _ Hv Hne He).
    destruct (form_int_or_0 req "width"); eexists; reflexivity. }
  assert (Hpercent : forall pa i v e,
            form_get req "percent" = Some v -> v <> "" ->
            Py.float_of_str v = Py.Raise e ->
            resize_step req "percent" pa i = Py.Raise e).
  { intros pa i v e Hv Hne He. unfold resize_step.
    change (String.eqb "percent" "percent") with true. cbv iota.
    rewrite Hv. unfold Py.or_else.
    destruct (String.eqb_spec v "") as [-> | _]; [contradiction |].
    rewrite He. reflexivity. }
  split; [exact (form_int_blank req) |].
  split; [exact (Hskip preserve img) |].
  split.
  { intros Hb. unfold resize_step.
    change (String.eqb "percent" "percent") with true. cbv iota.
    replace (Py.or_else (form_get req "percent") "100") with "100"
      by (destruct Hb as [-> | ->]; reflexivity).
    reflexivity. }
  split; [exact (Hwidth preserve img) |].
  split; [exact (Hheight preserve img) |].
  split; [exact (Hpercent preserve img) |].
  split.
  - intros k v e Hmode Hk Hv Hne He. apply resize_raises_no_file.
    rewrite Hmode. intros i.
    destruct Hk as [-> | ->].
    + exists e. exact (Hwidth _ i v e Hv Hne He).
    + exact (Hheight _ i v e Hv Hne He).
  - intros v e Hmode Hv Hne He. apply resize_raises_no_file.
    rewrite Hmode. intros i. exists e. exact (Hpercent _ i v e Hv Hne He).
Qed.

End ResizeFields.

(** C1 at a request in exact mode without a height, and at one with the
    width ["abc"]. *)
Lemma resize_fields_blank_or_malformed_witness :
  resize_step exact_no_height "exact" true wide_photo = Py.Ok wide_photo /\
  sends_file (convert reference_build exact_abc) = false.
Proof.
  split.
  - destruct (resize_fields_blank_or_malformed reference_build exact_no_height
                true wide_photo) as (Hblank & Hskip & _).
    apply (Hskip 800 0); [vm_compute; reflexivity | | right; lia].
    apply Hblank. left. vm_compute. reflexivity.
  - destruct (resize_fields_blank_or_malformed reference_build exact_abc
                true wide_photo) as (_ & _ & _ & _ & _ & _ & Hbad & _).
    apply (Hbad "width" "abc" Py.ValueError);
      [vm_compute; reflexivity | left; reflexivity | vm_compute; reflexivity
      | discriminate | vm_compute; reflexivity].
Defined.

(** ** C6: defaults of the form fields *)

(** C6 does not hold as stated: a quality that is not a number is not
    read as 85 (the request fails, where quality 85 converts), an
    unknown format is not read as PNG, an unreadable opacity is not read
    as 128, and an unknown position is not read as bottom-right. *)
Lemma invalid_fields_do_not_default :
  convert reference_build (single [("quality", "abc")])
    = JsonError 500 (StrOf Py.ValueError) /\
  sends_file (convert reference_build (single [("quality", "85")])) = true /\
  convert reference_build (single [("format", "svg")])
    = JsonError 400 (Message "Unsupported format") /\
  convert reference_build (single [("watermark_opacity", "x")])
    = Uncaught Py.ValueError /\
  watermark_xy reference_build wide_photo "DRAFT" "middle"
    <> watermark_xy reference_build wide_photo "DRAFT" "bottom-right".
Proof.
  repeat split; try (vm_compute; reflexivity).
  vm_compute. discriminate.
Qed.

Lemma form_get_with_field (req : Request) (k v k' : string) :
  form_get (with_field k v req) k'
    = if String.eqb k' k then Some v else form_get req k'.
Proof. reflexivity. Qed.

Lemma for_each_ext {A B : Type} (f g : A -> Py.result B) (xs : list A) :
  (forall x, f x = g x) -> Py.for_each f xs = Py.for_each g xs.
Proof.
  intros Hfg. induction xs as [| x xs IH]; cbn [Py.for_each]; [reflexivity |].
  rewrite Hfg, IH. reflexivity.
Qed.

Lemma resize_step_with_field (req : Request) (k v mode : string) (pa : bool)
    (img : PIL.Image) :
  k <> "percent" -> k <> "width" -> k <> "height" ->
  resize_step (with_field k v req) mode pa img = resize_step req mode pa img.
Proof.
  intros Hp Hw Hh. unfold resize_step, form_int_or_0.
  rewrite !form_get_with_field.
  replace (String.eqb "percent" k) with false
    by (symmetry; apply String.eqb_neq; congruence).
  replace (String.eqb "width" k) with false
    by (symmetry; apply String.eqb_neq; congruence).
  replace (String.eqb "height" k) with false
    by (symmetry; apply String.eqb_neq; congruence).
  reflexivity.
Qed.

Section Defaults.

Variable lib : PIL.Build.

(** Two requests with the same files, the same locals and the same
    resize step get the same answer. *)
Lemma convert_same_reads (req req' : Request) :
  files req' = files req ->
  target_of req' = target_of req ->
  mode_of req' = mode_of req ->
  quality_of req' = quality_of req ->
  transformations_of req' = transformations_of req ->
  watermark_text_of req' = watermark_text_of req ->
  watermark_position_of req' = watermark_position_of req ->
  watermark_opacity_of req' = watermark_opacity_of req ->
  preserve_aspect_of req' = preserve_aspect_of req ->
  (forall mode pa img, resize_step req' mode pa img = resize_step req mode pa img) ->
  convert lib req' = convert lib req.
Proof.
  intros Hf Ht Hm Hq Htr Hwt Hwp Hwo Hpa Hrs.
  unfold convert. rewrite Hf, Ht, Hwo.
  assert (Hloop : forall o file, loop_body lib req' o file = loop_body lib req o file).
  { intros o file. unfold loop_body, convert_file.
    rewrite Ht, Hm, Hq, Htr, Hwt, Hwp, Hpa.
    destruct (stream file) as [i0 | e]; cbn [Py.bind]; [| reflexivity].
    destruct (apply_transformations lib _ _) as [i1 | e]; cbn [Py.bind]; [| reflexivity].
    rewrite Hrs. reflexivity. }
  destruct (files req) as [| f fs]; [reflexivity |].
  destruct (lookup (target_of req) ALLOWED) as [[[fmt ext] mime] |]; [| reflexivity].
  destruct (watermark_opacity_of req) as [o | e]; [| reflexivity].
  rewrite (for_each_ext _ _ (f :: fs) (Hloop o)). reflexivity.
Qed.

Lemma absent_field_default (req : Request) (k d : string) :
  In (k, d) [("format", "PNG"); ("quality", "85"); ("mode", "none");
             ("watermark_opacity", "128"); ("watermark_position", "bottom-right")] ->
  form_get req k = None ->
  convert lib (with_field k d req) = convert lib req.
Proof.
  intros Hin Hnone. cbn [In] in Hin.
  repeat (destruct Hin as [Hin | Hin];
          [ injection Hin as <- <-;
            apply convert_same_reads;
            [ reflexivity
            | unfold target_of; rewrite form_get_with_field, ?Hnone; reflexivity
            | unfold mode_of; rewrite form_get_with_field, ?Hnone; reflexivity
            | unfold quality_of, form_get_or; rewrite form_get_with_field, ?Hnone;
              reflexivity
            | unfold transformations_of, form_get_or, form_flag;
              rewrite !form_get_with_field; reflexivity
            | unfold watermark_text_of, form_get_or; rewrite form_get_with_field;
              reflexivity
            | unfold watermark_position_of, form_get_or;
              rewrite form_get_with_field, ?Hnone; reflexivity
            | unfold watermark_opacity_of, form_get_or;
              rewrite form_get_with_field, ?Hnone; reflexivity
            | unfold preserve_aspect_of, form_flag; rewrite form_get_with_field;
              reflexivity
            | intros; apply resize_step_with_field; discriminate ]
          | ]).
  contradiction.
Qed.

Lemma build_save_params_raises (fmt quality : string) (e : Py.exn) :
  quality <> "" -> Py.int_of_str quality = Py.Raise e ->
  build_save_params fmt quality = Py.Raise e.
Proof.
  intros Hne He. unfold build_save_params.
  destruct (String.eqb_spec quality "") as [-> | _]; [contradiction |].
  rewrite He. reflexivity.
Qed.

Lemma convert_file_quality_raises (req : Request) (target mode quality : string)
    (t : Transformations) (txt pos : string) (opacity : Z) (pa : bool)
    (e : Py.exn) :
  quality <> "" -> Py.int_of_str quality = Py.Raise e ->
  forall file, exists e',
    convert_file lib req target mode quality t txt pos opacity pa file = Py.Raise e'.
Proof.
  intros Hne He file. unfold convert_file.
  destruct (stream file) as [i0 | e0]; cbn [Py.bind]; [| eexists; reflexivity].
  destruct (apply_transformations lib _ t) as [i1 | e1]; cbn [Py.bind];
    [| eexists; reflexivity].
  destruct (resize_step req mode pa i1) as [i2 | e2]; cbn [Py.bind];
    [| eexists; reflexivity].
  match goal with
  | |- context [Py.bind ?c _] => destruct c as [i3 | e3]; cbn [Py.bind];
                                 [| eexists; reflexivity]
  end.
  destruct (lookup target ALLOWED) as [[[fmt ext] mime] |]; [| eexists; reflexivity].
  rewrite (build_save_params_raises fmt quality e Hne He). eexists. reflexivity.
Qed.

(** C6, as the code has it.  A field that is absent gets its default:
    the answer is the one of the same request with the default written
    out (format PNG, quality 85, mode none, watermark opacity 128,
    position bottom-right); an empty format, mode or quality gets it
    too.  A field that is present but invalid gets no default: an
    unknown format is refused with the 400 document, an opacity that is
    not a number raises before the files are read, a quality that is
    not a number lets no file be sent, a mode that is neither percent
    nor exact resizes nothing, and a position that is none of the four
    corners puts the text at the centre. *)
Theorem absent_fields_get_defaults :
  forall (req : Request),
    (forall k d,
       In (k, d) [("format", "PNG"); ("quality", "85"); ("mode", "none");
                  ("watermark_opacity", "128");
                  ("watermark_position", "bottom-right")] ->
       form_get req k = None ->
       convert lib (with_field k d req) = convert lib req) /\
    (blank req "format" -> target_of req = "PNG") /\
    (blank req "mode" -> mode_of req = "none") /\
    (forall fmt, build_save_params fmt "" = build_save_params fmt "85") /\
    (files req <> [] -> lookup (target_of req) ALLOWED = None ->
       convert lib req = JsonError 400 (Message "Unsupported format")) /\
    (forall e, files req <> [] -> lookup (target_of req) ALLOWED <> None ->
       watermark_opacity_of req = Py.Raise e ->
       convert lib req = Uncaught e) /\
    (forall e, quality_of req <> "" -> Py.int_of_str (quality_of req) = Py.Raise e ->
       sends_file (convert lib req) = false) /\
    (forall pa img, mode_of req <> "percent" -> mode_of req <> "exact" ->
       resize_step req (mode_of req) pa img = Py.Ok img) /\
    (forall img txt pos,
       pos <> "bottom-right" -> pos <> "bottom-left" ->
       pos <> "top-right" -> pos <> "top-left" ->
       watermark_xy lib img txt pos
         = let '(x0, y0, x1, y1) := PIL.textbbox lib txt in
           ((PIL.width img - (x1 - x0)) / 2, (PIL.height img - (y1 - y0)) / 2)).
Proof.
  intros req.
  split; [exact (absent_field_default req) |].
  split; [intros [H | H]; unfold target_of; rewrite H; reflexivity |].
  split; [intros [H | H]; unfold mode_of; rewrite H; reflexivity |].
  split; [intros fmt; reflexivity |].
  split.
  { intros Hfiles Hnone. unfold convert.
    destruct (files req); [contradiction |]. rewrite Hnone. reflexivity. }
  split.
  { intros e Hfiles Hsome Hop. unfold convert.
    destruct (files req); [contradiction |].
    destruct (lookup (target_of req) ALLOWED) as [[[fmt ext] mime] |];
      [| contradiction].
    rewrite Hop. reflexivity. }
  split.
  { intros e Hne He.
    destruct (files req) as [| f fs] eqn:Hfs; [unfold convert; rewrite Hfs; reflexivity |].
    apply convert_first_file_raises. intros opacity.
    destruct (convert_file_quality_raises req (target_of req) (mode_of req)
                (quality_of req) (transformations_of req) (watermark_text_of req)
                (watermark_position_of req) opacity (preserve_aspect_of req) e
                Hne He f) as (e' & He').
    exists f, fs, e'. split; [exact Hfs | exact He']. }
  split.
  { intros pa img Hp He. unfold resize_step.
    destruct (String.eqb_spec (mode_of req) "percent") as [E | _]; [contradiction |].
    destruct (String.eqb_spec (mode_of req) "exact") as [E | _]; [contradiction |].
    reflexivity. }
  intros img txt pos Hbr Hbl Htr Htl. unfold watermark_xy.
  destruct (PIL.textbbox lib txt) as [[[x0 y0] x1] y1].
  destruct (String.eqb_spec pos "bottom-right") as [E | _]; [contradiction |].
  destruct (String.eqb_spec pos "bottom-left") as [E | _]; [contradiction |].
  destruct (String.eqb_spec pos "top-right") as [E | _]; [contradiction |].
  destruct (String.eqb_spec pos "top-left") as [E | _]; [contradiction |].
  reflexivity.
Qed.

End Defaults.

(** C6 at a request without any field, and at one with an unknown
    format. *)
Lemma absent_fields_get_defaults_witness :
  convert reference_build (with_field "quality" "85" (single []))
    = convert reference_build (single []) /\
  convert reference_build (single [("format", "svg")])
    = JsonError 400 (Message "Unsupported format").
Proof.
  split.
  - destruct (absent_fields_get_defaults reference_build (single [])) as (Hdef & _).
    apply Hdef; [right; left; reflexivity | reflexivity].
  - destruct (absent_fields_get_defaults reference_build (single [("format", "svg")]))
      as (_ & _ & _ & _ & Hfmt & _).
    apply Hfmt; [discriminate | vm_compute; reflexivity].
Defined.

(* ================================================================== *)
(** * Further properties of the handlers *)
(* ================================================================== *)

(** ** Shapes along the pipeline *)

Lemma transpose_shape (m : PIL.Transpose) (img : PIL.Image) :
  PIL.mode (PIL.transpose m img) = PIL.mode img /\
  (PIL.size (PIL.transpose m img) = PIL.size img \/
   PIL.size (PIL.transpose m img) = (PIL.height img, PIL.width img)).
Proof.
  destruct m; split; try reflexivity; (left; reflexivity) || (right; reflexivity).
Qed.

Lemma exif_transpose_shape (img : PIL.Image) :
  PIL.mode (PIL.exif_transpose img) = PIL.mode img /\
  (PIL.size (PIL.exif_transpose img) = PIL.size img \/
   PIL.size (PIL.exif_transpose img) = (PIL.height img, PIL.width img)).
Proof.
  unfold PIL.exif_transpose.
  destruct (PIL.orientation img) as [tag |]; [| split; [reflexivity | left; reflexivity]].
  destruct (PIL.exif_method tag) as [m |]; [| split; [reflexivity | left; reflexivity]].
  exact (transpose_shape m img).
Qed.

Lemma apply_transformations_shape (lib : PIL.Build) (img : PIL.Image)
    (t : Transformations) :
  match apply_transformations lib img t with
  | Py.Ok out =>
      PIL.mode out = PIL.mode img /\
      (PIL.size out = PIL.size img \/ PIL.size out = (PIL.height img, PIL.width img))
  | Py.Raise e => rotate t <> "" /\ Py.int_of_str (rotate t) = Py.Raise e
  end.
Proof.
  unfold apply_transformations.
  assert (Hflips : forall i,
    PIL.mode i = PIL.mode img ->
    (PIL.size i = PIL.size img \/ PIL.size i = (PIL.height img, PIL.width img)) ->
    let j := if flip_horizontal t then PIL.transpose PIL.FLIP_LEFT_RIGHT i else i in
    let k := if flip_vertical t then PIL.transpose PIL.FLIP_TOP_BOTTOM j else j in
    PIL.mode k = PIL.mode img /\
    (PIL.size k = PIL.size img \/ PIL.size k = (PIL.height img, PIL.width img))).
  { intros i Hm Hs. destruct (flip_horizontal t), (flip_vertical t); cbn; split; assumption. }
  destruct (String.eqb_spec (rotate t) "") as [Hempty | Hne]; cbn [negb Py.bind].
  - apply Hflips; [reflexivity | left; reflexivity].
  - destruct (Py.int_of_str (rotate t)) as [angle | e]; cbn [Py.bind];
      [| split; [exact Hne | reflexivity]].
    destruct (Z.eqb_spec angle 90) as [-> | H90];
      [| destruct (Z.eqb_spec angle 180) as [-> | H180];
         [| destruct (Z.eqb_spec angle 270) as [-> | H270]]];
      cbn [orb Py.bind]; apply Hflips;
      try reflexivity; (left; reflexivity) || (right; reflexivity).
Qed.

(** X1.  Whatever the rotation and flips asked for, the picture keeps its
    mode and its two sides (swapped or not), hence its number of pixels;
    the step raises only on a rotation field that is not empty and that
    [int()] refuses, with that exception. *)
Theorem transformations_keep_shape :
  forall (lib : PIL.Build) (img : PIL.Image) (t : Transformations),
    match apply_transformations lib img t with
    | Py.Ok out =>
        PIL.mode out = PIL.mode img /\
        (PIL.size out = PIL.size img \/
         PIL.size out = (PIL.height img, PIL.width img)) /\
        PIL.width out * PIL.height out = PIL.width img * PIL.height img
    | Py.Raise e => rotate t <> "" /\ Py.int_of_str (rotate t) = Py.Raise e
    end.
Proof.
  intros lib img t. pose proof (apply_transformations_shape lib img t) as H.
  destruct (apply_transformations lib img t) as [out | e]; [| exact H].
  destruct H as [Hm Hs]. split; [exact Hm |]. split; [exact Hs |].
  unfold PIL.size in Hs. destruct Hs as [Hs | Hs]; injection Hs as -> ->; ring.
Qed.

(** X2.  The two flips together are the half turn: same size, same pixel
    everywhere; and each flip undoes itself. *)
Theorem flips_compose :
  forall (lib : PIL.Build) (img : PIL.Image),
    exists both half once twice down up,
      apply_transformations lib img both_flips = Py.Ok both /\
      apply_transformations lib img (turn "180") = Py.Ok half /\
      PIL.size both = PIL.size half /\
      (forall x y, PIL.px both x y = PIL.px half x y) /\
      apply_transformations lib img mirror = Py.Ok once /\
      apply_transformations lib once mirror = Py.Ok twice /\
      PIL.size twice = PIL.size img /\
      (forall x y, PIL.px twice x y = PIL.px img x y) /\
      apply_transformations lib img upside_down = Py.Ok down /\
      apply_transformations lib down upside_down = Py.Ok up /\
      PIL.size up = PIL.size img /\
      (forall x y, PIL.px up x y = PIL.px img x y).
Proof.
  intros lib img.
  exists (PIL.transpose PIL.FLIP_TOP_BOTTOM (PIL.transpose PIL.FLIP_LEFT_RIGHT img)),
    (PIL.transpose PIL.ROTATE_180 img),
    (PIL.transpose PIL.FLIP_LEFT_RIGHT img),
    (PIL.transpose PIL.FLIP_LEFT_RIGHT (PIL.transpose PIL.FLIP_LEFT_RIGHT img)),
    (PIL.transpose PIL.FLIP_TOP_BOTTOM img),
    (PIL.transpose PIL.FLIP_TOP_BOTTOM (PIL.transpose PIL.FLIP_TOP_BOTTOM img)).
  repeat split; intros x y; cbn; f_equal; lia.
Qed.

Lemma turn_quarters (lib : PIL.Build) (img : PIL.Image) :
  apply_transformations lib img (turn "90")
    = Py.Ok (PIL.transpose PIL.ROTATE_270 img) /\
  apply_transformations lib img (turn "180")
    = Py.Ok (PIL.transpose PIL.ROTATE_180 img) /\
  apply_transformations lib img (turn "270")
    = Py.Ok (PIL.transpose PIL.ROTATE_90 img).
Proof. repeat split. Qed.

(** X3.  A quarter turn followed by the opposite quarter turn, and two
    half turns, give the picture back: size and every pixel. *)
Theorem opposite_turns_cancel :
  forall (lib : PIL.Build) (img : PIL.Image) (there back : string),
    In (there, back) [("90", "270"); ("270", "90"); ("180", "180")] ->
    exists away home,
      apply_transformations lib img (turn there) = Py.Ok away /\
      apply_transformations lib away (turn back) = Py.Ok home /\
      PIL.size home = PIL.size img /\
      PIL.mode home = PIL.mode img /\
      forall x y, PIL.px home x y = PIL.px img x y.
Proof.
  intros lib img there back Hin. cbn [In] in Hin.
  destruct Hin as [H | [H | [H | []]]]; injection H as <- <-.
  - exists (PIL.transpose PIL.ROTATE_270 img),
      (PIL.transpose PIL.ROTATE_90 (PIL.transpose PIL.ROTATE_270 img)).
    split; [exact (proj1 (turn_quarters lib img)) |].
    split; [exact (proj2 (proj2 (turn_quarters lib _))) |].
    repeat split. intros x y. cbn. f_equal; lia.
  - exists (PIL.transpose PIL.ROTATE_90 img),
      (PIL.transpose PIL.ROTATE_270 (PIL.transpose PIL.ROTATE_90 img)).
    split; [exact (proj2 (proj2 (turn_quarters lib img))) |].
    split; [exact (proj1 (turn_quarters lib _)) |].
    repeat split. intros x y. cbn. f_equal; lia.
  - exists (PIL.transpose PIL.ROTATE_180 img),
      (PIL.transpose PIL.ROTATE_180 (PIL.transpose PIL.ROTATE_180 img)).
    split; [exact (proj1 (proj2 (turn_quarters lib img))) |].
    split; [exact (proj1 (proj2 (turn_quarters lib _))) |].
    repeat split. intros x y. cbn. f_equal; lia.
Qed.

(** X3 at a quarter turn of the 1600 x 900 photo and back. *)
Lemma opposite_turns_cancel_witness :
  exists away home,
    apply_transformations reference_build wide_photo (turn "90") = Py.Ok away /\
    apply_transformations reference_build away (turn "270") = Py.Ok home /\
    PIL.size away = (900, 1600) /\ PIL.size home = (1600, 900).
Proof.
  destruct (opposite_turns_cancel reference_build wide_photo "90" "270")
    as (away & home & Ha & Hh & Hs & _); [left; reflexivity |].
  exists away, home. split; [exact Ha |]. split; [exact Hh |].
  split; [| exact Hs].
  rewrite (proj1 (turn_quarters reference_build wide_photo)) in Ha.
  injection Ha as <-. reflexivity.
Defined.

(** ** The watermark *)

Lemma draw_text_cases (xy : Z * Z) (txt : string) (opacity : Z) (img : PIL.Image) :
  (PIL.c_int opacity = true ->
   exists out, PIL.draw_text xy txt (255, 255, 255, opacity) img = Py.Ok out /\
               PIL.mode out = PIL.mode img /\ PIL.size out = PIL.size img) /\
  (PIL.c_int opacity = false ->
   PIL.draw_text xy txt (255, 255, 255, opacity) img = Py.Raise Py.OverflowError).
Proof.
  unfold PIL.draw_text. change (PIL.c_int 255) with true. cbn [andb].
  split; intros ->.
  - eexists. repeat split.
  - reflexivity.
Qed.

Lemma add_watermark_cases (lib : PIL.Build) (img : PIL.Image)
    (txt pos : string) (opacity : Z) :
  txt <> "" ->
  (PIL.c_int opacity = true ->
   exists out,
     add_watermark lib img txt pos opacity = Py.Ok out /\
     PIL.mode out = "RGBA" /\
     PIL.size out = PIL.size img) /\
  (PIL.c_int opacity = false ->
   add_watermark lib img txt pos opacity = Py.Raise Py.OverflowError).
Proof.
  intros Hne. unfold add_watermark.
  destruct (String.eqb_spec txt "") as [E | _]; [contradiction |].
  set (overlay := PIL.new "RGBA" (PIL.size img) (255, 255, 255, 0)).
  destruct (draw_text_cases (watermark_xy lib img txt pos) txt opacity overlay)
    as [Hin Hout].
  split; intros Hc.
  - destruct (Hin Hc) as (drawn & -> & Hm & Hs). cbn [Py.bind].
    unfold PIL.alpha_composite. rewrite Hm.
    unfold PIL.size in Hs. injection Hs as Hw Hh. rewrite Hw, Hh.
    destruct (String.eqb_spec (PIL.mode img) "RGBA") as [Em | Em]; cbn [negb].
    + rewrite Em. cbn. rewrite !Z.eqb_refl. cbn. eexists. repeat split.
    + cbn. rewrite !Z.eqb_refl. cbn. eexists. repeat split.
  - rewrite (Hout Hc). reflexivity.
Qed.

Lemma add_watermark_ok (lib : PIL.Build) (img out : PIL.Image)
    (txt pos : string) (opacity : Z) :
  txt <> "" ->
  add_watermark lib img txt pos opacity = Py.Ok out ->
  PIL.mode out = "RGBA" /\ PIL.size out = PIL.size img.
Proof.
  intros Hne Hout.
  destruct (add_watermark_cases lib img txt pos opacity Hne) as [Hin Hover].
  destruct (PIL.c_int opacity) eqn:Hc.
  - destruct (Hin eq_refl) as (out' & E & Hm & Hs).
    rewrite E in Hout. injection Hout as <-. split; assumption.
  - rewrite (Hover eq_refl) in Hout. discriminate Hout.
Qed.

(** X4.  What a watermark does to the picture.  An empty text returns
    the input as it is.  With a text, whatever the position, an opacity
    that fits a C [int] (0..255 or not: no range is checked, the
    drawing cuts the value) gives an RGBA picture of the size of the
    input; an opacity outside that range makes the drawing raise
    [OverflowError]. *)
Theorem watermark_keeps_size :
  forall (lib : PIL.Build) (img : PIL.Image) (txt pos : string) (opacity : Z),
    (txt = "" -> add_watermark lib img txt pos opacity = Py.Ok img) /\
    (txt <> "" -> - 2147483648 <= opacity <= 2147483647 ->
       exists out,
         add_watermark lib img txt pos opacity = Py.Ok out /\
         PIL.size out = PIL.size img /\
         PIL.mode out = "RGBA") /\
    (txt <> "" -> opacity < - 2147483648 \/ 2147483647 < opacity ->
       add_watermark lib img txt pos opacity = Py.Raise Py.OverflowError).
Proof.
  intros lib img txt pos opacity. split; [| split].
  - intros ->. reflexivity.
  - intros Hne Hrange.
    destruct (add_watermark_cases lib img txt pos opacity Hne) as [Hin _].
    destruct (Hin (proj2 (c_int_range opacity) Hrange)) as (out & E & Hm & Hs).
    exists out. split; [exact E |]. split; [exact Hs | exact Hm].
  - intros Hne Hrange.
    destruct (add_watermark_cases lib img txt pos opacity Hne) as [_ Hover].
    apply Hover. apply not_true_is_false. rewrite c_int_range. lia.
Qed.

(** X4 at a text drawn on the 1600 x 900 photo, and at an opacity of
    [2^31]. *)
Lemma watermark_keeps_size_witness :
  (exists out,
     add_watermark reference_build wide_photo "DRAFT" "center" 128 = Py.Ok out /\
     PIL.size out = (1600, 900) /\
     PIL.mode out = "RGBA") /\
  add_watermark reference_build wide_photo "DRAFT" "center" 2147483648
    = Py.Raise Py.OverflowError.
Proof.
  split.
  - destruct (watermark_keeps_size reference_build wide_photo "DRAFT" "center" 128)
      as (_ & Hin & _).
    apply Hin; [discriminate | lia].
  - destruct (watermark_keeps_size reference_build wide_photo "DRAFT" "center"
                2147483648) as (_ & _ & Hover).
    apply Hover; [discriminate | lia].
Defined.

(** X5.  Where the text ends up.  The position is computed from the
    size of the box the text measures at the origin, [(x0, y0, x1,
    y1)], and the text is then drawn at that position without taking
    [x0] and [y0] off.  So the rectangle the text covers is moved by
    [(x0, y0)]: at the right and bottom edges it is [20 - x0] and
    [20 - y0] pixels away, at the left and top edges [20 + x0] and
    [20 + y0]; for any position that is no corner the two free margins
    on an axis differ by twice that offset (and the odd pixel).  The
    margins are the 20 pixels of line 86, and the centre is the
    centre, only for a font whose box starts at the origin. *)
Theorem watermark_placement :
  forall (lib : PIL.Build) (img : PIL.Image) (txt pos : string)
         (x0 y0 x1 y1 left top right bottom : Z),
    PIL.textbbox lib txt = (x0, y0, x1, y1) ->
    ink_box lib (watermark_xy lib img txt pos) txt = (left, top, right, bottom) ->
    right - left = x1 - x0 /\ bottom - top = y1 - y0 /\
    (pos = "bottom-right" ->
       PIL.width img - right = 20 - x0 /\ PIL.height img - bottom = 20 - y0) /\
    (pos = "bottom-left" ->
       left = 20 + x0 /\ PIL.height img - bottom = 20 - y0) /\
    (pos = "top-right" ->
       PIL.width img - right = 20 - x0 /\ top = 20 + y0) /\
    (pos = "top-left" -> left = 20 + x0 /\ top = 20 + y0) /\
    (pos <> "bottom-right" -> pos <> "bottom-left" ->
     pos <> "top-right" -> pos <> "top-left" ->
     0 <= (PIL.width img - right) - left + 2 * x0 <= 1 /\
     0 <= (PIL.height img - bottom) - top + 2 * y0 <= 1).
Proof.
  intros lib img txt pos x0 y0 x1 y1 left top right bottom Hbox.
  unfold ink_box, watermark_xy. rewrite Hbox.
  destruct (String.eqb_spec pos "bottom-right") as [Ebr | Hbr].
  { cbv beta iota delta [fst snd]. intros H.
    apply pair_equal_spec in H as [H <-]. apply pair_equal_spec in H as [H <-].
    apply pair_equal_spec in H as [<- <-].
    repeat split; intros; try discriminate; try congruence; try lia. }
  destruct (String.eqb_spec pos "bottom-left") as [Ebl | Hbl].
  { cbv beta iota delta [fst snd]. intros H.
    apply pair_equal_spec in H as [H <-]. apply pair_equal_spec in H as [H <-].
    apply pair_equal_spec in H as [<- <-].
    repeat split; intros; try discriminate; try congruence; try lia. }
  destruct (String.eqb_spec pos "top-right") as [Etr | Htr].
  { cbv beta iota delta [fst snd]. intros H.
    apply pair_equal_spec in H as [H <-]. apply pair_equal_spec in H as [H <-].
    apply pair_equal_spec in H as [<- <-].
    repeat split; intros; try discriminate; try congruence; try lia. }
  destruct (String.eqb_spec pos "top-left") as [Etl | Htl].
  { cbv beta iota delta [fst snd]. intros H.
    apply pair_equal_spec in H as [H <-]. apply pair_equal_spec in H as [H <-].
    apply pair_equal_spec in H as [<- <-].
    repeat split; intros; try discriminate; try congruence; try lia. }
  cbv beta iota delta [fst snd]. intros H.
    apply pair_equal_spec in H as [H <-]. apply pair_equal_spec in H as [H <-].
    apply pair_equal_spec in H as [<- <-].
  pose proof (Z.div_mod (PIL.width img - (x1 - x0)) 2 ltac:(lia)) as Ex.
  pose proof (Z.mod_pos_bound (PIL.width img - (x1 - x0)) 2 ltac:(lia)) as Bx.
  pose proof (Z.div_mod (PIL.height img - (y1 - y0)) 2 ltac:(lia)) as Ey.
  pose proof (Z.mod_pos_bound (PIL.height img - (y1 - y0)) 2 ltac:(lia)) as By.
  repeat split; intros; try discriminate; try congruence; try lia.
Qed.

(** X5 at the bottom right of the 1600 x 900 photo, with the sample
    font: 20 pixels to the right edge, 18 to the bottom one. *)
Lemma watermark_placement_witness :
  ink_box reference_build
    (watermark_xy reference_build wide_photo "DRAFT" "bottom-right") "DRAFT"
    = (1548, 874, 1580, 882) /\
  1600 - 1580 = 20 - 0 /\ 900 - 882 = 20 - 2.
Proof.
  split; [reflexivity |].
  destruct (watermark_placement reference_build wide_photo "DRAFT" "bottom-right"
              0 2 32 10 1548 874 1580 882 eq_refl eq_refl)
    as (_ & _ & Hbr & _).
  exact (Hbr eq_refl).
Defined.

(** ** Letter case of the format and of the mode *)

Lemma chars_text (l : list ascii) : Py.chars (Py.text l) = l.
Proof. apply list_ascii_of_string_of_list_ascii. Qed.

(** On ASCII characters the case mappings go byte by byte. *)
Lemma upper_cp_ascii (c : ascii) :
  (Py.code c <? 128) = true ->
  Py.encode (Py.upper_cp (Py.code c)) = [Py.to_upper c] /\
  Py.encode (Py.lower_cp (Py.code c)) = [Py.to_lower c] /\
  (Py.code (Py.to_upper c) <? 128) = true /\
  (Py.code (Py.to_lower c) <? 128) = true.
Proof.
  destruct c as [[] [] [] [] [] [] [] []]; intros H;
    first [discriminate H | repeat split; vm_compute; reflexivity].
Qed.

Lemma to_upper_lower (c : ascii) : Py.to_upper (Py.to_lower c) = Py.to_upper c.
Proof. destruct c as [[] [] [] [] [] [] [] []]; reflexivity. Qed.

Lemma to_lower_upper (c : ascii) : Py.to_lower (Py.to_upper c) = Py.to_lower c.
Proof. destruct c as [[] [] [] [] [] [] [] []]; reflexivity. Qed.

Lemma to_upper_upper (c : ascii) : Py.to_upper (Py.to_upper c) = Py.to_upper c.
Proof. destruct c as [[] [] [] [] [] [] [] []]; reflexivity. Qed.

Lemma to_lower_lower (c : ascii) : Py.to_lower (Py.to_lower c) = Py.to_lower c.
Proof. destruct c as [[] [] [] [] [] [] [] []]; reflexivity. Qed.

Lemma decode_ascii (l : list ascii) :
  forallb (fun c => Py.code c <? 128) l = true ->
  Py.decode l = map Py.code l.
Proof.
  unfold Py.decode. induction l as [| c l IH]; cbn [forallb map]; intros H.
  - reflexivity.
  - apply andb_prop in H as [Hc Hl]. cbn [Py.decode_from].
    unfold Py.lead. rewrite Hc. f_equal. exact (IH Hl).
Qed.

Lemma encode_app (a b : list Z) : Py.encode (a ++ b)%list = (Py.encode a ++ Py.encode b)%list.
Proof. unfold Py.encode. apply flat_map_app. Qed.

Lemma upper_ascii (s : string) :
  Py.isascii s = true -> Py.upper s = Py.text (map Py.to_upper (Py.chars s)).
Proof.
  unfold Py.isascii, Py.upper. intros H. rewrite (decode_ascii _ H). f_equal.
  induction (Py.chars s) as [| c l IH]; [reflexivity |].
  cbn [forallb] in H. apply andb_prop in H as [Hc Hl].
  cbn [map flat_map]. rewrite encode_app, (proj1 (upper_cp_ascii c Hc)), (IH Hl).
  reflexivity.
Qed.

Lemma lower_ascii (s : string) :
  Py.isascii s = true -> Py.lower s = Py.text (map Py.to_lower (Py.chars s)).
Proof.
  unfold Py.isascii, Py.lower. intros H. rewrite (decode_ascii _ H). f_equal.
  generalize (@nil Z) as before.
  induction (Py.chars s) as [| c l IH]; intros before; [reflexivity |].
  cbn [forallb] in H. apply andb_prop in H as [Hc Hl].
  cbn [map Py.lower_from].
  replace (Py.code c =? 931) with false
    by (symmetry; apply Z.eqb_neq; apply Z.ltb_lt in Hc; lia).
  rewrite encode_app, (proj1 (proj2 (upper_cp_ascii c Hc))), (IH Hl).
  reflexivity.
Qed.

Lemma isascii_map (f : ascii -> ascii) (l : list ascii) :
  (forall c, (Py.code c <? 128) = true -> (Py.code (f c) <? 128) = true) ->
  forallb (fun c => Py.code c <? 128) l = true ->
  Py.isascii (Py.text (map f l)) = true.
Proof.
  intros Hf H. unfold Py.isascii. rewrite chars_text.
  induction l as [| c l IH]; [reflexivity |].
  cbn [forallb map] in *. apply andb_prop in H as [Hc Hl].
  rewrite (Hf c Hc), (IH Hl). reflexivity.
Qed.

(** Letter case on ASCII text: either mapping cancels the other one
    under it, and each is idempotent; none empties a text. *)
Lemma case_laws (s : string) :
  Py.isascii s = true ->
  Py.upper (Py.lower s) = Py.upper s /\
  Py.lower (Py.upper s) = Py.lower s /\
  Py.upper (Py.upper s) = Py.upper s /\
  Py.lower (Py.lower s) = Py.lower s /\
  String.eqb (Py.lower s) "" = String.eqb s "" /\
  String.eqb (Py.upper s) "" = String.eqb s "".
Proof.
  intros H.
  assert (Hu : Py.isascii (Py.upper s) = true).
  { rewrite (upper_ascii s H). apply isascii_map; [| exact H].
    intros c Hc. exact (proj1 (proj2 (proj2 (upper_cp_ascii c Hc)))). }
  assert (Hl : Py.isascii (Py.lower s) = true).
  { rewrite (lower_ascii s H). apply isascii_map; [| exact H].
    intros c Hc. exact (proj2 (proj2 (proj2 (upper_cp_ascii c Hc)))). }
  rewrite (upper_ascii _ Hl), (lower_ascii _ Hu), (upper_ascii _ Hu), (lower_ascii _ Hl).
  rewrite (upper_ascii s H), (lower_ascii s H), !chars_text, !map_map.
  split; [f_equal; apply map_ext; exact to_upper_lower |].
  split; [f_equal; apply map_ext; exact to_lower_upper |].
  split; [f_equal; apply map_ext; exact to_upper_upper |].
  split; [f_equal; apply map_ext; exact to_lower_lower |].
  split; destruct s; reflexivity.
Qed.

(** X6.  For a value written in ASCII, the format and the mode are read
    without regard to letter case: writing either in lower or in upper
    case changes nothing in the answer. *)
Theorem format_and_mode_ignore_case :
  forall (lib : PIL.Build) (req : Request) (s : string),
    Py.isascii s = true ->
    convert lib (with_field "format" (Py.lower s) req)
      = convert lib (with_field "format" s req) /\
    convert lib (with_field "format" (Py.upper s) req)
      = convert lib (with_field "format" s req) /\
    convert lib (with_field "mode" (Py.lower s) req)
      = convert lib (with_field "mode" s req) /\
    convert lib (with_field "mode" (Py.upper s) req)
      = convert lib (with_field "mode" s req).
Proof.
  intros lib req s Hs.
  destruct (case_laws s Hs) as (Hul & Hlu & Huu & Hll & Hle & Hue).
  repeat split; apply convert_same_reads; try reflexivity;
    try (intros; rewrite !resize_step_with_field by discriminate; reflexivity);
    unfold target_of, mode_of; rewrite !form_get_with_field;
    cbn [String.eqb Ascii.eqb Bool.eqb];
    unfold Py.or_else; rewrite ?Hle, ?Hue;
    destruct (String.eqb s ""); try reflexivity;
    rewrite ?Hul, ?Hlu, ?Huu, ?Hll; reflexivity.
Qed.

(** X6 at a format written in mixed case. *)
Lemma format_and_mode_ignore_case_witness :
  convert reference_build (with_field "format" (Py.lower "JpEg") (single []))
    = convert reference_build (with_field "format" "JpEg" (single [])).
Proof.
  exact (proj1 (format_and_mode_ignore_case reference_build (single []) "JpEg"
                  eq_refl)).
Defined.

(** ** Mode and size of what is encoded *)

Lemma resize_mode (sz : Z * Z) (filter : string) (img out : PIL.Image) :
  PIL.resize sz filter img = Py.Ok out -> PIL.mode out = PIL.mode img.
Proof.
  destruct sz as [w h]. unfold PIL.resize.
  destruct ((w =? PIL.width img) && (h =? PIL.height img)).
  - intros H. injection H as <-. reflexivity.
  - destruct (negb (PIL.c_int w && PIL.c_int h)); [discriminate |].
    destruct ((w <? 1) || (h <? 1)); [discriminate |].
    intros H. injection H as <-. reflexivity.
Qed.

Lemma resize_step_mode (req : Request) (mode : string) (pa : bool)
    (img out : PIL.Image) :
  resize_step req mode pa img = Py.Ok out -> PIL.mode out = PIL.mode img.
Proof.
  unfold resize_step. intros H.
  destruct (String.eqb mode "percent").
  - apply bind_ok in H as (p & _ & H).
    destruct (Py.fne p (Py.Finite 100)); [| injection H as <-; reflexivity].
    apply bind_ok in H as (w & _ & H). apply bind_ok in H as (h & _ & H).
    exact (resize_mode _ _ _ _ H).
  - destruct (String.eqb mode "exact"); [| injection H as <-; reflexivity].
    apply bind_ok in H as (w & _ & H). apply bind_ok in H as (h & _ & H).
    destruct ((0 <? w) && (0 <? h)); [| injection H as <-; reflexivity].
    destruct pa.
    + apply bind_ok in H as (new & _ & H). exact (resize_mode _ _ _ _ H).
    + exact (resize_mode _ _ _ _ H).
Qed.

Lemma resize_step_other_modes (req : Request) (mode : string) (pa : bool)
    (img : PIL.Image) :
  mode <> "percent" -> mode <> "exact" -> resize_step req mode pa img = Py.Ok img.
Proof.
  intros Hp He. unfold resize_step.
  destruct (String.eqb_spec mode "percent") as [E | _]; [contradiction |].
  destruct (String.eqb_spec mode "exact") as [E | _]; [contradiction |].
  reflexivity.
Qed.

(** X7.  What reaches the encoder, for every file that is converted.  Its
    size is the one the resize step left (the watermark and the colour
    conversion keep it; without a resize, the sides of the upload,
    swapped or not).  Its mode is: for JPEG, BMP and TIFF, RGB when a
    watermark was drawn or the upload was RGBA or P, else the mode of
    the upload; for the other formats, RGBA when a watermark was drawn,
    else the mode of the upload.  So JPEG, BMP and TIFF never get an
    RGBA or P picture, and a watermark drawn on the way to them loses
    its transparency. *)
Theorem encoded_mode_and_size :
  forall (lib : PIL.Build) (req : Request) (target mode quality : string)
         (t : Transformations) (txt pos : string) (opacity : Z) (pa : bool)
         (file : Upload) (name : string) (buf : PIL.Encoded),
    convert_file lib req target mode quality t txt pos opacity pa file
      = Py.Ok (name, buf) ->
    exists img0 turned resized fmt ext mime,
      stream file = Py.Ok img0 /\
      lookup target ALLOWED = Some (fmt, ext, mime) /\
      apply_transformations lib (PIL.exif_transpose img0) t = Py.Ok turned /\
      resize_step req mode pa turned = Py.Ok resized /\
      PIL.size (PIL.enc_image buf) = PIL.size resized /\
      (mode <> "percent" -> mode <> "exact" ->
         PIL.size (PIL.enc_image buf) = PIL.size img0 \/
         PIL.size (PIL.enc_image buf) = (PIL.height img0, PIL.width img0)) /\
      PIL.mode (PIL.enc_image buf)
        = (if Py.str_in fmt ["JPEG"; "BMP"; "TIFF"] then
             if negb (String.eqb txt "") || Py.str_in (PIL.mode img0) ["RGBA"; "P"]
             then "RGB" else PIL.mode img0
           else if negb (String.eqb txt "") then "RGBA" else PIL.mode img0) /\
      (Py.str_in fmt ["JPEG"; "BMP"; "TIFF"] = true ->
         Py.str_in (PIL.mode (PIL.enc_image buf)) ["RGBA"; "P"] = false).
Proof.
  intros lib req target mode quality t txt pos opacity pa file name buf H.
  unfold convert_file in H.
  apply bind_ok in H as (img0 & Hopen & H).
  apply bind_ok in H as (turned & Hturn & H).
  apply bind_ok in H as (resized & Hresize & H).
  apply bind_ok in H as (marked & Hmark & H).
  destruct (lookup target ALLOWED) as [[[fmt ext] mime] |]; [| discriminate H].
  apply bind_ok in H as (params & _ & H).
  apply bind_ok in H as (enc & Hsave & H).
  injection H as _ <-.
  unfold PIL.save in Hsave.
  destruct (PIL.encodes lib fmt _); [| discriminate Hsave].
  injection Hsave as <-. cbn [PIL.enc_image].
  exists img0, turned, resized, fmt, ext, mime.
  (* modes and sizes before the watermark *)
  pose proof (exif_transpose_shape img0) as [Hm0 Hs0].
  pose proof (apply_transformations_shape lib (PIL.exif_transpose img0) t) as Hshape.
  rewrite Hturn in Hshape. destruct Hshape as [Hm1 Hs1].
  pose proof (resize_step_mode _ _ _ _ _ Hresize) as Hm2.
  assert (Hmode : PIL.mode resized = PIL.mode img0) by congruence.
  (* the watermark *)
  assert (Hmarked : PIL.size marked = PIL.size resized /\
                    PIL.mode marked
                      = if negb (String.eqb txt "") then "RGBA" else PIL.mode img0).
  { destruct (String.eqb_spec txt "") as [E | Hne]; cbn [negb] in *.
    - injection Hmark as <-. split; [reflexivity | exact Hmode].
    - destruct (add_watermark_ok lib resized marked txt pos opacity Hne Hmark)
        as [Hmo Hso].
      split; [exact Hso | exact Hmo]. }
  destruct Hmarked as [Hsm Hmm].
  assert (Hsize : PIL.size (encoder_input fmt marked) = PIL.size resized).
  { unfold encoder_input. destruct (_ && _); [| exact Hsm]. exact Hsm. }
  assert (Hfinal : PIL.mode (encoder_input fmt marked)
            = (if Py.str_in fmt ["JPEG"; "BMP"; "TIFF"] then
                 if negb (String.eqb txt "") || Py.str_in (PIL.mode img0) ["RGBA"; "P"]
                 then "RGB" else PIL.mode img0
               else if negb (String.eqb txt "") then "RGBA" else PIL.mode img0)).
  { unfold encoder_input. rewrite Hmm.
    destruct (Py.str_in fmt ["JPEG"; "BMP"; "TIFF"]); cbn [andb].
    - destruct (negb (String.eqb txt "")); cbn [orb].
      + reflexivity.
      + destruct (Py.str_in (PIL.mode img0) ["RGBA"; "P"]) eqn:E; [reflexivity | exact Hmm].
    - exact Hmm. }
  split; [exact Hopen |]. split; [reflexivity |].
  split; [exact Hturn |]. split; [exact Hresize |].
  split; [exact Hsize |]. split; [| split].
  - intros Hp He. rewrite Hsize.
    rewrite (resize_step_other_modes req mode pa turned Hp He) in Hresize.
    injection Hresize as <-.
    unfold PIL.size in *. destruct Hs1 as [Hs1 | Hs1], Hs0 as [Hs0 | Hs0];
      injection Hs1 as -> ->; injection Hs0 as -> ->; auto.
  - exact Hfinal.
  - intros Hfmt. rewrite Hfinal, Hfmt.
    destruct (negb (String.eqb txt "")); cbn [orb]; [reflexivity |].
    destruct (Py.str_in (PIL.mode img0) ["RGBA"; "P"]) eqn:E; [reflexivity | exact E].
Qed.

(** X7 at a watermarked photo turned by a quarter and sent for JPEG. *)
Lemma encoded_mode_and_size_witness :
  exists name buf,
    loop_body reference_build
      (single [("format", "jpeg"); ("watermark_text", "DRAFT"); ("rotate", "90")])
      128 (upload "photo.jpg" wide_photo) = Py.Ok (name, buf) /\
    PIL.mode (PIL.enc_image buf) = "RGB" /\
    PIL.size (PIL.enc_image buf) = (900, 1600).
Proof.
  set (req := single [("format", "jpeg"); ("watermark_text", "DRAFT"); ("rotate", "90")]).
  assert (H : exists name buf,
            loop_body reference_build req 128 (upload "photo.jpg" wide_photo)
              = Py.Ok (name, buf)) by (do 2 eexists; reflexivity).
  destruct H as (name & buf & H). exists name, buf. split; [exact H |].
  unfold loop_body in H.
  destruct (encoded_mode_and_size _ _ _ _ _ _ _ _ _ _ _ _ _ H)
    as (img0 & turned & resized & fmt & ext & mime & Hopen & Hfmt & Hturn & Hres
        & Hsz & _ & Hmode & _).
  injection Hopen as <-. vm_compute in Hfmt. injection Hfmt as <- <- <-.
  split; [exact Hmode |].
  rewrite Hsz. vm_compute in Hturn. injection Hturn as <-.
  vm_compute in Hres. injection Hres as <-. reflexivity.
Defined.

(** ** Exact resize without the ratio *)



(** ** Names of outputs that are converted again *)

Lemma allowed_ext_no_dot (token fmt ext mime : string) :
  lookup token ALLOWED = Some (fmt, ext, mime) ->
  ~ In "."%char (Py.chars ext).
Proof.
  intros H. apply allowed_entries in H as [_ H]. simpl in H.
  repeat (destruct H as [H | H];
          [injection H as <- <- <-; simpl; intros F;
           repeat (destruct F as [F | F]; [discriminate F |]); exact F |]).
  contradiction.
Qed.

Lemma output_name_stem (file : Upload) (token fmt ext mime : string) :
  lookup token ALLOWED = Some (fmt, ext, mime) ->
  output_name file ext
    = (match filename file with
       | Some n => if String.eqb n "" then "image" else Py.rsplit_dot_head n
       | None => "image"
       end) ++ "." ++ ext.
Proof.
  intros H. unfold output_name.
  destruct (filename file) as [n |].
  - destruct (String.eqb n ""); [| reflexivity].
    rewrite (allowed_ext_plain _ _ _ _ H). reflexivity.
  - rewrite (allowed_ext_plain _ _ _ _ H). reflexivity.
Qed.

(** X10.  The name given to an output depends on the upload's name only
    through its stem, so sending an output back for another format of
    the registry names it as the original upload would have been named
    for that format; for the same format the name is unchanged. *)
Theorem reconverted_name :
  forall (file : Upload) (img : PIL.Image)
         (token fmt ext mime token' fmt' ext' mime' : string),
    lookup token ALLOWED = Some (fmt, ext, mime) ->
    lookup token' ALLOWED = Some (fmt', ext', mime') ->
    output_name (upload (output_name file ext) img) ext' = output_name file ext' /\
    output_name (upload (output_name file ext) img) ext = output_name file ext.
Proof.
  intros file img token fmt ext mime token' fmt' ext' mime' H H'.
  assert (Hgen : forall t2 f2 e2 m2, lookup t2 ALLOWED = Some (f2, e2, m2) ->
            output_name (upload (output_name file ext) img) e2 = output_name file e2).
  { intros t2 f2 e2 m2 H2.
    rewrite (output_name_stem file _ _ _ _ H2).
    rewrite (output_name_stem file _ _ _ _ H).
    set (stem := match filename file with
                 | Some n => if String.eqb n "" then "image" else Py.rsplit_dot_head n
                 | None => "image"
                 end).
    rewrite (output_name_stem _ _ _ _ _ H2). unfold upload; cbn [filename].
    destruct (String.eqb_spec (stem ++ "." ++ ext) "") as [Hempty | _].
    - destruct stem; discriminate Hempty.
    - rewrite (rsplit_dot_head_app stem ext (allowed_ext_no_dot _ _ _ _ H)).
      reflexivity. }
  split; [exact (Hgen _ _ _ _ H') | exact (Hgen _ _ _ _ H)].
Qed.

(** X10 at a name with two dots, sent for JPEG and then for TIFF. *)
Lemma reconverted_name_witness :
  output_name (upload (output_name (upload "holiday.2024.png" wide_photo) "jpg")
                 wide_photo) "tiff"
    = "holiday.2024.tiff".
Proof.
  destruct (reconverted_name (upload "holiday.2024.png" wide_photo) wide_photo
              "JPEG" "JPEG" "jpg" "image/jpeg" "TIFF" "TIFF" "tiff" "image/tiff"
              eq_refl eq_refl) as [H _].
  rewrite H. vm_compute. reflexivity.
Defined.


(** ** [analyze_image] *)

(** X11.  The analysis service answers 503 exactly when the start-up left
    no client: the key is missing from the environment, or empty, or
    the construction of the client raised.  The test comes first: the
    answer is then 503 whatever the request holds, also without a
    file. *)
Theorem analysis_needs_client :
  forall (lib : PIL.Build) (key : option string)
         (construct : string -> Py.result Vision) (req : Request),
    (analyze_image lib (openai_setup key construct) req
       = AnalyzeError 503
           (Message "AI analysis not available. Please configure OpenAI API key.")
     <-> (key = None \/ key = Some "" \/
          exists k e, key = Some k /\ construct k = Py.Raise e)) /\
    (forall err,
       analyze_image lib (openai_setup key construct) req = AnalyzeError 503 err ->
       openai_setup key construct = None).
Proof.
  intros lib key construct req.
  assert (Hwith : forall client status err,
            analyze_image lib (Some client) req = AnalyzeError status err ->
            status <> 503).
  { intros client status err H. unfold analyze_image in H.
    destruct (files req) as [| file rest].
    - injection H as <- _. discriminate.
    - destruct (Py.bind _ _) as [buf | e].
      + destruct (complete client buf); [discriminate H |].
        injection H as <- _. discriminate.
      + injection H as <- _. discriminate. }
  split; [split |].
  - intros H. unfold openai_setup in H.
    destruct key as [k |]; [| left; reflexivity].
    destruct (String.eqb_spec k "") as [-> | _]; [right; left; reflexivity |].
    destruct (construct k) as [client | e] eqn:Ec.
    + exfalso. exact (Hwith _ _ _ H eq_refl).
    + right; right. exists k, e. split; [reflexivity | exact Ec].
  - intros [-> | [-> | (k & e & -> & Ec)]]; try reflexivity.
    unfold openai_setup. rewrite Ec. destruct (String.eqb k ""); reflexivity.
  - intros err H. destruct (openai_setup key construct) as [client |]; [| reflexivity].
    exfalso. exact (Hwith _ _ _ H eq_refl).
Qed.

(** X11 at an empty key. *)
Lemma analysis_needs_client_witness :
  analyze_image reference_build
    (openai_setup (Some "") (fun _ => Py.Ok canned_vision)) small_preview
    = AnalyzeError 503
        (Message "AI analysis not available. Please configure OpenAI API key.").
Proof.
  apply (proj1 (analysis_needs_client reference_build (Some "")
                  (fun _ => Py.Ok canned_vision) small_preview)).
  right. left. reflexivity.
Defined.


(** ** What the preview depends on *)

Lemma preview_same_reads (lib : PIL.Build) (req req' : Request) :
  hd_error (files req') = hd_error (files req) ->
  transformations_of req' = transformations_of req ->
  watermark_text_of req' = watermark_text_of req ->
  watermark_position_of req' = watermark_position_of req ->
  watermark_opacity_of req' = watermark_opacity_of req ->
  preview_image lib req' = preview_image lib req.
Proof.
  intros Hf Htr Hwt Hwp Hwo. unfold preview_image, preview_source.
  rewrite Htr, Hwt, Hwp, Hwo.
  destruct (files req) as [| f fs], (files req') as [| f' fs'];
    cbn [hd_error] in Hf; try discriminate Hf; [reflexivity |].
  injection Hf as ->. reflexivity.
Qed.

(** X13.  What the answer of the preview route depends on: whether the
    body exceeds the limit of 16 MiB, the first upload, and six form
    fields (rotate, the two flips and the three watermark fields).  Two
    requests that agree on these get the same answer, whatever their
    other fields (format, resize mode, sizes) and further uploads; and a
    body over the limit is answered with status 413 whatever it
    holds. *)
Theorem preview_reads :
  forall (lib : PIL.Build) (inc inc' : Incoming),
    (too_large inc = too_large inc' ->
     hd_error (files (parsed inc)) = hd_error (files (parsed inc')) ->
     (forall k,
        In k ["rotate"; "flip_horizontal"; "flip_vertical"; "watermark_text";
              "watermark_position"; "watermark_opacity"] ->
        form_get (parsed inc) k = form_get (parsed inc') k) ->
     post_preview lib inc = post_preview lib inc') /\
    (MAX_CONTENT_LENGTH < content_length inc ->
     post_preview lib inc = RequestEntityTooLarge) /\
    (content_length inc <= MAX_CONTENT_LENGTH ->
     post_preview lib inc = Handled (preview_image lib (parsed inc))).
Proof.
  intros lib inc inc'. split; [| split].
  - intros Hsize Hfirst Hget. unfold post_preview. rewrite Hsize.
    destruct (too_large inc'); [reflexivity |]. f_equal.
    apply preview_same_reads.
    + exact Hfirst.
    + unfold transformations_of, form_get_or, form_flag.
      rewrite !Hget by (simpl; tauto). reflexivity.
    + unfold watermark_text_of, form_get_or. rewrite Hget by (simpl; tauto). reflexivity.
    + unfold watermark_position_of, form_get_or. rewrite Hget by (simpl; tauto).
      reflexivity.
    + unfold watermark_opacity_of, form_get_or. rewrite Hget by (simpl; tauto).
      reflexivity.
  - intros Hbig. unfold post_preview, too_large.
    replace (MAX_CONTENT_LENGTH <? content_length inc) with true
      by (symmetry; apply Z.ltb_lt; exact Hbig).
    reflexivity.
  - intros Hfits. unfold post_preview, too_large.
    replace (MAX_CONTENT_LENGTH <? content_length inc) with false
      by (symmetry; apply Z.ltb_ge; exact Hfits).
    reflexivity.
Qed.

(** X13 at a small preview sent alone, and sent with a format field and
    a second upload in a longer body. *)
Lemma preview_reads_witness :
  post_preview reference_build
    {| content_length := 2048;
       parsed := request [upload "s.png" small_photo; upload "photo.jpg" wide_photo]
                   [("format", "bmp")] |}
    = post_preview reference_build
        {| content_length := 1024; parsed := small_preview |}.
Proof.
  destruct (preview_reads reference_build
              {| content_length := 2048;
                 parsed := request [upload "s.png" small_photo;
                                    upload "photo.jpg" wide_photo]
                             [("format", "bmp")] |}
              {| content_length := 1024; parsed := small_preview |}) as [H _].
  apply H; [reflexivity | reflexivity |].
  intros k Hk. simpl in Hk.
  repeat (destruct Hk as [<- | Hk]; [reflexivity |]). contradiction.
Defined.

(** ** Rounding does not cross an integer *)

Lemma rne_le (n d k : Z) :
  0 <= n -> 0 < d -> n <= k * d -> Py.rne n d <= k.
Proof.
  intros Hn Hd Hk. unfold Py.rne.
  pose proof (Z.div_mod n d ltac:(lia)) as E.
  pose proof (Z.mod_pos_bound n d Hd) as Hr.
  destruct (Z.compare_spec (2 * (n mod d)) d) as [Hc | Hc | Hc];
    [destruct (Z.even (n / d)) |..]; nia.
Qed.

(** Rounding a positive rational that is at most the integer [M] (below
    [2^53], hence a binary64 number) gives at most [M]. *)
Lemma fl_below (x : Q) (M : Z) :
  0 < M < 2 ^ 53 ->
  (0 < x)%Q ->
  (1 # 1606938044258990275541962092341162602522202993782792835301376 <= x)%Q ->
  (x <= inject_Z M)%Q ->
  exists y, Py.fl x = Py.Finite y /\ (0 < y)%Q /\ (y <= inject_Z M)%Q.
Proof.
  intros HM Hpos Hlo Hhi.
  assert (Hlo' : (Qmake 1 (2 ^ 1000)%positive <= x)%Q).
  { eapply Qle_trans; [| exact Hlo]. vm_compute. discriminate. }
  assert (Hhi' : (x <= inject_Z (2 ^ 1000))%Q).
  { eapply Qle_trans; [exact Hhi |]. rewrite <- Zle_Qle.
    assert (2 ^ 53 <= 2 ^ 1000) by (apply pow2_mono; lia). lia. }
  unfold Py.fl. cbv zeta.
  destruct (Qred x) as [n dp] eqn:Ex. cbn [Qnum Qden].
  assert (Hx : (x == n # dp)%Q) by (rewrite <- Ex; symmetry; apply Qred_correct).
  rewrite Hx in Hpos, Hlo', Hhi', Hhi.
  unfold Qlt in Hpos. unfold Qle in Hlo', Hhi', Hhi.
  cbn [Qnum Qden inject_Z] in Hpos, Hlo', Hhi', Hhi.
  rewrite Pos2Z.inj_pow in Hlo'.
  assert (Hn : 0 < n) by lia.
  destruct (round_core n (Z.pos dp) Hn (Pos2Z.is_pos dp) ltac:(lia) ltac:(lia))
    as (He & Hm & Hover & _ & _).
  pose proof (ilog2_spec n (Z.pos dp) Hn (Pos2Z.is_pos dp)) as HL. cbv zeta in HL.
  replace (n =? 0) with false by (symmetry; apply Z.eqb_neq; lia).
  rewrite (Z.abs_eq n) by lia.
  rewrite He.
  set (L := Py.ilog2 n (Z.pos dp)) in *.
  set (e := L - 52) in *.
  set (A := 2 ^ Z.max e 0) in *. set (B := 2 ^ Z.max (- e) 0) in *.
  set (m := Py.rne (n * B) (Z.pos dp * A)) in *.
  replace (2 ^ 1024 <=? m * A) with false by (symmetry; apply Z.leb_gt; exact Hover).
  rewrite (Z.sgn_pos n) by lia.
  assert (HA : 0 < A) by apply pow2_pos.
  assert (HB : 0 < B) by apply pow2_pos.
  pose proof (Pos2Z.is_pos dp) as Hd. set (d := Z.pos dp) in *.
  assert (Hle : e <= 0).
  { destruct (Z_le_gt_dec e 0) as [H | H]; [exact H | exfalso].
    rewrite (Z.max_l L 0), (Z.max_r (- L) 0) in HL by lia.
    change (2 ^ 0) with 1 in HL.
    assert (2 ^ 53 <= 2 ^ L) by (apply pow2_mono; lia). nia. }
  assert (HA1 : A = 1).
  { unfold A. rewrite Z.max_r by lia. reflexivity. }
  assert (Hm' : m <= M * B).
  { unfold m. apply rne_le; [nia | nia |]. rewrite HA1. nia. }
  eexists. split; [reflexivity |].
  unfold Py.dyadic. fold A B. split.
  - rewrite Qred_correct. unfold Qlt. cbn [Qnum Qden]. nia.
  - rewrite Qred_correct. unfold Qle, inject_Z. cbn [Qnum Qden].
    rewrite Z2Pos.id by exact HB. rewrite HA1. nia.
Qed.

(** ** The thumbnail of the preview *)

Lemma round_aspect_range (z : Q) (key : Z -> Py.result Py.float) :
  (0 < z)%Q -> (z <= 400)%Q ->
  (forall n, 0 <= n <= 400 -> exists k, key n = Py.Ok k) ->
  exists r, PIL.round_aspect (Py.Finite z) key = Py.Ok r /\ 1 <= r <= 400.
Proof.
  intros Hz Hz' Hkey. unfold PIL.round_aspect, Py.floor, Py.ceil. cbn [Py.bind].
  destruct z as [a b]. unfold Qlt in Hz. unfold Qle in Hz'. cbn [Qnum Qden] in *.
  pose proof (Pos2Z.is_pos b) as Hb. set (B := Z.pos b) in *.
  assert (Hlo : 0 <= a / B <= 400).
  { split; [apply Z.div_pos; lia |].
    apply Z.div_le_upper_bound; lia. }
  assert (Hhi : 0 <= - (- a / B) <= 400).
  { assert (- 400 <= - a / B) by (apply Z.div_le_lower_bound; lia).
    assert (- a / B < 0) by (apply Z.div_lt_upper_bound; lia). lia. }
  destruct (Hkey _ Hlo) as (klo & ->). destruct (Hkey _ Hhi) as (khi & ->).
  cbn [Py.bind]. eexists. split; [reflexivity |].
  destruct (Py.flt khi klo); lia.
Qed.

Lemma truediv_any (a b : Z) :
  0 <= a < 2 ^ 199 -> 0 < b < 2 ^ 199 ->
  exists y, Py.truediv_int a b = Py.Ok (Py.Finite y).
Proof.
  intros Ha Hb. destruct (Z.eq_dec a 0) as [-> | Hne].
  - exists 0%Q. unfold Py.truediv_int.
    replace (b =? 0) with false by (symmetry; apply Z.eqb_neq; lia).
    rewrite (fl_proper (inject_Z 0 / inject_Z b) 0).
    + reflexivity.
    + unfold Qdiv. change (inject_Z 0) with 0%Q. ring.
  - destruct (truediv_near a b ltac:(lia) Hb) as (y & Hy & _). exists y. exact Hy.
Qed.

Lemma thumbnail_within (img : PIL.Image) :
  0 < PIL.width img < 2 ^ 199 ->
  0 < PIL.height img < 2 ^ 199 ->
  exists out,
    PIL.thumbnail (400, 400) "LANCZOS" img = Py.Ok out /\
    1 <= PIL.width out <= 400 /\
    1 <= PIL.height out <= 400 /\
    PIL.mode out = PIL.mode img /\
    (out = img \/ PIL.width out = 400 \/ PIL.height out = 400).
Proof.
  intros Hw Hh. unfold PIL.thumbnail, PIL.preserve_aspect_ratio; cbn [fst snd].
  destruct ((400 >=? PIL.width img) && (400 >=? PIL.height img)) eqn:Hfit.
  { apply andb_prop in Hfit as [F1 F2]. apply Z.geb_le in F1, F2.
    exists img. cbn [Py.bind]. repeat split; try lia. left. reflexivity. }
  destruct (truediv_near _ _ Hw Hh) as (a & Ea & Pa & La & Ua).
  rewrite Ea. cbn [Py.bind].
  assert (Hbox : Py.truediv_int 400 400 = Py.Ok (Py.Finite 1))
    by (vm_compute; reflexivity).
  assert (H400 : Py.float_of_int 400 = Py.Ok (Py.Finite 400))
    by (vm_compute; reflexivity).
  rewrite Hbox, H400. cbn [Py.bind].
  pose proof (inject_pos _ (proj1 Hw)) as Qw. pose proof (inject_pos _ (proj1 Hh)) as Qh.
  pose proof (inject_below_199 _ (proj2 Hw)) as Qw'.
  pose proof (inject_below_199 _ (proj2 Hh)) as Qh'.
  set (qw := inject_Z (PIL.width img)) in *. set (qh := inject_Z (PIL.height img)) in *.
  assert (Halo : (1 # 1606938044258990275541962092341162602522202993782792835301376 <= a)%Q).
  { pose proof (Qmult_le_compat_r _ _ a Qh' (Qlt_le_weak _ _ Pa)) as F1. lra. }
  assert (Hahi : (a <= 1606938044258990275541962092341162602522202993782792835301376)%Q).
  { pose proof (Qmult_le_compat_r _ _ a Qh (Qlt_le_weak _ _ Pa)) as F1. lra. }
  assert (Hfinish : forall x y, 1 <= x <= 400 -> 1 <= y <= 400 -> x = 400 \/ y = 400 ->
            exists out, PIL.resize (x, y) "LANCZOS" img = Py.Ok out /\
              1 <= PIL.width out <= 400 /\ 1 <= PIL.height out <= 400 /\
              PIL.mode out = PIL.mode img /\
              (out = img \/ PIL.width out = 400 \/ PIL.height out = 400)).
  { intros x y Hx Hy Hxy.
    destruct (resize_succeeds x y "LANCZOS" img ltac:(lia) ltac:(lia)) as (out & Hout).
    exists out. split; [exact Hout |].
    pose proof (resize_size _ _ _ _ Hout) as Hs. unfold PIL.size in Hs.
    injection Hs as -> ->.
    split; [exact Hx |]. split; [exact Hy |].
    split; [exact (resize_mode _ _ _ _ Hout) |]. right. exact Hxy. }
  unfold Py.fge, Py.fle, Py.fcompare.
  destruct (a ?= 1)%Q eqn:Hc.
  - (* a = 1 *)
    apply Qeq_alt in Hc. unfold Py.fmul.
    destruct (fl_below (400 * a) 400 ltac:(split; [lia | reflexivity]))
      as (z & Ez & Pz & Bz);
      [lra | lra | change (inject_Z 400) with 400%Q; lra |].
    rewrite Ez. change (inject_Z 400) with 400%Q in Bz.
    destruct (round_aspect_range z
                (fun n => r <- Py.truediv_int n 400 ;;
                          Py.Ok (Py.fabs (Py.fsub (Py.Finite a) r)))
                Pz Bz) as (x' & Ex' & Hx').
    { intros n Hn. destruct (truediv_any n 400) as (r & ->);
        [split; [lia |]; assert (2 ^ 9 <= 2 ^ 199) by (apply pow2_mono; lia);
         change (2 ^ 9) with 512 in *; lia
        | split; [lia | reflexivity] |].
      cbn [Py.bind]. eexists. reflexivity. }
    rewrite Ex'. cbn [Py.bind]. apply Hfinish; [exact Hx' | lia | right; reflexivity].
  - (* a < 1 *)
    apply Qlt_alt in Hc. unfold Py.fmul.
    destruct (fl_below (400 * a) 400 ltac:(split; [lia | reflexivity]))
      as (z & Ez & Pz & Bz);
      [lra | lra | change (inject_Z 400) with 400%Q; lra |].
    rewrite Ez. change (inject_Z 400) with 400%Q in Bz.
    destruct (round_aspect_range z
                (fun n => r <- Py.truediv_int n 400 ;;
                          Py.Ok (Py.fabs (Py.fsub (Py.Finite a) r)))
                Pz Bz) as (x' & Ex' & Hx').
    { intros n Hn. destruct (truediv_any n 400) as (r & ->);
        [split; [lia |]; assert (2 ^ 9 <= 2 ^ 199) by (apply pow2_mono; lia);
         change (2 ^ 9) with 512 in *; lia
        | split; [lia | reflexivity] |].
      cbn [Py.bind]. eexists. reflexivity. }
    rewrite Ex'. cbn [Py.bind]. apply Hfinish; [exact Hx' | lia | right; reflexivity].
  - (* a > 1 *)
    apply Qgt_alt in Hc. unfold Py.fdiv.
    rewrite (not_zero_positive a Pa). cbn [Py.bind].
    assert (Hq : (400 / a * a == 400)%Q) by (field; lra).
    assert (Hq0 : (0 < 400 / a)%Q) by (apply Qlt_shift_div_l; lra).
    destruct (fl_below (400 / a) 400 ltac:(split; [lia | reflexivity]))
      as (z & Ez & Pz & Bz).
    + exact Hq0.
    + apply Qle_shift_div_l; [exact Pa | lra].
    + change (inject_Z 400) with 400%Q. apply Qle_shift_div_r; [exact Pa | lra].
    + rewrite Ez. change (inject_Z 400) with 400%Q in Bz.
      destruct (round_aspect_range z
                  (fun n => if n =? 0 then Py.Ok (Py.Finite 0)
                            else r <- Py.truediv_int 400 n ;;
                                 Py.Ok (Py.fabs (Py.fsub (Py.Finite a) r)))
                  Pz Bz) as (y' & Ey' & Hy').
      { intros n Hn. destruct (Z.eqb_spec n 0) as [_ | Hne]; [eexists; reflexivity |].
        destruct (truediv_any 400 n) as (r & ->);
          [split; [lia | reflexivity]
          | split; [lia |]; assert (2 ^ 9 <= 2 ^ 199) by (apply pow2_mono; lia);
            change (2 ^ 9) with 512 in *; lia |].
        cbn [Py.bind]. eexists. reflexivity. }
      rewrite Ey'. cbn [Py.bind]. apply Hfinish; [lia | exact Hy' | left; reflexivity].
Qed.

Lemma preview_source_shape (lib : PIL.Build) (req : Request) (opacity : Z)
    (file : Upload) (img0 : PIL.Image) :
  stream file = Py.Ok img0 ->
  match preview_source lib req opacity file with
  | Py.Ok src =>
      (PIL.size src = PIL.size img0 \/
       PIL.size src = (PIL.height img0, PIL.width img0)) /\
      PIL.mode src = (if negb (String.eqb (watermark_text_of req) "")
                      then "RGBA" else PIL.mode img0)
  | Py.Raise e =>
      Py.int_of_str (rotate (transformations_of req)) = Py.Raise e \/
      (e = Py.OverflowError /\ watermark_text_of req <> "" /\
       PIL.c_int opacity = false)
  end.
Proof.
  intros Hopen. unfold preview_source. rewrite Hopen. cbn [Py.bind].
  pose proof (exif_transpose_shape img0) as [Hm0 Hs0].
  pose proof (apply_transformations_shape lib (PIL.exif_transpose img0)
                (transformations_of req)) as Hshape.
  destruct (apply_transformations lib _ _) as [turned | e]; cbn [Py.bind].
  2:{ left. exact (proj2 Hshape). }
  destruct Hshape as [Hm1 Hs1].
  assert (Hs : PIL.size turned = PIL.size img0 \/
               PIL.size turned = (PIL.height img0, PIL.width img0)).
  { unfold PIL.size in *. destruct Hs1 as [Hs1 | Hs1], Hs0 as [Hs0 | Hs0];
      injection Hs1 as -> ->; injection Hs0 as -> ->; auto. }
  destruct (String.eqb_spec (watermark_text_of req) "") as [E | Hne]; cbn [negb].
  - split; [exact Hs | congruence].
  - destruct (add_watermark_cases lib turned _ (watermark_position_of req) opacity Hne)
      as [Hin Hover].
    destruct (PIL.c_int opacity) eqn:Hc.
    + destruct (Hin eq_refl) as (out & -> & Hmo & Hso).
      split; [rewrite Hso; exact Hs | exact Hmo].
    + rewrite (Hover eq_refl). right. repeat split. exact Hne.
Qed.

(** X14.  The preview of an upload that opens, with positive sides (below
    [2^199]), in a request that was read.  The thumbnail step never
    fails, and every preview is at least 1 and at most 400 pixels on
    both sides, with one side of exactly 400 unless the picture is sent
    in the size of the upload.  The only errors are a [rotate] field
    that is not an integer, an opacity outside the range of a C [int]
    under a watermark, and a PNG encoder that refuses the mode, which
    is RGBA under a watermark and the mode of the upload otherwise. *)
Theorem preview_within_400 :
  forall (lib : PIL.Build) (req : Request) (opacity : Z)
         (file : Upload) (rest : list Upload) (img0 : PIL.Image),
    files req = file :: rest ->
    watermark_opacity_of req = Py.Ok opacity ->
    stream file = Py.Ok img0 ->
    0 < PIL.width img0 < 2 ^ 199 ->
    0 < PIL.height img0 < 2 ^ 199 ->
    match preview_image lib req with
    | JsonPreview buf w h =>
        1 <= w <= 400 /\ 1 <= h <= 400 /\
        PIL.size (PIL.enc_image buf) = (w, h) /\
        (w = 400 \/ h = 400 \/ (w, h) = PIL.size img0 \/
         (w, h) = (PIL.height img0, PIL.width img0))
    | JsonError status err =>
        status = 500 /\
        ((exists e, Py.int_of_str (rotate (transformations_of req)) = Py.Raise e /\
                    err = StrOf e) \/
         (err = StrOf Py.OverflowError /\ watermark_text_of req <> "" /\
          (opacity < - 2147483648 \/ 2147483647 < opacity)) \/
         (err = StrOf Py.OSError /\
          PIL.encodes lib "PNG"
            (if negb (String.eqb (watermark_text_of req) "")
             then "RGBA" else PIL.mode img0) = false))
    | SendFile _ _ _ _ => False
    | Uncaught _ => False
    end.
Proof.
  intros lib req opacity file rest img0 Hfiles Hop Hopen Hw Hh.
  unfold preview_image. rewrite Hfiles, Hop.
  pose proof (preview_source_shape lib req opacity file img0 Hopen) as Hsrc.
  destruct (preview_source lib req opacity file) as [src | e]; cbn [Py.bind].
  2:{ split; [reflexivity |].
      destruct Hsrc as [Hrot | (-> & Hne & Hc)].
      - left. exists e. split; [exact Hrot | reflexivity].
      - right; left. split; [reflexivity |]. split; [exact Hne |].
        apply not_true_iff_false in Hc. rewrite c_int_range in Hc. lia. }
  destruct Hsrc as [Hs Hm].
  assert (Hdims : 0 < PIL.width src < 2 ^ 199 /\ 0 < PIL.height src < 2 ^ 199).
  { unfold PIL.size in Hs. destruct Hs as [Hs | Hs]; injection Hs as -> ->; split; assumption. }
  destruct (thumbnail_within src (proj1 Hdims) (proj2 Hdims))
    as (out & -> & Hwo & Hho & Hmo & Hcase).
  cbn [Py.bind]. unfold PIL.save.
  destruct (PIL.encodes lib "PNG" (PIL.mode out)) eqn:Henc; cbn [Py.bind].
  - split; [exact Hwo |]. split; [exact Hho |]. split; [reflexivity |].
    destruct Hcase as [-> | [H | H]]; [| left; exact H | right; left; exact H].
    right; right. exact Hs.
  - split; [reflexivity |]. right; right. split; [reflexivity |].
    rewrite <- Hm, <- Hmo. exact Henc.
Qed.

(** X14 at the 1600 x 900 photo, turned by a quarter and watermarked. *)
Lemma preview_within_400_witness :
  exists buf,
    preview_image reference_build
      (single [("rotate", "90"); ("watermark_text", "DRAFT")])
      = JsonPreview buf 225 400.
Proof.
  pose proof (preview_within_400 reference_build
                (single [("rotate", "90"); ("watermark_text", "DRAFT")])
                128 (upload "photo.jpg" wide_photo) [] wide_photo
                eq_refl eq_refl eq_refl
                ltac:(split; reflexivity) ltac:(split; reflexivity)) as H.
  destruct (preview_image reference_build
              (single [("rotate", "90"); ("watermark_text", "DRAFT")]))
    as [status err | | buf w h |] eqn:E; try contradiction.
  - exfalso. vm_compute in E. discriminate E.
  - exists buf. vm_compute in E. injection E as _ <- <-. reflexivity.
Defined.

(** ** Percent mode with a whole number *)

(** Rounding commutes with the change of sign. *)
Lemma fl_opp (x y : Q) :
  Py.fl x = Py.Finite y -> Py.fl (- x) = Py.Finite (- y).
Proof.
  unfold Py.fl. cbv zeta. rewrite Qred_opp.
  destruct (Qred x) as [n dp]. change (- (n # dp))%Q with ((- n) # dp).
  cbv beta iota delta [Qnum Qden].
  destruct (Z.eqb_spec n 0) as [-> | Hn].
  - cbn. intros H. injection H as <-. reflexivity.
  - replace (- n =? 0) with false by (symmetry; apply Z.eqb_neq; lia).
    rewrite Z.abs_opp.
    set (e := Z.max (Py.ilog2 (Z.abs n) (Z.pos dp) - 52) (-1074)).
    set (m := Py.rne _ _).
    destruct (2 ^ 1024 <=? _); [discriminate |].
    intros H. injection H as <-. f_equal.
    unfold Py.dyadic. rewrite Z.sgn_opp, <- Qred_opp.
    set (A := 2 ^ Z.max e 0). set (B := Z.to_pos _).
    change (- (Z.sgn n * m * A # B))%Q with ((- (Z.sgn n * m * A)) # B).
    replace (- Z.sgn n * m * A) with (- (Z.sgn n * m * A)) by ring.
    reflexivity.
Qed.

Lemma fl_int_exact (w : Z) :
  0 < w < 2 ^ 53 ->
  exists y, Py.fl (inject_Z w) = Py.Finite y /\ (y == inject_Z w)%Q.
Proof.
  intros Hw. destruct (float_of_int_exact w Hw) as (y & Hy & Ey).
  exists y. split; [| exact Ey].
  unfold Py.float_of_int in Hy.
  destruct (Py.fl (inject_Z w)); [| discriminate Hy |]; injection Hy as ->; reflexivity.
Qed.

(** The binary64 quotient of a positive integer below [2^53] by 100 has
    the integer part of the exact quotient. *)
Lemma hundredth (N : Z) :
  0 < N < 2 ^ 53 ->
  exists y,
    Py.fl (inject_Z N / 100) = Py.Finite y /\ (0 < y)%Q /\
    Qnum y / Z.pos (Qden y) = N / 100.
Proof.
  intros HN.
  pose proof (Z.div_mod N 100 ltac:(lia)) as E.
  pose proof (Z.mod_pos_bound N 100 ltac:(lia)) as Hr.
  set (k := N / 100) in *. set (r := N mod 100) in *.
  assert (QN : (1 <= inject_Z N)%Q) by (apply inject_pos; lia).
  assert (QN' : (inject_Z N <= 9007199254740991)%Q).
  { change 9007199254740991%Q with (inject_Z 9007199254740991).
    rewrite <- Zle_Qle. change (2 ^ 53) with 9007199254740992 in HN. lia. }
  assert (Hbounds : exists y, Py.fl (inject_Z N / 100) = Py.Finite y /\ (0 < y)%Q /\
            (inject_Z k <= y)%Q /\ (y < inject_Z k + 1)%Q).
  { destruct (Z.eq_dec r 0) as [Hr0 | Hr0].
    - (* the quotient is an integer *)
      assert (Hk : 0 < k < 2 ^ 53) by lia.
      destruct (fl_int_exact k Hk) as (y & Hy & Ey).
      exists y. rewrite (fl_proper (inject_Z N / 100) (inject_Z k)).
      + split; [exact Hy |]. rewrite Ey.
        pose proof (inject_pos k (proj1 Hk)). repeat split; lra.
      + replace N with (100 * k) by lia. rewrite inject_Z_mult.
        change (inject_Z 100) with 100%Q. field.
    - destruct (fl_quotient (inject_Z N) 100) as (y & Hy & Py & Ly & Uy); try lra.
      exists y. split; [exact Hy |]. split; [exact Py |].
      assert (EN : (inject_Z N == 100 * inject_Z k + inject_Z r)%Q).
      { change 100%Q with (inject_Z 100).
        rewrite <- inject_Z_mult, <- inject_Z_plus. rewrite <- E. reflexivity. }
      assert (Qr : (1 <= inject_Z r)%Q) by (apply inject_pos; lia).
      assert (Qr' : (inject_Z r <= 99)%Q).
      { change 99%Q with (inject_Z 99). rewrite <- Zle_Qle. lia. }
      split; lra. }
  destruct Hbounds as (y & Hy & Py & Lo & Up).
  exists y. split; [exact Hy |]. split; [exact Py |].
  destruct y as [a b]. unfold Qle, Qlt, Qplus, inject_Z in Lo, Up.
  cbn [Qnum Qden] in Lo, Up |- *.
  pose proof (Pos2Z.is_pos b) as Hb. set (B := Z.pos b) in *.
  symmetry. apply Z.div_unique with (r := a - B * k); lia.
Qed.

Lemma scaled_whole (side p : Z) (q : Q) :
  0 < side < 2 ^ 53 -> (q == inject_Z p)%Q -> Z.abs (side * p) < 2 ^ 53 ->
  scaled side (Py.Finite q) = Py.Ok (Z.max 1 (side * p / 100)).
Proof.
  intros Hside Hq Hbound.
  unfold scaled.
  assert (H100 : Py.is_zero (Py.Finite 100) = false) by reflexivity.
  destruct (float_of_int_exact side Hside) as (ys & -> & Eys). cbn [Py.bind].
  unfold Py.fmul, Py.fdiv. 
  assert (Eprod : (ys * q == inject_Z (side * p))%Q).
  { rewrite Eys, Hq, inject_Z_mult. reflexivity. }
  rewrite (fl_proper _ _ Eprod).
  destruct (Z.lt_trichotomy (side * p) 0) as [Hneg | [Hzero | Hposi]].
  - (* a negative percentage *)
    set (N := - (side * p)).
    assert (HN : 0 < N < 2 ^ 53) by lia.
    destruct (fl_int_exact N HN) as (yN & EyN & QyN).
    assert (Efl : Py.fl (inject_Z (side * p)) = Py.Finite (- yN)).
    { rewrite (fl_proper (inject_Z (side * p)) (- inject_Z N)).
      - apply fl_opp. exact EyN.
      - unfold N. rewrite inject_Z_opp. ring. }
    rewrite Efl. rewrite H100. cbn [Py.bind].
    destruct (hundredth N HN) as (y & Ey & Py & Fy).
    assert (Eq2 : Py.fl (- yN / 100) = Py.Finite (- y)).
    { rewrite (fl_proper (- yN / 100) (- (inject_Z N / 100))).
      - apply fl_opp. exact Ey.
      - rewrite QyN. field. }
    rewrite Eq2. unfold Py.int_of_float. cbn [Py.bind Qopp Qnum Qden].
    f_equal.
    rewrite Z.quot_opp_l by lia.
    rewrite Z.quot_div_nonneg; [| unfold Qlt in Py; cbn in Py; lia | lia].
    rewrite Fy.
    assert (0 <= N / 100) by (apply Z.div_pos; lia).
    assert (side * p / 100 < 0) by (apply Z.div_lt_upper_bound; lia).
    lia.
  - (* zero *)
    rewrite Hzero. change (Py.fl (inject_Z 0)) with (Py.Finite 0).
    rewrite H100. cbn [Py.bind]. reflexivity.
  - set (N := side * p) in *.
    assert (HN : 0 < N < 2 ^ 53) by lia.
    destruct (fl_int_exact N HN) as (yN & EyN & QyN).
    rewrite EyN, H100. cbn [Py.bind].
    destruct (hundredth N HN) as (y & Ey & Py & Fy).
    rewrite (fl_proper (yN / 100) (inject_Z N / 100)) by (rewrite QyN; reflexivity).
    rewrite Ey, (int_of_positive y Py). cbn [Py.bind]. rewrite Fy. reflexivity.
Qed.



(** ** Rotation comes before the flips *)

(** X16.  The rotation is applied first, then the horizontal flip, then
    the vertical one: a request with all three is the rotation followed
    by the flips on its result.  The order shows: a clockwise quarter
    turn followed by the mirror is the reflection in the main diagonal
    (the pixel of column [x], row [y] comes from column [y], row [x]),
    whereas the mirror followed by the quarter turn is the reflection
    in the other diagonal. *)
Theorem rotation_before_flips :
  forall (lib : PIL.Build) (img : PIL.Image) (s : string) (fh fv : bool),
    apply_transformations lib img
      {| rotate := s; flip_horizontal := fh; flip_vertical := fv |}
      = (turned <- apply_transformations lib img (turn s) ;;
         mirrored <- apply_transformations lib turned
                       {| rotate := ""; flip_horizontal := fh; flip_vertical := false |} ;;
         apply_transformations lib mirrored
           {| rotate := ""; flip_horizontal := false; flip_vertical := fv |}) /\
    (exists a,
       apply_transformations lib img
         {| rotate := "90"; flip_horizontal := true; flip_vertical := false |}
         = Py.Ok a /\
       PIL.size a = (PIL.height img, PIL.width img) /\
       forall x y, PIL.px a x y = PIL.px img y x) /\
    (exists m b,
       apply_transformations lib img mirror = Py.Ok m /\
       apply_transformations lib m (turn "90") = Py.Ok b /\
       PIL.size b = (PIL.height img, PIL.width img) /\
       forall x y, PIL.px b x y
                     = PIL.px img (PIL.width img - 1 - y) (PIL.height img - 1 - x)).
Proof.
  intros lib img s fh fv. split; [| split].
  - unfold apply_transformations, turn; cbn [rotate flip_horizontal flip_vertical].
    destruct (String.eqb s ""); cbn [negb Py.bind].
    + change (String.eqb "" "") with true. cbn [negb Py.bind]. reflexivity.
    + destruct (Py.int_of_str s) as [angle | e]; cbn [Py.bind]; [| reflexivity].
      destruct ((angle =? 90) || (angle =? 180) || (angle =? 270));
        cbn [Py.bind]; change (String.eqb "" "") with true; cbn [negb Py.bind];
        reflexivity.
  - exists (PIL.transpose PIL.FLIP_LEFT_RIGHT (PIL.transpose PIL.ROTATE_270 img)).
    repeat split. intros x y. cbn. f_equal; lia.
  - exists (PIL.transpose PIL.FLIP_LEFT_RIGHT img),
      (PIL.transpose PIL.ROTATE_270 (PIL.transpose PIL.FLIP_LEFT_RIGHT img)).
    repeat split.
Qed.

(** ** Percent mode with a percentage that is no number *)

(** X17.  [float()] accepts the texts [nan] and [inf]; percent mode then
    fails in [int()]: with [ValueError] for a NaN, with [OverflowError]
    for an infinity.  (Pictures with sides below [2^53].) *)
Theorem percent_not_finite :
  forall (req : Request) (pa : bool) (img : PIL.Image) (x : Py.float),
    Py.float_of_str (Py.or_else (form_get req "percent") "100") = Py.Ok x ->
    0 < PIL.width img < 2 ^ 53 ->
    (x = Py.NaN -> resize_step req "percent" pa img = Py.Raise Py.ValueError) /\
    (forall s, x = Py.Infinity s ->
       resize_step req "percent" pa img = Py.Raise Py.OverflowError).
Proof.
  intros req pa img x Hparse Hw.
  destruct (float_of_int_exact _ Hw) as (ys & Eys & Qys).
  assert (Hnz : Py.is_zero (Py.Finite ys) = false).
  { apply not_zero_positive. rewrite Qys.
    pose proof (inject_pos _ (proj1 Hw)). lra. }
  unfold resize_step. change (String.eqb "percent" "percent") with true. cbv iota.
  rewrite Hparse. cbn [Py.bind]. split.
  - intros ->. cbn. unfold scaled. rewrite Eys. reflexivity.
  - intros s ->.
    assert (Hfne : Py.fne (Py.Infinity s) (Py.Finite 100) = true)
      by (destruct s; reflexivity).
    rewrite Hfne. unfold scaled. rewrite Eys. cbn [Py.bind].
    unfold Py.fmul. rewrite Hnz. cbn [orb Py.is_zero].
    unfold Py.fdiv. change (Py.is_zero (Py.Finite 100)) with false. cbv iota.
    reflexivity.
Qed.

(** X17 at the percentages [nan] and [-inf]. *)
Lemma percent_not_finite_witness :
  resize_step (single [("mode", "percent"); ("percent", "nan")]) "percent" false
    wide_photo = Py.Raise Py.ValueError /\
  convert reference_build (single [("mode", "percent"); ("percent", "-inf")])
    = JsonError 500 (StrOf Py.OverflowError).
Proof.
  split.
  - destruct (percent_not_finite
                (single [("mode", "percent"); ("percent", "nan")]) false wide_photo
                Py.NaN) as [H _].
    + vm_compute. reflexivity.
    + split; reflexivity.
    + exact (H eq_refl).
  - vm_compute. reflexivity.
Defined.

(** ** The preview and the conversion *)

Lemma loop_body_without_resize (lib : PIL.Build) (req : Request) (opacity : Z)
    (file : Upload) :
  mode_of req <> "percent" -> mode_of req <> "exact" ->
  loop_body lib req opacity file
    = (img <- preview_source lib req opacity file ;;
       match lookup (target_of req) ALLOWED with
       | None => Py.Raise Py.KeyError
       | Some (fmt, ext, mime) =>
           save_params <- build_save_params fmt (quality_of req) ;;
           buf <- PIL.save lib fmt save_params (encoder_input fmt img) ;;
           Py.Ok (output_name file ext, buf)
       end).
Proof.
  intros Hp He. unfold loop_body, convert_file, preview_source.
  destruct (stream file) as [img0 | e]; cbn [Py.bind]; [| reflexivity].
  destruct (apply_transformations lib _ _) as [turned | e]; cbn [Py.bind];
    [| reflexivity].
  rewrite (resize_step_other_modes req _ _ turned Hp He). cbn [Py.bind].
  destruct (negb _); [| reflexivity].
  destruct (add_watermark lib turned _ _ opacity); reflexivity.
Qed.

(** X19.  The preview shows what is converted.  For one upload of at most
    400 pixels a side and a request that resizes nothing, the answer of
    [convert] is the encoding, in the target format, of the very picture
    of the preview document (flattened to RGB where the format asks for
    it), under the upload's name with the new extension. *)
Theorem preview_shows_conversion :
  forall (lib : PIL.Build) (req : Request) (file : Upload) (img0 : PIL.Image)
         (fmt ext mime : string) (buf : PIL.Encoded) (w h : Z),
    files req = [file] ->
    stream file = Py.Ok img0 ->
    PIL.width img0 <= 400 -> PIL.height img0 <= 400 ->
    mode_of req <> "percent" -> mode_of req <> "exact" ->
    lookup (target_of req) ALLOWED = Some (fmt, ext, mime) ->
    preview_image lib req = JsonPreview buf w h ->
    convert lib req
      = match (save_params <- build_save_params fmt (quality_of req) ;;
               PIL.save lib fmt save_params (encoder_input fmt (PIL.enc_image buf))) with
        | Py.Ok out => SendFile (FileBody out) true (output_name file ext) (Some mime)
        | Py.Raise e => JsonError 500 (StrOf e)
        end.
Proof.
  intros lib req file img0 fmt ext mime buf w h Hfiles Hopen Hw Hh Hp He Hfmt Hprev.
  unfold preview_image in Hprev. rewrite Hfiles in Hprev.
  unfold convert. rewrite Hfiles, Hfmt.
  destruct (watermark_opacity_of req) as [opacity | e]; [| discriminate Hprev].
  cbn [Py.for_each]. rewrite (loop_body_without_resize lib req opacity file Hp He).
  pose proof (preview_source_shape lib req opacity file img0 Hopen) as Hshape.
  destruct (preview_source lib req opacity file) as [src | e]; cbn [Py.bind] in *;
    [| discriminate Hprev].
  destruct Hshape as [Hs _].
  assert (Hfit : PIL.thumbnail (400, 400) "LANCZOS" src = Py.Ok src).
  { unfold PIL.size in Hs.
    apply thumbnail_fits; destruct Hs as [Hs | Hs]; injection Hs as E1 E2; lia. }
  rewrite Hfit in Hprev. cbn [Py.bind] in Hprev. unfold PIL.save in Hprev.
  destruct (PIL.encodes lib "PNG" (PIL.mode src)); [| discriminate Hprev].
  cbn [Py.bind] in Hprev. injection Hprev as <- _ _. cbn [PIL.enc_image].
  rewrite Hfmt.
  destruct (build_save_params fmt (quality_of req)) as [params | e]; cbn [Py.bind];
    [| reflexivity].
  destruct (PIL.save lib fmt params (encoder_input fmt src)) as [out | e];
    cbn [Py.bind]; reflexivity.
Qed.

(** X19 at a 300 x 200 upload turned by a quarter and sent for JPEG. *)
Lemma preview_shows_conversion_witness :
  exists buf out,
    preview_image reference_build
      (request [upload "s.png" small_photo] [("format", "jpeg"); ("rotate", "90")])
      = JsonPreview buf 200 300 /\
    convert reference_build
      (request [upload "s.png" small_photo] [("format", "jpeg"); ("rotate", "90")])
      = SendFile (FileBody out) true "s.jpg" (Some "image/jpeg") /\
    PIL.enc_image out = PIL.enc_image buf.
Proof.
  set (req := request [upload "s.png" small_photo]
                [("format", "jpeg"); ("rotate", "90")]).
  assert (Hprev : exists buf, preview_image reference_build req = JsonPreview buf 200 300)
    by (eexists; vm_compute; reflexivity).
  destruct Hprev as (buf & Hprev).
  pose proof (preview_shows_conversion reference_build req
                (upload "s.png" small_photo) small_photo
                "JPEG" "jpg" "image/jpeg" buf 200 300
                eq_refl eq_refl ltac:(vm_compute; discriminate)
                ltac:(vm_compute; discriminate)
                ltac:(vm_compute; discriminate) ltac:(vm_compute; discriminate)
                eq_refl Hprev) as Hconv.
  vm_compute in Hprev. injection Hprev as <-.
  exists {| PIL.enc_format := "PNG"; PIL.enc_params := [];
            PIL.enc_image := PIL.transpose PIL.ROTATE_270 small_photo |}.
  eexists. split; [vm_compute; reflexivity |]. split; [exact Hconv |]. reflexivity.
Defined.

(** ** What the conversion and the analysis depend on *)

Lemma resize_step_same_reads (req req' : Request) (mode : string) (pa : bool)
    (img : PIL.Image) :
  (forall k, In k ["percent"; "width"; "height"] ->
     form_get req' k = form_get req k) ->
  resize_step req' mode pa img = resize_step req mode pa img.
Proof.
  intros Hget. unfold resize_step, form_int_or_0.
  rewrite !Hget by (simpl; tauto). reflexivity.
Qed.

(** X20.  What the answer of the conversion route depends on: whether
    the body exceeds the limit of 16 MiB, the uploads, and thirteen
    form fields.  Two requests that agree on these get the same answer,
    whatever else their forms hold; and a body over the limit is
    answered with status 413 before the form is looked at, so also
    when it holds no upload or an unknown format. *)
Theorem convert_reads :
  forall (lib : PIL.Build) (inc inc' : Incoming),
    (too_large inc = too_large inc' ->
     files (parsed inc) = files (parsed inc') ->
     (forall k,
        In k ["format"; "mode"; "quality"; "rotate"; "flip_horizontal";
              "flip_vertical"; "watermark_text"; "watermark_position";
              "watermark_opacity"; "preserve_aspect"; "percent"; "width";
              "height"] ->
        form_get (parsed inc) k = form_get (parsed inc') k) ->
     post_convert lib inc = post_convert lib inc') /\
    (MAX_CONTENT_LENGTH < content_length inc ->
     post_convert lib inc = RequestEntityTooLarge) /\
    (content_length inc <= MAX_CONTENT_LENGTH ->
     post_convert lib inc = Handled (convert lib (parsed inc))).
Proof.
  intros lib inc inc'. split; [| split].
  - intros Hsize Hfiles Hget. unfold post_convert. rewrite Hsize.
    destruct (too_large inc'); [reflexivity |]. f_equal.
    apply convert_same_reads.
    + exact Hfiles.
    + unfold target_of. rewrite Hget by (simpl; tauto). reflexivity.
    + unfold mode_of. rewrite Hget by (simpl; tauto). reflexivity.
    + unfold quality_of, form_get_or. rewrite Hget by (simpl; tauto). reflexivity.
    + unfold transformations_of, form_get_or, form_flag.
      rewrite !Hget by (simpl; tauto). reflexivity.
    + unfold watermark_text_of, form_get_or. rewrite Hget by (simpl; tauto). reflexivity.
    + unfold watermark_position_of, form_get_or. rewrite Hget by (simpl; tauto).
      reflexivity.
    + unfold watermark_opacity_of, form_get_or. rewrite Hget by (simpl; tauto).
      reflexivity.
    + unfold preserve_aspect_of, form_flag. rewrite Hget by (simpl; tauto). reflexivity.
    + intros mode pa img. apply resize_step_same_reads.
      intros k Hk. apply Hget. simpl in Hk |- *. tauto.
  - intros Hbig. unfold post_convert, too_large.
    replace (MAX_CONTENT_LENGTH <? content_length inc) with true
      by (symmetry; apply Z.ltb_lt; exact Hbig).
    reflexivity.
  - intros Hfits. unfold post_convert, too_large.
    replace (MAX_CONTENT_LENGTH <? content_length inc) with false
      by (symmetry; apply Z.ltb_ge; exact Hfits).
    reflexivity.
Qed.

(** X20 at a body of 17 MiB without any upload. *)
Lemma convert_reads_witness :
  post_convert reference_build
    {| content_length := 17 * 1024 * 1024; parsed := request [] [] |}
    = RequestEntityTooLarge.
Proof.
  destruct (convert_reads reference_build
              {| content_length := 17 * 1024 * 1024; parsed := request [] [] |}
              {| content_length := 0; parsed := request [] [] |}) as (_ & Hbig & _).
  apply Hbig. reflexivity.
Defined.

(** X21.  What the answer of the analysis route depends on, and in
    which order.  Without a client the answer is 503, also for a body
    over the limit, which is never looked at.  With a client, a body
    over the limit is answered with status 413; within the limit, the
    answer depends on what the first upload opens as and on nothing
    else: not on its name, not on a further upload, not on any form
    field. *)
Theorem analysis_reads :
  forall (lib : PIL.Build) (client : Vision) (inc inc' : Incoming),
    post_analyze_image lib None inc
      = Handled (AnalyzeError 503
                   (Message "AI analysis not available. Please configure OpenAI API key.")) /\
    (MAX_CONTENT_LENGTH < content_length inc ->
     post_analyze_image lib (Some client) inc = RequestEntityTooLarge) /\
    (too_large inc = too_large inc' ->
     option_map stream (hd_error (files (parsed inc)))
       = option_map stream (hd_error (files (parsed inc'))) ->
     post_analyze_image lib (Some client) inc
       = post_analyze_image lib (Some client) inc').
Proof.
  intros lib client inc inc'. split; [reflexivity | split].
  - intros Hbig. unfold post_analyze_image, too_large.
    replace (MAX_CONTENT_LENGTH <? content_length inc) with true
      by (symmetry; apply Z.ltb_lt; exact Hbig).
    reflexivity.
  - intros Hsize Hfirst. unfold post_analyze_image. rewrite Hsize.
    destruct (too_large inc'); [reflexivity |]. f_equal.
    unfold analyze_image.
    destruct (files (parsed inc)) as [| f fs], (files (parsed inc')) as [| f' fs'];
      cbn [hd_error option_map] in Hfirst; try discriminate Hfirst; [reflexivity |].
    injection Hfirst as ->. reflexivity.
Qed.

(** X21 at one picture sent under two names, the second time with a
    form field and a further upload. *)
Lemma analysis_reads_witness :
  post_analyze_image reference_build (Some canned_vision)
    {| content_length := 1024; parsed := small_preview |}
    = post_analyze_image reference_build (Some canned_vision)
        {| content_length := 4096;
           parsed := request [upload "other.png" small_photo;
                              upload "photo.jpg" wide_photo]
                       [("format", "bmp")] |}.
Proof.
  destruct (analysis_reads reference_build canned_vision
              {| content_length := 1024; parsed := small_preview |}
              {| content_length := 4096;
                 parsed := request [upload "other.png" small_photo;
                                    upload "photo.jpg" wide_photo]
                             [("format", "bmp")] |}) as (_ & _ & H).
  apply H; reflexivity.
Defined.
